(** * NestTestKit: the test-database lifecycle manager and its seeding engine

    A shallow embedding of the TypeScript sources

    - [src/utils/errors.ts]                        module [Errors]
    - [src/core/interfaces/index.ts]               module [Interfaces]
    - [src/adapters/prisma-adapter.ts]             module [PrismaAdapter]
    - [src/adapters/typeorm-adapter.ts]            module [TypeORMAdapter]
    - [src/adapters/mongoose-adapter.ts]           module [MongooseAdapter]
    - [src/core/test-database-manager.ts],
      [src/core/typeorm-test-database-manager.ts],
      [src/core/mongoose-test-database-manager.ts] modules [Seeding],
                                                   [TestDatabase], [Manager]

    An asynchronous function is modelled by what its promise settles to: a
    value, or the value thrown ([Throw]).  A method is a function on the
    fields of its object and on the [World], which holds everything the code
    reaches outside the process: the database behind the connection, the
    migration tool, the file system, the clock. *)

From Stdlib Require Import String Ascii.
From stdpp Require Import base option list strings gmap pretty.

Local Open Scope string_scope.

#[local] Set Warnings "-clear-no-such-hyp".

(* ===================================================================== *)
(** ** Thrown values: [src/utils/errors.ts]                               *)
(* ===================================================================== *)

Module Errors.

(** An error that is not a [NestTestKitError]: a plain [Error] the code
    builds with [new Error(msg)], or what a driver throws (then it may
    carry a [code]). *)
Record RawError := {
  raw_name : string;
  raw_message : string;
  raw_code : option string
}.

(** The subclasses of [NestTestKitError]; the base class is its own case. *)
Inductive KitClass :=
| NestTestKitError
| DatabaseError
| ConfigurationError
| MigrationError
| SeedingError
| FactoryError
| TransactionError
| TestSetupError.

(** [this.name = this.constructor.name] *)
Definition className (c : KitClass) : string :=
  match c with
  | NestTestKitError => "NestTestKitError"
  | DatabaseError => "DatabaseError"
  | ConfigurationError => "ConfigurationError"
  | MigrationError => "MigrationError"
  | SeedingError => "SeedingError"
  | FactoryError => "FactoryError"
  | TransactionError => "TransactionError"
  | TestSetupError => "TestSetupError"
  end.

(** The [details] object of a [NestTestKitError], by the shapes the code
    builds. *)
Inductive Details :=
| DSuggestions (suggestions : list string)
| DBackend (key code : string) (originalError : RawError) (context : option string)
| DOriginal (originalError : RawError) (context : option string).

Inductive JsError :=
| Raw (e : RawError)
| Kit (cls : KitClass) (message code : string) (details : option Details).

(** [new Error(message)] *)
Definition newError (message : string) : JsError :=
  Raw {| raw_name := "Error"; raw_message := message; raw_code := None |}.

(** The subclass constructors fix the [code]. *)
Definition newDatabaseError (message : string) (details : option Details) : JsError :=
  Kit DatabaseError message "DATABASE_ERROR" details.
Definition newConfigurationError (message : string) (details : option Details) : JsError :=
  Kit ConfigurationError message "CONFIGURATION_ERROR" details.
Definition newMigrationError (message : string) (details : option Details) : JsError :=
  Kit MigrationError message "MIGRATION_ERROR" details.
Definition newSeedingError (message : string) (details : option Details) : JsError :=
  Kit SeedingError message "SEEDING_ERROR" details.
Definition newFactoryError (message : string) (details : option Details) : JsError :=
  Kit FactoryError message "FACTORY_ERROR" details.
Definition newTransactionError (message : string) (details : option Details) : JsError :=
  Kit TransactionError message "TRANSACTION_ERROR" details.
Definition newTestSetupError (message : string) (details : option Details) : JsError :=
  Kit TestSetupError message "TEST_SETUP_ERROR" details.

Definition errorMessage (e : JsError) : string :=
  match e with
  | Raw r => raw_message r
  | Kit _ m _ _ => m
  end.

Definition errorName (e : JsError) : string :=
  match e with
  | Raw r => raw_name r
  | Kit c _ _ _ => className c
  end.

Definition isEmpty (s : string) : bool :=
  match s with EmptyString => true | _ => false end.

(** [`${error}`]: [Error.prototype.toString]. *)
Definition toString (e : JsError) : string :=
  if isEmpty (errorName e) then errorMessage e
  else if isEmpty (errorMessage e) then errorName e
  else errorName e ++ ": " ++ errorMessage e.

(** [s.startsWith(p)] and [s.includes(p)] *)
Definition startsWith (s p : string) : bool := String.prefix p s.

Fixpoint includes (s p : string) : bool :=
  String.prefix p s ||
  match s with
  | EmptyString => false
  | String _ s' => includes s' p
  end.

Definition newline : string := String (ascii_of_nat 10) EmptyString.
Definition dquote : string := String (ascii_of_nat 34) EmptyString.

(** [arr.join(sep)] *)
Fixpoint join (sep : string) (l : list string) : string :=
  match l with
  | [] => EmptyString
  | [x] => x
  | x :: l' => x ++ sep ++ join sep l'
  end.

Inductive HelpfulType :=
| database | configuration | migration | seeding | factory | transaction | setup.

(** [errorMap[type]] *)
Definition errorMap (type : HelpfulType) : string -> option Details -> JsError :=
  match type with
  | database => newDatabaseError
  | configuration => newConfigurationError
  | migration => newMigrationError
  | seeding => newSeedingError
  | factory => newFactoryError
  | transaction => newTransactionError
  | setup => newTestSetupError
  end.

(** [ErrorHandler.createHelpfulError] *)
Definition createHelpfulError (type : HelpfulType) (message : string)
    (suggestions : list string) : JsError :=
  let ErrorClass := errorMap type in
  let fullMessage :=
    match suggestions with
    | [] => message
    | _ => message ++ newline ++ newline ++ "Suggestions:" ++ newline
           ++ join newline (map (fun s => "- " ++ s) suggestions)
    end in
  ErrorClass fullMessage (Some (DSuggestions suggestions)).

(** [ErrorHandler.handle] *)
Definition handle (error : JsError) (context : option string) : JsError :=
  match error with
  | Kit _ _ _ _ => error
  | Raw r =>
      let code := default EmptyString (raw_code r) in
      if negb (isEmpty code) && startsWith code "P" then
        newDatabaseError ("Prisma error: " ++ raw_message r)
          (Some (DBackend "prismaCode" code r context))
      else if negb (isEmpty code)
              && (String.eqb code "SQLITE_ERROR" || includes code "SQLITE") then
        newDatabaseError ("SQLite error: " ++ raw_message r)
          (Some (DBackend "sqliteCode" code r context))
      else if negb (isEmpty code) && startsWith code "E" then
        newConfigurationError ("System error: " ++ raw_message r)
          (Some (DBackend "nodeCode" code r context))
      else
        Kit NestTestKitError
          (if isEmpty (raw_message r) then "Unknown error occurred" else raw_message r)
          "UNKNOWN_ERROR" (Some (DOriginal r context))
  end.

(** [ErrorHandler.migrationFailed] *)
Definition migrationFailed (originalError : JsError) : JsError :=
  createHelpfulError migration
    ("Failed to apply database migrations: " ++ errorMessage originalError)
    [ "Check that your Prisma schema file exists and is valid";
      "Ensure you have the necessary permissions to create/modify the database";
      "Try running " ++ dquote ++ "npx prisma generate" ++ dquote
        ++ " to update your Prisma client";
      "Check that your DATABASE_URL is correctly formatted" ].

(** [ErrorHandler.seederDependencyError] *)
Definition seederDependencyError (seederName missingDep : string) : JsError :=
  createHelpfulError seeding
    ("Seeder '" ++ seederName ++ "' depends on '" ++ missingDep ++ "' which was not found")
    [ "Make sure the '" ++ missingDep
        ++ "' seeder is defined and included in your seeder list";
      "Check for circular dependencies in your seeder dependency chain";
      "Verify that seeder names match exactly (case-sensitive)" ].

(** [ErrorHandler.invalidCleanupStrategy] *)
Definition invalidCleanupStrategy (strategy : string) : JsError :=
  createHelpfulError configuration
    ("Invalid cleanup strategy: " ++ strategy)
    [ "Use " ++ dquote ++ "transaction" ++ dquote ++ ", " ++ dquote ++ "truncate"
        ++ dquote ++ ", or " ++ dquote ++ "recreate" ++ dquote;
      "Check your TestDatabaseConfig configuration";
      "Transaction strategy requires transaction support in your database" ].

(** What a call settles to: its value, or the value it throws. *)
Inductive Outcome (A : Type) :=
| Ok (a : A)
| Throw (e : JsError).
Arguments Ok {A} a.
Arguments Throw {A} e.

End Errors.

Export Errors.

(* ===================================================================== *)
(** ** What lies outside the process                                      *)
(* ===================================================================== *)

Module Backend.

(** A call for which [World] has no error field ([tmp.fileSync],
    [fs.remove], the [PRAGMA] statements, the catalogue queries) is taken to
    succeed. *)

(** A table (or collection) of the database under test.  [delete_error]
    is what the database answers to a statement that deletes the rows of
    this table when it refuses it (a locked table, a trigger that
    raises); [None] when it accepts. *)
Record Table := {
  tname : string;
  rows : list string;
  delete_error : option RawError
}.

Record World := {
  (** the tables (collections) the catalogue lists, in catalogue order *)
  tables : list Table;
  (** [PRAGMA foreign_keys] of the connection *)
  foreign_keys : bool;
  (** the tables an empty database gets from the schema *)
  schema : list Table;
  (** database files on disk *)
  files : gset string;
  (** whether the migrations directory next to the schema file exists *)
  hasMigrations : bool;
  (** what opening a connection raises, if anything *)
  connect_error : option RawError;
  (** what applying the migrations (or synchronising the schema) raises *)
  migrate_error : option RawError;
  (** what the fallback [prisma db push] raises *)
  fallback_error : option RawError;
  (** what closing the connection raises *)
  disconnect_error : option RawError;
  (** the answer of [Date.now()] *)
  now : N;
  (** the answer of [Math.random().toString(36)] *)
  random : string;
  (** the file name [tmp.fileSync] picks *)
  tmpName : string;
  (** the URI of a started in-memory MongoDB server *)
  serverUri : string;
  (** the seeders whose [seed] body has been called, oldest first *)
  seedLog : list string
}.

Definition set_tables (t : list Table) (w : World) : World :=
  {| tables := t; foreign_keys := foreign_keys w; schema := schema w;
     files := files w; hasMigrations := hasMigrations w;
     connect_error := connect_error w; migrate_error := migrate_error w;
     fallback_error := fallback_error w; disconnect_error := disconnect_error w;
     now := now w; random := random w; tmpName := tmpName w;
     serverUri := serverUri w; seedLog := seedLog w |}.

Definition set_foreign_keys (b : bool) (w : World) : World :=
  {| tables := tables w; foreign_keys := b; schema := schema w;
     files := files w; hasMigrations := hasMigrations w;
     connect_error := connect_error w; migrate_error := migrate_error w;
     fallback_error := fallback_error w; disconnect_error := disconnect_error w;
     now := now w; random := random w; tmpName := tmpName w;
     serverUri := serverUri w; seedLog := seedLog w |}.

Definition set_files (f : gset string) (w : World) : World :=
  {| tables := tables w; foreign_keys := foreign_keys w; schema := schema w;
     files := f; hasMigrations := hasMigrations w;
     connect_error := connect_error w; migrate_error := migrate_error w;
     fallback_error := fallback_error w; disconnect_error := disconnect_error w;
     now := now w; random := random w; tmpName := tmpName w;
     serverUri := serverUri w; seedLog := seedLog w |}.

Definition set_seedLog (l : list string) (w : World) : World :=
  {| tables := tables w; foreign_keys := foreign_keys w; schema := schema w;
     files := files w; hasMigrations := hasMigrations w;
     connect_error := connect_error w; migrate_error := migrate_error w;
     fallback_error := fallback_error w; disconnect_error := disconnect_error w;
     now := now w; random := random w; tmpName := tmpName w;
     serverUri := serverUri w; seedLog := l |}.

(** The stored data a connection shows: every table with its rows. *)
Definition storedData (w : World) : list (string * list string) :=
  map (fun t => (tname t, rows t)) (tables w).

Definition emptied (t : Table) : Table :=
  {| tname := tname t; rows := []; delete_error := delete_error t |}.

End Backend.

Export Backend.

(* ===================================================================== *)
(** ** Computations over a state that may throw                           *)
(* ===================================================================== *)

(** [M S A]: an asynchronous method body, run to completion on the state
    [S] it can reach.  What was written before a throw stays written. *)
Definition M (S A : Type) : Type := S -> Outcome A * S.

Definition ret {S A} (a : A) : M S A := fun s => (Ok a, s).
Definition throw {S A} (e : JsError) : M S A := fun s => (Throw e, s).
Definition bind {S A B} (m : M S A) (k : A -> M S B) : M S B :=
  fun s => match m s with
           | (Ok a, s') => k a s'
           | (Throw e, s') => (Throw e, s')
           end.
Definition modify {S} (f : S -> S) : M S unit := fun s => (Ok tt, f s).

(** [try { m } catch (error) { h error }] *)
Definition tryCatch {S A} (m : M S A) (h : JsError -> M S A) : M S A :=
  fun s => match m s with
           | (Ok a, s') => (Ok a, s')
           | (Throw e, s') => h e s'
           end.

(** [try { m } finally { f }] *)
Definition tryFinally {S A} (m : M S A) (f : M S unit) : M S A :=
  fun s => match m s with
           | (r, s') => match f s' with
                        | (Ok _, s'') => (r, s'')
                        | (Throw e, s'') => (Throw e, s'')
                        end
           end.

(** [for (const x of l) { body x }] *)
Fixpoint forOf {S A} (l : list A) (body : A -> M S unit) : M S unit :=
  match l with
  | [] => ret tt
  | x :: l' => bind (body x) (fun _ => forOf l' body)
  end.

Declare Scope js_scope.
Delimit Scope js_scope with js.
Notation "'let*' x ':=' m 'in' k" := (bind m (fun x => k))
  (at level 10, x name, m at level 100, k at level 200) : js_scope.

(* ===================================================================== *)
(** ** [src/core/interfaces/index.ts]                                     *)
(* ===================================================================== *)

Module Interfaces.

(** [TestDatabaseConfig] with the fields of its extensions
    [TypeORMConfig] and [MongooseConfig] that the lifecycle reads.  A
    field left out of the object literal is [None].  [cleanup] is kept a
    string: the type [CleanupStrategy] is erased at run time. *)
Record TestDatabaseConfig := {
  databaseUrl : option string;
  cleanup : option string;
  applyMigrations : option bool;
  schemaPath : option string;
  logging : option bool;
  (* TypeORMConfig *)
  type : option string;
  synchronize : option bool;
  runMigrations : option bool;
  dropSchema : option bool;
  (* MongooseConfig *)
  mongoUri : option string;
  useMemoryServer : option bool;
  models : option (list string)
}.

(** [{}] *)
Definition emptyConfig : TestDatabaseConfig :=
  {| databaseUrl := None; cleanup := None; applyMigrations := None;
     schemaPath := None; logging := None; type := None; synchronize := None;
     runMigrations := None; dropSchema := None; mongoUri := None;
     useMemoryServer := None; models := None |}.

(** [{ ...defaults, ...config }] *)
Definition spread (defaults config : TestDatabaseConfig) : TestDatabaseConfig :=
  let pick {A} (f : TestDatabaseConfig -> option A) : option A :=
    match f config with Some v => Some v | None => f defaults end in
  {| databaseUrl := pick databaseUrl; cleanup := pick cleanup;
     applyMigrations := pick applyMigrations; schemaPath := pick schemaPath;
     logging := pick logging; type := pick type; synchronize := pick synchronize;
     runMigrations := pick runMigrations; dropSchema := pick dropSchema;
     mongoUri := pick mongoUri; useMemoryServer := pick useMemoryServer;
     models := pick models |}.

Definition with_databaseUrl (u : string) (c : TestDatabaseConfig) : TestDatabaseConfig :=
  {| databaseUrl := Some u; cleanup := cleanup c;
     applyMigrations := applyMigrations c; schemaPath := schemaPath c;
     logging := logging c; type := type c; synchronize := synchronize c;
     runMigrations := runMigrations c; dropSchema := dropSchema c;
     mongoUri := mongoUri c; useMemoryServer := useMemoryServer c;
     models := models c |}.

(** [DatabaseSeeder]: [seed(client)] is the user's code; it runs against
    the database behind the client. *)
Record DatabaseSeeder := {
  name : string;
  dependencies : option (list string);
  seed : M World unit
}.

(** A truthy string / boolean option, as [x || y] and [if (x)] read them. *)
Definition truthyS (o : option string) : bool :=
  match o with Some s => negb (isEmpty s) | None => false end.
Definition truthyB (o : option bool) : bool := default false o.

End Interfaces.

Export Interfaces.

(* ===================================================================== *)
(** ** Seeder dependency resolution                                       *)
(* ===================================================================== *)

(** [resolveDependencies] is written three times, in [TestDatabase],
    [TypeORMTestDatabase] and [MongooseTestDatabase]; the three bodies
    differ only in the two errors they throw.  [Family] selects the
    class. *)
Module Seeding.

Inductive Family := Prisma | TypeORM | Mongoose.

(** The three locals the closure [visit] writes. *)
Record ResolveState := {
  resolved : list DatabaseSeeder;
  visiting : gset string;
  visited : gset string
}.

Definition initialState : ResolveState :=
  {| resolved := []; visiting := ∅; visited := ∅ |}.

(** [seeders.forEach(seeder => seederMap.set(seeder.name, seeder))] *)
Definition buildSeederMap (seeders : list DatabaseSeeder) : gmap string DatabaseSeeder :=
  foldl (fun m seeder => <[name seeder := seeder]> m) ∅ seeders.

(** thrown when [visiting.has(seederName)] *)
Definition circularError (f : Family) (seederName : string) : JsError :=
  match f with
  | Prisma => newError ("Circular dependency detected in seeders: " ++ seederName)
  | TypeORM | Mongoose =>
      seederDependencyError seederName "circular dependency detected"
  end.

(** thrown when [seederMap.get(seederName)] is [undefined] *)
Definition notFoundError (f : Family) (seederName : string) : JsError :=
  match f with
  | Prisma => newError ("Seeder not found: " ++ seederName)
  | TypeORM | Mongoose => seederDependencyError "unknown" seederName
  end.

(** A loop of calls of [visit], left when one throws.  [None] is an
    exhausted recursion budget. *)
Fixpoint visitEach (visit : string -> ResolveState -> option (Outcome ResolveState))
    (names : list string) (st : ResolveState) : option (Outcome ResolveState) :=
  match names with
  | [] => Some (Ok st)
  | n :: names' =>
      match visit n st with
      | Some (Ok st') => visitEach visit names' st'
      | r => r
      end
  end.

(** The closure [visit].  [depth] bounds the nesting of its calls. *)
Fixpoint visit (f : Family) (seederMap : gmap string DatabaseSeeder) (depth : nat)
    (seederName : string) (st : ResolveState) : option (Outcome ResolveState) :=
  match depth with
  | O => None
  | S depth' =>
      if decide (seederName ∈ visited st) then Some (Ok st)
      else if decide (seederName ∈ visiting st) then
        Some (Throw (circularError f seederName))
      else
        match seederMap !! seederName with
        | None => Some (Throw (notFoundError f seederName))
        | Some seeder =>
            let st1 := {| resolved := resolved st;
                          visiting := {[seederName]} ∪ visiting st;
                          visited := visited st |} in
            let deps :=
              match dependencies seeder with
              | Some deps => visitEach (visit f seederMap depth') deps st1
              | None => Some (Ok st1)
              end in
            match deps with
            | Some (Ok st2) =>
                Some (Ok {| resolved := resolved st2 ++ [seeder];
                            visiting := visiting st2 ∖ {[seederName]};
                            visited := {[seederName]} ∪ visited st2 |})
            | r => r
            end
        end
  end.

Definition resolveWithin (depth : nat) (f : Family) (seeders : list DatabaseSeeder)
    : option (Outcome (list DatabaseSeeder)) :=
  let seederMap := buildSeederMap seeders in
  match visitEach (visit f seederMap depth) (name <$> seeders) initialState with
  | Some (Ok st) => Some (Ok (resolved st))
  | Some (Throw e) => Some (Throw e)
  | None => None
  end.

(** [resolveDependencies].  The calls of [visit] nest at most one deeper
    than there are names in [seederMap] (a name on the active path is
    never entered again), so the budget below is never exhausted:
    [resolveDependencies_total]. *)
Definition resolveDependencies (f : Family) (seeders : list DatabaseSeeder)
    : Outcome (list DatabaseSeeder) :=
  match resolveWithin (S (length seeders)) f seeders with
  | Some r => r
  | None => Throw (Raw {| raw_name := "RangeError";
                          raw_message := "Maximum call stack size exceeded";
                          raw_code := None |})
  end.

(** The dependency graph the resolution walks: an edge from a name to
    each dependency name its seeder in the map declares. *)
Definition declared (seeder : DatabaseSeeder) : list string :=
  default [] (dependencies seeder).

Definition dependsOn (seederMap : gmap string DatabaseSeeder) (a b : string) : Prop :=
  exists seeder, seederMap !! a = Some seeder /\ b ∈ declared seeder.

(** A name that lies on a cycle of declared dependencies. *)
Definition onCycle (seederMap : gmap string DatabaseSeeder) (a : string) : Prop :=
  tc (dependsOn seederMap) a a.

Definition acyclic (seederMap : gmap string DatabaseSeeder) : Prop :=
  forall a, ~ onCycle seederMap a.

(** Every declared dependency name is the name of a seeder in the map. *)
Definition allResolve (seederMap : gmap string DatabaseSeeder) : Prop :=
  forall a b, dependsOn seederMap a b -> is_Some (seederMap !! b).

(** A seeder named [a] stands before one named [b] in [l]. *)
Definition before (l : list DatabaseSeeder) (a b : string) : Prop :=
  exists i j sa sb, l !! i = Some sa /\ l !! j = Some sb /\
                    name sa = a /\ name sb = b /\ i < j.

End Seeding.

Export Seeding.

(* ===================================================================== *)
(** ** What the resolution maintains                                      *)
(* ===================================================================== *)

Module Resolution.

Local Open Scope list_scope.

Definition names (l : list DatabaseSeeder) : list string := name <$> l.

(** [seederMap] holds every seeder under its own name. *)
Definition Keyed (m : gmap string DatabaseSeeder) : Prop :=
  forall k s, m !! k = Some s -> name s = k.

(** Every seeder of [l] has its declared dependencies earlier in [l]. *)
Definition depsFirst (l : list DatabaseSeeder) : Prop :=
  forall i s d, l !! i = Some s -> d ∈ declared s ->
    exists j t, j < i /\ l !! j = Some t /\ name t = d.

(** The invariant of the three locals between two calls of [visit]:
    [resolved] holds the visited names once each, every seeder in it is the
    one the map gives for its name and stands after its declared
    dependencies, and no name of the active path is visited. *)
Record Good (m : gmap string DatabaseSeeder) (st : ResolveState) : Prop := {
  good_nodup : NoDup (names (resolved st));
  good_visited : forall n, n ∈ visited st <-> n ∈ names (resolved st);
  good_map : forall s, s ∈ resolved st -> m !! name s = Some s;
  good_order : depsFirst (resolved st);
  good_disjoint : visiting st ## visited st
}.

(** What visiting [targets] from [st] to [st'] without a throw has done:
    the active path is restored, [resolved] has grown at its end, every
    target is visited, and what became visited is reachable from a
    target. *)
Record Step (m : gmap string DatabaseSeeder) (targets : list string)
    (st st' : ResolveState) : Prop := {
  step_good : Good m st';
  step_visiting : visiting st' = visiting st;
  step_resolved : exists l, resolved st' = resolved st ++ l;
  step_mono : visited st ⊆ visited st';
  step_targets : forall n, n ∈ targets -> n ∈ visited st';
  step_reach : forall x, x ∈ visited st' ->
                 x ∈ visited st \/ exists n, n ∈ targets /\ rtc (dependsOn m) n x
}.

(** What [visit] can throw, and why: the circular-dependency error at a
    name on a cycle, or the not-found error at a declared name that the map
    lacks. *)
Definition Thrown (f : Family) (m : gmap string DatabaseSeeder) (e : JsError) : Prop :=
  (exists x, e = circularError f x /\ onCycle m x) \/
  (exists a x, e = notFoundError f x /\ dependsOn m a x /\ m !! x = None).

(** The text [x] occurs in [msg]. *)
Definition mentions (msg x : string) : Prop :=
  exists pre post, msg = (pre ++ x ++ post)%string.

End Resolution.

Export Resolution.


(* ===================================================================== *)
(** ** The calls the adapters make on their driver                        *)
(* ===================================================================== *)

Module Driver.

Definition lower (c : ascii) : ascii :=
  let n := nat_of_ascii c in
  if Nat.leb 65 n && Nat.leb n 90 then ascii_of_nat (n + 32) else c.

(** SQL [s LIKE pattern]: [%] is any run of characters, [_] any one
    character, letters compare without case. *)
Fixpoint like (pattern s : string) : bool :=
  match pattern with
  | EmptyString => isEmpty s
  | String c p' =>
      if Ascii.eqb c "%"%char then
        (fix any (s : string) : bool :=
           like p' s || match s with
                        | EmptyString => false
                        | String _ s' => any s'
                        end) s
      else
        match s with
        | EmptyString => false
        | String d s' =>
            (Ascii.eqb c "_"%char || Ascii.eqb (lower c) (lower d)) && like p' s'
        end
  end.

(** [s.substring(n)] *)
Fixpoint substringFrom (n : nat) (s : string) : string :=
  match n, s with
  | O, _ => s
  | S n', String _ s' => substringFrom n' s'
  | S _, EmptyString => EmptyString
  end.

Definition raise {A} (o : option RawError) (a : A) : M World A :=
  fun w => match o with
           | Some e => (Throw (Raw e), w)
           | None => (Ok a, w)
           end.

(** [$connect()], [dataSource.initialize()], waiting for [open] *)
Definition connect : M World unit :=
  fun w => raise (connect_error w) tt w.

(** [$disconnect()], [dataSource.destroy()], [connection.close()] *)
Definition disconnect : M World unit :=
  fun w => raise (disconnect_error w) tt w.

(** Adds the tables of the schema that the database lacks. *)
Definition deploy (w : World) : World :=
  set_tables
    (tables w ++
     filter (fun t => tname t ∉ map tname (tables w)) (schema w)) w.

(** [npx prisma migrate deploy], [dataSource.runMigrations()],
    [dataSource.synchronize(false)] *)
Definition migrateDeploy : M World unit :=
  fun w => match migrate_error w with
           | Some e => (Throw (Raw e), w)
           | None => (Ok tt, deploy w)
           end.

(** [npx prisma db push --force-reset], [dataSource.synchronize(true)] *)
Definition pushReset (failure : World -> option RawError) : M World unit :=
  fun w => match failure w with
           | Some e => (Throw (Raw e), w)
           | None => (Ok tt, set_tables (schema w) w)
           end.

(** the database is gone: its file removed, or [dropDatabase()] *)
Definition dropped : M World unit := modify (set_tables []).

(** [fs.pathExists(p)] and [fs.remove(p)] *)
Definition pathExists (p : string) : M World bool :=
  fun w => (Ok (bool_decide (p ∈ files w)), w).
Definition remove (p : string) : M World unit :=
  modify (fun w => set_files (files w ∖ {[p]}) w).

(** the catalogue query of [PrismaAdapter.truncateAllTables] *)
Definition userTables : M World (list string) :=
  fun w => (Ok (filter (fun n => negb (like "sqlite_%" n)
                                 && negb (like "_prisma_migrations" n) = true)
                       (map tname (tables w))), w).

(** [queryRunner.getTables()], [listCollections().toArray()] *)
Definition allTables : M World (list string) :=
  fun w => (Ok (map tname (tables w)), w).

Definition noSuchTable (t : string) : RawError :=
  {| raw_name := "Error"; raw_message := "no such table: " ++ t;
     raw_code := Some "SQLITE_ERROR" |}.

Fixpoint deleteRows (t : string) (l : list Table) : Outcome (list Table) :=
  match l with
  | [] => Throw (Raw (noSuchTable t))
  | x :: l' =>
      if String.eqb (tname x) t then
        match delete_error x with
        | Some e => Throw (Raw e)
        | None => Ok (emptied x :: l')
        end
      else
        match deleteRows t l' with
        | Ok r => Ok (x :: r)
        | Throw e => Throw e
        end
  end.

Inductive Statement :=
| PragmaForeignKeys (on : bool)      (* PRAGMA foreign_keys = ON / OFF *)
| DeleteFrom (table : string)        (* DELETE FROM "table" *)
| TruncateCascade (table : string)   (* TRUNCATE TABLE "table" CASCADE *)
| DeleteMany (collection : string).  (* collection.deleteMany({}) *)

(** [$executeRawUnsafe(q)], [queryRunner.query(q)] *)
Definition execute (q : Statement) : M World unit :=
  fun w =>
    match q with
    | PragmaForeignKeys on => (Ok tt, set_foreign_keys on w)
    | DeleteFrom t | TruncateCascade t | DeleteMany t =>
        match deleteRows t (tables w) with
        | Ok l => (Ok tt, set_tables l w)
        | Throw e => (Throw e, w)
        end
    end.

(** Runs a driver call from a method of an object with fields [A]. *)
Definition onWorld {A B} (m : M World B) : M (A * World) B :=
  fun s => match m (snd s) with (r, w') => (r, (fst s, w')) end.

Definition this {A} : M (A * World) A := fun s => (Ok (fst s), s).
Definition world {A} : M (A * World) World := fun s => (Ok (snd s), s).
Definition assign {A} (f : A -> A) : M (A * World) unit :=
  fun s => (Ok tt, (f (fst s), snd s)).

End Driver.

Export Driver.

Local Open Scope js_scope.

(* ===================================================================== *)
(** ** [src/adapters/prisma-adapter.ts]                                   *)
(* ===================================================================== *)

Module PrismaAdapter.

Record PrismaClient := { datasourceUrl : string }.

Record t := {
  client : option PrismaClient;
  config : TestDatabaseConfig;
  databaseUrl : string
}.

Definition new : t :=
  {| client := None; config := emptyConfig; databaseUrl := EmptyString |}.

Definition set_client (c : option PrismaClient) (a : t) : t :=
  {| client := c; config := config a; databaseUrl := databaseUrl a |}.
Definition set_config (c : TestDatabaseConfig) (a : t) : t :=
  {| client := client a; config := c; databaseUrl := databaseUrl a |}.
Definition set_databaseUrl (u : string) (a : t) : t :=
  {| client := client a; config := config a; databaseUrl := u |}.

Definition defaults : TestDatabaseConfig :=
  {| Interfaces.databaseUrl := Some "file:./test.db"; cleanup := Some "truncate";
     applyMigrations := Some true; schemaPath := None; logging := Some false;
     type := None; synchronize := None; runMigrations := None;
     dropSchema := None; mongoUri := None; useMemoryServer := None;
     models := None |}.

Definition generateDatabaseUrl (a : t) (w : World) : string :=
  if truthyS (Interfaces.databaseUrl (config a)) then
    default EmptyString (Interfaces.databaseUrl (config a))
  else
    "file:./test-" ++ pretty (now w) ++ "-" ++ substringFrom 7 (random w) ++ ".db".

Definition applyMigrations : M (t * World) unit :=
  tryCatch
    (let* w := world in
     if hasMigrations w then onWorld migrateDeploy
     else onWorld (pushReset migrate_error))
    (fun error =>
       tryCatch (onWorld (pushReset fallback_error))
         (fun fallbackError => throw (migrationFailed fallbackError))).

Definition initialize (cfg : TestDatabaseConfig) : M (t * World) unit :=
  tryCatch
    (let* _ := assign (set_config (spread defaults cfg)) in
     let* a := this in
     let* w := world in
     let* _ := assign (set_databaseUrl (generateDatabaseUrl a w)) in
     let* a := this in
     let* _ := assign (set_client (Some {| datasourceUrl := databaseUrl a |})) in
     let* _ := (if truthyB (Interfaces.applyMigrations (config a))
                then applyMigrations else ret tt) in
     onWorld connect)
    (fun error => throw (handle error (Some "PrismaAdapter.initialize"))).

(** The promise [getConnection()] returns, settled. *)
Definition getConnection (a : t) : Outcome PrismaClient :=
  match client a with
  | None => Throw (newError "PrismaAdapter not initialized. Call initialize() first.")
  | Some c => Ok c
  end.

Definition truncateAllTables : M (t * World) unit :=
  let* a := this in
  match client a with
  | None => ret tt
  | Some _ =>
      tryCatch
        (let* tables := onWorld userTables in
         let* _ := onWorld (execute (PragmaForeignKeys false)) in
         let* _ := forOf tables (fun table => onWorld (execute (DeleteFrom table))) in
         onWorld (execute (PragmaForeignKeys true)))
        (fun error => throw (newError ("Failed to truncate tables: " ++ toString error)))
  end.

(** [databaseUrl.match(/file:(.+)/)]: the text after the first [file:]
    that has text after it. *)
Fixpoint extractDbPath (databaseUrl : string) : option string :=
  if String.prefix "file:" databaseUrl
     && negb (isEmpty (substringFrom 5 databaseUrl))
  then Some (substringFrom 5 databaseUrl)
  else match databaseUrl with
       | EmptyString => None
       | String _ rest => extractDbPath rest
       end.

Definition reset : M (t * World) unit :=
  let* a := this in
  match client a with
  | None => ret tt
  | Some _ =>
      tryCatch
        (let* _ := onWorld disconnect in
         let* _ := (if includes (databaseUrl a) ":memory:" then
                      let* _ := assign (set_client (Some {| datasourceUrl := databaseUrl a |})) in
                      onWorld dropped
                    else
                      match extractDbPath (databaseUrl a) with
                      | Some dbPath =>
                          let* found := onWorld (pathExists dbPath) in
                          if found : bool then
                            let* _ := onWorld (remove dbPath) in onWorld dropped
                          else ret tt
                      | None => ret tt
                      end) in
         let* _ := (if truthyB (Interfaces.applyMigrations (config a))
                    then applyMigrations else ret tt) in
         onWorld connect)
        (fun error => throw (newError ("Failed to reset database: " ++ toString error)))
  end.

Definition cleanup (strategy : string) : M (t * World) unit :=
  let* a := this in
  match client a with
  | None => ret tt
  | Some _ =>
      tryCatch
        (if String.eqb strategy "transaction" then ret tt
         else if String.eqb strategy "truncate" then truncateAllTables
         else if String.eqb strategy "recreate" then reset
         else throw (invalidCleanupStrategy strategy))
        (fun error =>
           throw (handle error (Some ("PrismaAdapter.cleanup:" ++ strategy))))
  end.

Definition close : M (t * World) unit :=
  let* a := this in
  match client a with
  | Some _ =>
      let* _ := onWorld disconnect in
      assign (set_client None)
  | None => ret tt
  end.

End PrismaAdapter.

(* ===================================================================== *)
(** ** [src/adapters/typeorm-adapter.ts]                                  *)
(* ===================================================================== *)

Module TypeORMAdapter.

Record DataSource := { database : string; isInitialized : bool }.

Record t := {
  dataSource : option DataSource;
  config : TestDatabaseConfig;
  databaseUrl : string
}.

Definition new : t :=
  {| dataSource := None; config := emptyConfig; databaseUrl := EmptyString |}.

Definition set_dataSource (d : option DataSource) (a : t) : t :=
  {| dataSource := d; config := config a; databaseUrl := databaseUrl a |}.
Definition set_config (c : TestDatabaseConfig) (a : t) : t :=
  {| dataSource := dataSource a; config := c; databaseUrl := databaseUrl a |}.
Definition set_databaseUrl (u : string) (a : t) : t :=
  {| dataSource := dataSource a; config := config a; databaseUrl := u |}.

Definition defaults : TestDatabaseConfig :=
  {| Interfaces.databaseUrl := Some ":memory:"; cleanup := Some "truncate";
     applyMigrations := None; schemaPath := None; logging := Some false;
     type := Some "sqlite"; synchronize := Some true; runMigrations := Some false;
     dropSchema := Some false; mongoUri := None; useMemoryServer := None;
     models := None |}.

(** [this.config.type === 'sqlite' || this.config.type === 'better-sqlite3'] *)
Definition isSqlite (c : TestDatabaseConfig) : bool :=
  match type c with
  | Some ty => String.eqb ty "sqlite" || String.eqb ty "better-sqlite3"
  | None => false
  end.

Definition generateDatabaseUrl (a : t) (w : World) : string :=
  if truthyS (Interfaces.databaseUrl (config a)) then
    default EmptyString (Interfaces.databaseUrl (config a))
  else if isSqlite (config a) then
    match Interfaces.databaseUrl (config a) with
    | Some ":memory:" => ":memory:"
    | _ => "file:./test-typeorm-" ++ pretty (now w) ++ "-"
           ++ substringFrom 7 (random w) ++ ".db"
    end
  else ":memory:".

(** [s.endsWith(p)] *)
Definition endsWith (s p : string) : bool :=
  String.eqb (substringFrom (String.length s - String.length p) s) p.

Definition extractDbPath (databaseUrl : string) : option string :=
  if startsWith databaseUrl "file:" then Some (substringFrom 5 databaseUrl)
  else if endsWith databaseUrl ".db" || endsWith databaseUrl ".sqlite"
  then Some databaseUrl
  else None.

Definition runMigrations : M (t * World) unit :=
  let* a := this in
  match dataSource a with
  | None => ret tt
  | Some _ =>
      tryCatch (onWorld migrateDeploy)
        (fun error => throw (migrationFailed error))
  end.

(** [dataSource.synchronize(dropBeforeSync)] *)
Definition synchronizeSchema (dropBeforeSync : bool) : M World unit :=
  if dropBeforeSync then pushReset migrate_error else migrateDeploy.

(** [new DataSource(options)] then [await dataSource.initialize()] *)
Definition openDataSource : M (t * World) unit :=
  let* a := this in
  let* _ := assign (set_dataSource
                      (Some {| database := databaseUrl a; isInitialized := false |})) in
  let* _ := onWorld connect in
  assign (set_dataSource
            (Some {| database := databaseUrl a; isInitialized := true |})).

Definition initialize (cfg : TestDatabaseConfig) : M (t * World) unit :=
  tryCatch
    (let* _ := assign (set_config (spread defaults cfg)) in
     let* a := this in
     let* w := world in
     let* _ := assign (set_databaseUrl (generateDatabaseUrl a w)) in
     let* _ := openDataSource in
     let* _ := (if truthyB (Interfaces.runMigrations (config a))
                then runMigrations else ret tt) in
     if truthyB (synchronize (config a))
     then onWorld (synchronizeSchema (truthyB (dropSchema (config a))))
     else ret tt)
    (fun error => throw (handle error (Some "TypeORMAdapter.initialize"))).

Definition getConnection (a : t) : Outcome DataSource :=
  match dataSource a with
  | None => Throw (newError "TypeORMAdapter not initialized. Call initialize() first.")
  | Some d => Ok d
  end.

(** the body of the loop over [tables] *)
Definition truncateTable (sqlite : bool) (tableName : string) : M (t * World) unit :=
  if includes tableName "migration" || includes tableName "typeorm" then ret tt
  else if sqlite then onWorld (execute (DeleteFrom tableName))
  else onWorld (execute (TruncateCascade tableName)).

(** [queryRunner.release()] *)
Definition release : M (t * World) unit := ret tt.

Definition truncateAllTables : M (t * World) unit :=
  let* a := this in
  match dataSource a with
  | None => ret tt
  | Some _ =>
      tryCatch
        (tryFinally
           (let* tables := onWorld allTables in
            if Nat.eqb (length tables) 0 then ret tt
            else
              let sqlite := isSqlite (config a) in
              let* _ := (if sqlite then onWorld (execute (PragmaForeignKeys false))
                         else ret tt) in
              let* _ := forOf tables (truncateTable sqlite) in
              if sqlite then onWorld (execute (PragmaForeignKeys true))
              else ret tt)
           release)
        (fun error =>
           throw (newError ("Failed to truncate TypeORM tables: " ++ toString error)))
  end.

Definition reset : M (t * World) unit :=
  let* a := this in
  match dataSource a with
  | None => ret tt
  | Some _ =>
      tryCatch
        (let* _ := onWorld disconnect in
         let* _ := (if startsWith (databaseUrl a) "file:"
                       || match type (config a) with
                          | Some ty => String.eqb ty "sqlite"
                          | None => false
                          end
                    then
                      match extractDbPath (databaseUrl a) with
                      | Some dbPath =>
                          let* found := onWorld (pathExists dbPath) in
                          if found : bool then
                            let* _ := onWorld (remove dbPath) in onWorld dropped
                          else ret tt
                      | None => ret tt
                      end
                    else ret tt) in
         let* _ := openDataSource in
         let* _ := (if truthyB (synchronize (config a))
                    then onWorld (synchronizeSchema true) else ret tt) in
         if truthyB (Interfaces.runMigrations (config a))
         then runMigrations else ret tt)
        (fun error =>
           throw (newError ("Failed to reset TypeORM database: " ++ toString error)))
  end.

Definition cleanup (strategy : string) : M (t * World) unit :=
  let* a := this in
  match dataSource a with
  | None => ret tt
  | Some _ =>
      tryCatch
        (if String.eqb strategy "transaction" then ret tt
         else if String.eqb strategy "truncate" then truncateAllTables
         else if String.eqb strategy "recreate" then reset
         else throw (invalidCleanupStrategy strategy))
        (fun error =>
           throw (handle error (Some ("TypeORMAdapter.cleanup:" ++ strategy))))
  end.

Definition close : M (t * World) unit :=
  let* a := this in
  match dataSource a with
  | Some d =>
      if isInitialized d then
        let* _ := onWorld disconnect in
        assign (set_dataSource None)
      else ret tt
  | None => ret tt
  end.

End TypeORMAdapter.

(* ===================================================================== *)
(** ** [src/adapters/mongoose-adapter.ts]                                 *)
(* ===================================================================== *)

Module MongooseAdapter.

Record Connection := { uri : string }.
Record MongoMemoryServer := { serverUri_ : string }.

Record t := {
  connection : option Connection;
  memoryServer : option MongoMemoryServer;
  config : TestDatabaseConfig;
  mongoUri : string;
  registeredModels : gset string
}.

Definition new : t :=
  {| connection := None; memoryServer := None; config := emptyConfig;
     mongoUri := EmptyString; registeredModels := ∅ |}.

Definition set_connection (c : option Connection) (a : t) : t :=
  {| connection := c; memoryServer := memoryServer a; config := config a;
     mongoUri := mongoUri a; registeredModels := registeredModels a |}.
Definition set_memoryServer (m : option MongoMemoryServer) (a : t) : t :=
  {| connection := connection a; memoryServer := m; config := config a;
     mongoUri := mongoUri a; registeredModels := registeredModels a |}.
Definition set_config (c : TestDatabaseConfig) (a : t) : t :=
  {| connection := connection a; memoryServer := memoryServer a; config := c;
     mongoUri := mongoUri a; registeredModels := registeredModels a |}.
Definition set_mongoUri (u : string) (a : t) : t :=
  {| connection := connection a; memoryServer := memoryServer a; config := config a;
     mongoUri := u; registeredModels := registeredModels a |}.
Definition set_registeredModels (r : gset string) (a : t) : t :=
  {| connection := connection a; memoryServer := memoryServer a; config := config a;
     mongoUri := mongoUri a; registeredModels := r |}.

Definition defaults : TestDatabaseConfig :=
  {| Interfaces.databaseUrl := None; cleanup := Some "truncate";
     applyMigrations := None; schemaPath := None; logging := Some false;
     type := None; synchronize := None; runMigrations := None;
     dropSchema := None; Interfaces.mongoUri := None;
     useMemoryServer := Some true; models := Some [] |}.

Definition setupMongoUri : M (t * World) unit :=
  let* a := this in
  if truthyS (Interfaces.mongoUri (config a)) then
    assign (set_mongoUri (default EmptyString (Interfaces.mongoUri (config a))))
  else if truthyB (useMemoryServer (config a)) then
    let* w := world in
    let* _ := assign (set_memoryServer (Some {| serverUri_ := serverUri w |})) in
    assign (set_mongoUri (serverUri w))
  else
    throw (newConfigurationError
             "No MongoDB URI provided and memory server is disabled"
             (Some (DSuggestions
                      [ "Set mongoUri in config";
                        "Enable useMemoryServer: true";
                        "Install mongodb-memory-server: npm install mongodb-memory-server" ]))).

Definition createConnection : M (t * World) unit :=
  tryCatch
    (let* a := this in
     let* _ := assign (set_connection (Some {| uri := mongoUri a |})) in
     onWorld connect)
    (fun error =>
       throw (newDatabaseError
                ("Failed to connect to MongoDB: " ++ toString error)
                (Some (DSuggestions
                         [ "Check if MongoDB is running";
                           "Verify the connection URI";
                           "Install mongodb-memory-server for testing";
                           "Check network connectivity" ])))).

Definition registerModel (name : string) : M (t * World) unit :=
  let* a := this in
  match connection a with
  | None => throw (newError "MongooseAdapter not initialized")
  | Some _ => assign (set_registeredModels ({[name]} ∪ registeredModels a))
  end.

Definition registerModels : M (t * World) unit :=
  let* a := this in
  match models (config a) with
  | None | Some [] => ret tt
  | Some ms =>
      forOf ms (fun modelName =>
        tryCatch (registerModel modelName)
          (fun error =>
             throw (newConfigurationError
                      ("Failed to register model " ++ modelName ++ ": " ++ toString error)
                      (Some (DSuggestions
                               [ "Check if the schema is valid";
                                 "Ensure model names are unique";
                                 "Verify collection names are valid" ])))))
  end.

Definition initialize (cfg : TestDatabaseConfig) : M (t * World) unit :=
  tryCatch
    (let* _ := assign (set_config (spread defaults cfg)) in
     let* _ := setupMongoUri in
     let* _ := createConnection in
     registerModels)
    (fun error => throw (handle error (Some "MongooseAdapter.initialize"))).

Definition getConnection (a : t) : Outcome Connection :=
  match connection a with
  | None => Throw (newError "MongooseAdapter not initialized. Call initialize() first.")
  | Some c => Ok c
  end.

(** One of the [deletePromises]: its own failure is logged, not thrown. *)
Definition truncateCollection (collectionName : string) : M (t * World) unit :=
  if startsWith collectionName "system." then ret tt
  else tryCatch (onWorld (execute (DeleteMany collectionName)))
                (fun error => ret tt).

Definition truncateAllCollections : M (t * World) unit :=
  let* a := this in
  match connection a with
  | None => ret tt
  | Some _ =>
      tryCatch
        (let* collections := onWorld allTables in
         if Nat.eqb (length collections) 0 then ret tt
         else forOf collections truncateCollection)
        (fun error =>
           throw (newError ("Failed to truncate MongoDB collections: " ++ toString error)))
  end.

Definition dropAndRecreateDatabase : M (t * World) unit :=
  let* a := this in
  match connection a with
  | None => ret tt
  | Some _ =>
      tryCatch
        (let* _ := onWorld dropped in registerModels)
        (fun error =>
           throw (newError ("Failed to recreate MongoDB database: " ++ toString error)))
  end.

Definition cleanup (strategy : string) : M (t * World) unit :=
  let* a := this in
  match connection a with
  | None => ret tt
  | Some _ =>
      tryCatch
        (if String.eqb strategy "transaction" then truncateAllCollections
         else if String.eqb strategy "truncate" then truncateAllCollections
         else if String.eqb strategy "recreate" then dropAndRecreateDatabase
         else throw (invalidCleanupStrategy strategy))
        (fun error =>
           throw (handle error (Some ("MongooseAdapter.cleanup:" ++ strategy))))
  end.

Definition close : M (t * World) unit :=
  tryCatch
    (let* a := this in
     let* _ := (match connection a with
                | Some _ =>
                    let* _ := onWorld disconnect in
                    assign (set_connection None)
                | None => ret tt
                end) in
     let* a := this in
     let* _ := (match memoryServer a with
                | Some _ => assign (set_memoryServer None)
                | None => ret tt
                end) in
     assign (set_registeredModels ∅))
    (fun error => ret tt).

End MongooseAdapter.

(* ===================================================================== *)
(** ** The [DatabaseAdapter] interface and its three implementations      *)
(* ===================================================================== *)

(** [interface DatabaseAdapter], with the connection type [C] each
    implementation returns, and the family of the classes built on it. *)
Class DatabaseAdapter (A C : Type) := {
  family : Family;
  newAdapter : A;
  adapterInitialize : TestDatabaseConfig -> M (A * World) unit;
  adapterGetConnection : A -> Outcome C;
  adapterCleanup : string -> M (A * World) unit;
  adapterClose : M (A * World) unit
}.

#[export] Instance prismaAdapter
  : DatabaseAdapter PrismaAdapter.t PrismaAdapter.PrismaClient := {|
  family := Prisma;
  newAdapter := PrismaAdapter.new;
  adapterInitialize := PrismaAdapter.initialize;
  adapterGetConnection := PrismaAdapter.getConnection;
  adapterCleanup := PrismaAdapter.cleanup;
  adapterClose := PrismaAdapter.close
|}.

#[export] Instance typeormAdapter
  : DatabaseAdapter TypeORMAdapter.t TypeORMAdapter.DataSource := {|
  family := TypeORM;
  newAdapter := TypeORMAdapter.new;
  adapterInitialize := TypeORMAdapter.initialize;
  adapterGetConnection := TypeORMAdapter.getConnection;
  adapterCleanup := TypeORMAdapter.cleanup;
  adapterClose := TypeORMAdapter.close
|}.

#[export] Instance mongooseAdapter
  : DatabaseAdapter MongooseAdapter.t MongooseAdapter.Connection := {|
  family := Mongoose;
  newAdapter := MongooseAdapter.new;
  adapterInitialize := MongooseAdapter.initialize;
  adapterGetConnection := MongooseAdapter.getConnection;
  adapterCleanup := MongooseAdapter.cleanup;
  adapterClose := MongooseAdapter.close
|}.

(* ===================================================================== *)
(** ** [TestDatabase], [TypeORMTestDatabase], [MongooseTestDatabase]      *)
(* ===================================================================== *)

(** The three classes are one text up to the adapter they own, the
    messages they throw and the file they remove on [destroy]; the
    adapter instance selects the class. *)
Module TestDatabase.

Record t (A : Type) := {
  id : string;
  databaseUrl : string;
  adapter : A;
  config : TestDatabaseConfig;
  isInitialized : bool
}.
Arguments id {A} _.
Arguments databaseUrl {A} _.
Arguments adapter {A} _.
Arguments config {A} _.
Arguments isInitialized {A} _.

(** What [seed] is given: a callback, or a list of seeders. *)
Inductive SeedArgument :=
| SeedFunction (fn : M World unit)
| Seeders (seeders : list DatabaseSeeder).

Section Class.
Context {A C : Type} `{!DatabaseAdapter A C}.

Definition new (id databaseUrl : string) (config : TestDatabaseConfig) : t A :=
  {| id := id; databaseUrl := databaseUrl; adapter := newAdapter;
     config := config; isInitialized := false |}.

Definition set_adapter (a : A) (db : t A) : t A :=
  {| id := id db; databaseUrl := databaseUrl db; adapter := a;
     config := config db; isInitialized := isInitialized db |}.
Definition set_isInitialized (b : bool) (db : t A) : t A :=
  {| id := id db; databaseUrl := databaseUrl db; adapter := adapter db;
     config := config db; isInitialized := b |}.

(** Runs a method of [this.adapter]. *)
Definition onAdapter {B} (m : M (A * World) B) : M (t A * World) B :=
  fun s => match m (adapter (fst s), snd s) with
           | (r, (a', w')) => (r, (set_adapter a' (fst s), w'))
           end.

Definition initialize : M (t A * World) unit :=
  let* db := this in
  let* _ := onAdapter
              (adapterInitialize (with_databaseUrl (databaseUrl db) (config db))) in
  assign (set_isInitialized true).

Definition notInitialized : JsError :=
  newError
    (match family with
     | Prisma => "TestDatabase not initialized. Call initialize() first."
     | TypeORM => "TypeORMTestDatabase not initialized. Call initialize() first."
     | Mongoose => "MongooseTestDatabase not initialized. Call initialize() first."
     end).

(** [getClient()] ([getDataSource()], [getConnection()]): not [async];
    what it returns is the promise of [adapter.getConnection()], cast. *)
Definition getClient (db : t A) : Outcome (Outcome C) :=
  if isInitialized db then Ok (adapterGetConnection (adapter db))
  else Throw notInitialized.

(** [await seeder.seed(client)] *)
Definition runSeeder (seeder : DatabaseSeeder) : M (t A * World) unit :=
  onWorld (fun w => seed seeder (set_seedLog (seedLog w ++ [name seeder]) w)).

(** the [catch] around one seeder *)
Definition seederFailed (seeder : DatabaseSeeder) (error : JsError) : JsError :=
  match family with
  | Prisma => newError ("Failed to run seeder " ++ name seeder ++ ": " ++ toString error)
  | TypeORM => handle error (Some ("TypeORMSeeder:" ++ name seeder))
  | Mongoose => handle error (Some ("MongooseSeeder:" ++ name seeder))
  end.

Definition seed (seeders : SeedArgument) : M (t A * World) unit :=
  let* db := this in
  match getClient db with
  | Throw e => throw e
  | Ok client =>
      match seeders with
      | SeedFunction fn => onWorld fn
      | Seeders seeders =>
          match resolveDependencies family seeders with
          | Throw e => throw e
          | Ok sortedSeeders =>
              forOf sortedSeeders (fun seeder =>
                tryCatch (runSeeder seeder)
                  (fun error => throw (seederFailed seeder error)))
          end
      end
  end.

(** [strategy || this.config.cleanup || 'truncate'] *)
Definition cleanupStrategy (strategy : option string) (db : t A) : string :=
  if truthyS strategy then default EmptyString strategy
  else if truthyS (Interfaces.cleanup (config db))
  then default EmptyString (Interfaces.cleanup (config db))
  else "truncate".

Definition cleanup (strategy : option string) : M (t A * World) unit :=
  let* db := this in
  onAdapter (adapterCleanup (cleanupStrategy strategy db)).

Definition destroy : M (t A * World) unit :=
  let* _ := onAdapter adapterClose in
  let* db := this in
  match family with
  | Prisma | TypeORM =>
      if startsWith (databaseUrl db) "file:"
         && negb (includes (databaseUrl db) ":memory:")
      then
        let dbPath := substringFrom 5 (databaseUrl db) in
        let* found := onWorld (pathExists dbPath) in
        if found : bool then onWorld (remove dbPath) else ret tt
      else ret tt
  | Mongoose => ret tt
  end.

Definition isReady (db : t A) : bool := isInitialized db.

End Class.

End TestDatabase.

(* ===================================================================== *)
(** ** [TestDatabaseManager] and its TypeORM and Mongoose twins           *)
(* ===================================================================== *)

Module Manager.

(** The registry holds an instance as [create] returned it; what the caller
    later does through its own reference to the instance is not written
    back here. *)

Record t (A : Type) := { databases : gmap string (TestDatabase.t A) }.
Arguments databases {A} _.

Section Class.
Context {A C : Type} `{!DatabaseAdapter A C}.

Definition new : t A := {| databases := ∅ |}.

Definition generateId (w : World) : string :=
  match family with
  | Prisma => "test-db-"
  | TypeORM => "typeorm-test-db-"
  | Mongoose => "mongoose-test-db-"
  end ++ pretty (now w) ++ "-" ++ substringFrom 7 (random w).

(** [tmp.fileSync(...)] creates the file and gives its name. *)
Definition tmpFile : M World string :=
  fun w => (Ok (tmpName w), set_files ({[tmpName w]} ∪ files w) w).

Definition generateDatabaseUrl (config : TestDatabaseConfig) : M World string :=
  match family with
  | Prisma =>
      if truthyS (databaseUrl config) then ret (default EmptyString (databaseUrl config))
      else let* tmpFileName := tmpFile in ret ("file:" ++ tmpFileName)
  | TypeORM =>
      if truthyS (databaseUrl config) then ret (default EmptyString (databaseUrl config))
      else
        let dbType := if truthyS (type config) then default EmptyString (type config)
                      else "sqlite" in
        if String.eqb dbType "sqlite" || String.eqb dbType "better-sqlite3" then
          match databaseUrl config with
          | Some ":memory:" => ret ":memory:"
          | _ => let* tmpFileName := tmpFile in ret ("file:" ++ tmpFileName)
          end
        else ret ":memory:"
  | Mongoose =>
      if truthyS (mongoUri config) then ret (default EmptyString (mongoUri config))
      else ret "memory://default"
  end.

Definition set_databases (d : gmap string (TestDatabase.t A)) (m : t A) : t A :=
  {| databases := d |}.

(** Runs a method of an instance the manager holds in a local. *)
Definition onInstance {B} (db : TestDatabase.t A) (m : M (TestDatabase.t A * World) B)
    : M (t A * World) (B * TestDatabase.t A) :=
  fun s => match m (db, snd s) with
           | (Ok b, (db', w')) => (Ok (b, db'), (fst s, w'))
           | (Throw e, (db', w')) => (Throw e, (fst s, w'))
           end.

Definition create (config : TestDatabaseConfig) : M (t A * World) (TestDatabase.t A) :=
  let* w := world in
  let id := generateId w in
  let* databaseUrl := onWorld (generateDatabaseUrl config) in
  let testDb := TestDatabase.new id databaseUrl config in
  let* r := onInstance testDb TestDatabase.initialize in
  let testDb := snd r in
  let* _ := assign (fun m => set_databases (<[id := testDb]> (databases m)) m) in
  ret testDb.

Definition get (id : string) (m : t A) : option (TestDatabase.t A) :=
  databases m !! id.

Definition destroy (id : string) : M (t A * World) unit :=
  let* m := this in
  match databases m !! id with
  | Some testDb =>
      let* _ := onInstance testDb TestDatabase.destroy in
      assign (fun m => set_databases (delete id (databases m)) m)
  | None => ret tt
  end.

End Class.

End Manager.

(* ===================================================================== *)
(** ** The ready-made errors of [ErrorHandler] the factories and the      *)
(** ** decorators use                                                     *)
(* ===================================================================== *)

Module ErrorHandler.

(** [ErrorHandler.prismaClientNotSet] *)
Definition prismaClientNotSet : JsError :=
  createHelpfulError factory
    "Prisma client not set on factory"
    [ "Call factory.setClient(client) before using the factory";
      "Use FactoryManager.setClient(client) to set client for all factories";
      "Ensure you are calling factories within a test context where client is available" ].

(** [ErrorHandler.testDatabaseNotFound] *)
Definition testDatabaseNotFound : JsError :=
  createHelpfulError setup
    "Test database not available"
    [ "Make sure to use @TestDatabase decorator on your test class";
      "Or call getTestDatabase() only within a test context";
      "Ensure the test database was properly initialized" ].

End ErrorHandler.

(* ===================================================================== *)
(** ** [Factory], [defineFactory] and [FactoryManager]                    *)
(* ===================================================================== *)

Module Factory.

(** An object literal: its own fields by name.  The values are opaque to
    the factories; they are kept as text. *)
Definition Data := gmap string string.

(** [{ ...data, ...overrides }]: a field of [overrides] wins. *)
Definition spread (data overrides : Data) : Data := overrides ∪ data.

(** [Array.from({ length: n }, () => m)] and [for (i = 0; i < n; i++)
    results.push(await m)]: [m] run [n] times, the results in order. *)
Fixpoint times {S A} (n : nat) (m : M S A) : M S (list A) :=
  match n with
  | O => ret []
  | S n' =>
      let* x := m in
      let* xs := times n' m in
      ret (x :: xs)
  end.

Section Class.

(** [R] is the state behind [Math.random()] and [Date.now()], which the
    functions of the faker object read; a definition is run on it. *)
Context {R : Type}.

(** [client[modelName].create({ data })] *)
Variable persist : PrismaAdapter.PrismaClient -> string -> Data -> M World Data.

Record t := {
  definition : M R Data;
  modelName : string;
  client : option PrismaAdapter.PrismaClient
}.

(** [new Factory(modelName, definition)], [defineFactory] *)
Definition new (modelName : string) (definition : M R Data) : t :=
  {| definition := definition; modelName := modelName; client := None |}.

Definition setClient (c : PrismaAdapter.PrismaClient) (f : t) : t :=
  {| definition := definition f; modelName := modelName f; client := Some c |}.

Definition build (f : t) (overrides : Data) : M R Data :=
  let* data := definition f in
  ret (spread data overrides).

(** [count] is an integer; a negative one gives an array of length 0. *)
Definition buildMany (f : t) (count : Z) (overrides : Data) : M R (list Data) :=
  times (Z.to_nat count) (build f overrides).

(** Runs what reads the random state from a method that also reaches the
    database. *)
Definition onRandom {B} (m : M R B) : M (R * World) B :=
  fun s => match m (fst s) with (r, g') => (r, (g', snd s)) end.

Definition create (f : t) (overrides : Data) : M (R * World) Data :=
  match client f with
  | None => throw ErrorHandler.prismaClientNotSet
  | Some c =>
      tryCatch
        (let* data := onRandom (build f overrides) in
         onWorld (persist c (modelName f) data))
        (fun error => throw (handle error (Some ("Factory.create:" ++ modelName f))))
  end.

Definition createMany (f : t) (count : Z) (overrides : Data)
    : M (R * World) (list Data) :=
  match client f with
  | None => throw ErrorHandler.prismaClientNotSet
  | Some c =>
      tryCatch
        (times (Z.to_nat count) (create f overrides))
        (fun error => throw (handle error (Some ("Factory.createMany:" ++ modelName f))))
  end.

End Class.

Arguments t R : clear implicits.

End Factory.

Module FactoryManager.

(** The factories are objects: the map of the manager and the caller hold
    references to them.  [Store] is the objects made so far, a reference is
    an index into it. *)
Section Class.
Context {R : Type}.

Definition Store := list (Factory.t R).

Record t := {
  client : option PrismaAdapter.PrismaClient;
  factories : gmap string nat
}.

Definition new : t := {| client := None; factories := ∅ |}.

(** [defineFactory(modelName, definition)]: a new object. *)
Definition defineFactory (modelName : string) (definition : M R Factory.Data)
    : M (t * Store) nat :=
  fun s => (Ok (List.length (snd s)),
            (fst s, (snd s ++ [Factory.new modelName definition])%list)).

(** [factory.setClient(client)] on the object behind a reference [fac]. *)
Definition setClientOf (c : PrismaAdapter.PrismaClient) (fac : nat) (h : Store)
    : Store :=
  alter (Factory.setClient c) fac h.

Definition setClient (c : PrismaAdapter.PrismaClient) : M (t * Store) unit :=
  fun s =>
    (Ok tt,
     ({| client := Some c; factories := factories (fst s) |},
      map_fold (fun _ fac h => setClientOf c fac h) (snd s)
        (factories (fst s)))).

Definition register (name : string) (fac : nat) : M (t * Store) unit :=
  fun s =>
    (Ok tt,
     ({| client := client (fst s);
         factories := <[name := fac]> (factories (fst s)) |},
      match client (fst s) with
      | Some c => setClientOf c fac (snd s)
      | None => snd s
      end)).

Definition get (name : string) : M (t * Store) nat :=
  fun s =>
    match factories (fst s) !! name with
    | Some fac => (Ok fac, s)
    | None => (Throw (newError ("Factory '" ++ name ++ "' not found. Register it first.")),
               s)
    end.

Definition define (name modelName : string) (definition : M R Factory.Data)
    : M (t * Store) nat :=
  let* fac := defineFactory modelName definition in
  let* _ := register name fac in
  ret fac.

Definition clear : M (t * Store) unit :=
  fun s => (Ok tt, ({| client := client (fst s); factories := ∅ |}, snd s)).

(** Every registered factory has the client of the manager, once the
    manager has one. *)
Definition Supplied (s : t * Store) : Prop :=
  forall c name fac f,
    client (fst s) = Some c ->
    factories (fst s) !! name = Some fac ->
    snd s !! fac = Some f ->
    Factory.client f = Some c.

End Class.

Arguments t : clear implicits.

End FactoryManager.

(* ===================================================================== *)
(** ** [seededRandom] of [BaseFactory]                                    *)
(* ===================================================================== *)

Module BaseFactory.

(** [m = (m * 9301 + 49297) % 233280], on integers: [%] takes the sign of
    the dividend. *)
Definition next (m : Z) : Z := Z.rem (m * 9301 + 49297) 233280.

(** The value of [m] after [n] calls of the closure [seededRandom(seed)]
    returns; the call returns [m / 233280]. *)
Fixpoint seededRandom (seed : Z) (n : nat) : Z :=
  match n with
  | O => seed
  | S n' => next (seededRandom seed n')
  end.

End BaseFactory.

(* ===================================================================== *)
(** ** Models of the Mongoose adapter                                     *)
(* ===================================================================== *)

Module MongooseModels.


End MongooseModels.

(* ===================================================================== *)
(** ** [TestAppBuilder]                                                   *)
(* ===================================================================== *)

Module TestAppBuilder.

(** [config.seed] *)
Inductive Seed :=
| SeedFunction (fn : M World unit)
| SeedNames (names : list string)
| SeedObjects (seeders : list DatabaseSeeder).

(** [TestAppConfig]; [imports], [providers] and [controllers] reach
    [compile] only. *)
Record TestAppConfig := {
  seed : option Seed;
  databaseConfig : option TestDatabaseConfig
}.

Record t := {
  testDb : option (TestDatabase.t PrismaAdapter.t);
  config : TestAppConfig
}.

Definition new (config : TestAppConfig) : t :=
  {| testDb := None; config := config |}.

Definition set_testDb (d : option (TestDatabase.t PrismaAdapter.t)) (b : t) : t :=
  {| testDb := d; config := config b |}.

(** The builder works on itself, on the manager singleton and on the
    world. *)
Definition State := ((t * Manager.t PrismaAdapter.t) * World)%type.

Definition onManager {B} (m : M (Manager.t PrismaAdapter.t * World) B) : M State B :=
  fun s => match m (snd (fst s), snd s) with
           | (r, (mgr', w')) => (r, ((fst (fst s), mgr'), w'))
           end.

Definition thisBuilder : M State t := fun s => (Ok (fst (fst s)), s).

Definition assignBuilder (f : t -> t) : M State unit :=
  fun s => (Ok tt, ((f (fst (fst s)), snd (fst s)), snd s)).

(** Runs a method of [this.testDb]; the builder keeps the instance the
    method leaves. *)
Definition onTestDb {B} (db : TestDatabase.t PrismaAdapter.t)
    (m : M (TestDatabase.t PrismaAdapter.t * World) B) : M State B :=
  fun s => match m (db, snd s) with
           | (r, (db', w')) =>
               (r, ((set_testDb (Some db') (fst (fst s)), snd (fst s)), w'))
           end.

Definition getTestDatabase (b : t) : option (TestDatabase.t PrismaAdapter.t) :=
  testDb b.

Definition runSeeders (seeders : Seed) : M State unit :=
  let* b := thisBuilder in
  match testDb b with
  | None => throw (newError "Test database not initialized")
  | Some db =>
      match seeders with
      | SeedFunction fn => onTestDb db (TestDatabase.seed (TestDatabase.SeedFunction fn))
      | SeedNames (_ :: _) =>
          throw (newError
                   "String-based seeders not yet implemented. Use DatabaseSeeder objects.")
      | SeedNames [] => onTestDb db (TestDatabase.seed (TestDatabase.Seeders []))
      | SeedObjects l => onTestDb db (TestDatabase.seed (TestDatabase.Seeders l))
      end
  end.

Section Compile.

(** [Test.createTestingModule({...}).compile()] *)
Context {TestingModule : Type}.
Variable compile : M World TestingModule.

Definition create : M State TestingModule :=
  let* b := thisBuilder in
  let* db := onManager
               (Manager.create (default emptyConfig (databaseConfig (config b)))) in
  let* _ := assignBuilder (set_testDb (Some db)) in
  match TestDatabase.getClient db with
  | Throw e => throw e
  | Ok client =>
      let* module := onWorld compile in
      let* _ := (match seed (config b) with
                 | Some seeders => runSeeders seeders
                 | None => ret tt
                 end) in
      ret module
  end.

End Compile.

Definition cleanup : M State unit :=
  let* b := thisBuilder in
  match testDb b with
  | Some db =>
      let* _ := onTestDb db TestDatabase.destroy in
      assignBuilder (set_testDb None)
  | None => ret tt
  end.

End TestAppBuilder.

(* ===================================================================== *)
(** ** [src/decorators/test-database.decorator.ts]                        *)
(* ===================================================================== *)

Module Decorator.

(** [globalTestDb], the manager singleton and the world. *)
Definition State :=
  ((option (TestDatabase.t PrismaAdapter.t) * Manager.t PrismaAdapter.t) * World)%type.

Definition onManager {B} (m : M (Manager.t PrismaAdapter.t * World) B) : M State B :=
  fun s => match m (snd (fst s), snd s) with
           | (r, (mgr', w')) => (r, ((fst (fst s), mgr'), w'))
           end.

Definition globalTestDb : M State (option (TestDatabase.t PrismaAdapter.t)) :=
  fun s => (Ok (fst (fst s)), s).

Definition set_globalTestDb (d : option (TestDatabase.t PrismaAdapter.t))
    : M State unit :=
  fun s => (Ok tt, ((d, snd (fst s)), snd s)).

(** A hook the test class had before it was decorated. *)
Definition callOriginal (original : option (M World unit)) : M State unit :=
  match original with
  | Some hook => onWorld hook
  | None => ret tt
  end.

(** [target.beforeAll] of [TestDatabase(config)], [target.beforeEach] of
    [TestDatabaseEach(config)] *)
Definition before (config : TestDatabaseConfig) (original : option (M World unit))
    : M State unit :=
  let* db := onManager (Manager.create config) in
  let* _ := set_globalTestDb (Some db) in
  callOriginal original.

(** [target.afterAll] of [TestDatabase(config)], [target.afterEach] of
    [TestDatabaseEach(config)] *)
Definition after (original : option (M World unit)) : M State unit :=
  let* _ := callOriginal original in
  let* g := globalTestDb in
  match g with
  | Some db =>
      fun s => match TestDatabase.destroy (db, snd s) with
               | (Ok _, (db', w')) => (Ok tt, ((None, snd (fst s)), w'))
               | (Throw e, (db', w')) => (Throw e, ((Some db', snd (fst s)), w'))
               end
  | None => ret tt
  end.

Definition getTestDatabase (s : State) : Outcome (TestDatabase.t PrismaAdapter.t) :=
  match fst (fst s) with
  | None => Throw (newError
                     "No test database available. Make sure to use @TestDatabase decorator.")
  | Some db => Ok db
  end.

End Decorator.

(* ===================================================================== *)
(** ** Concrete seeders, databases and instances                          *)
(* ===================================================================== *)

Module Examples.

(** A seeder whose body does nothing. *)
Definition seeder (n : string) (deps : list string) : DatabaseSeeder :=
  {| name := n; dependencies := Some deps; seed := ret tt |}.

(** A seeder whose body inserts one row into [table]. *)
Definition inserting (n : string) (deps : list string) (table row : string)
    : DatabaseSeeder :=
  {| name := n; dependencies := Some deps;
     seed := modify (fun w =>
               set_tables
                 (map (fun t => if String.eqb (tname t) table
                                then {| tname := tname t; rows := rows t ++ [row];
                                        delete_error := delete_error t |}
                                else t) (tables w)) w) |}.


Definition table (n : string) (r : list string) : Table :=
  {| tname := n; rows := r; delete_error := None |}.

Definition busy : RawError :=
  {| raw_name := "Error"; raw_message := "database table is locked";
     raw_code := Some "SQLITE_LOCKED" |}.

(** A table whose rows the database refuses to delete. *)
Definition lockedTable (n : string) (r : list string) : Table :=
  {| tname := n; rows := r; delete_error := Some busy |}.

Definition world0 : World :=
  {| tables := [ table "users" ["u1"; "u2"]; table "posts" ["p1"] ];
     foreign_keys := true;
     schema := [ table "users" []; table "posts" [] ];
     files := ∅; hasMigrations := false;
     connect_error := None; migrate_error := None; fallback_error := None;
     disconnect_error := None;
     now := 1700000000000%N; random := "0.k3j2x9abcd";
     tmpName := "/tmp/nest-test-db-1.sqlite";
     serverUri := "mongodb://127.0.0.1:40000/";
     seedLog := [] |}.

(** [world0] with a [users] table that is locked. *)
Definition lockedWorld : World :=
  set_tables [ lockedTable "users" ["u1"; "u2"]; table "posts" ["p1"] ] world0.

Definition unreachable : RawError :=
  {| raw_name := "Error"; raw_message := "connect ECONNREFUSED";
     raw_code := Some "ECONNREFUSED" |}.

(** [world0] where no connection can be opened. *)
Definition downWorld : World :=
  {| tables := tables world0; foreign_keys := foreign_keys world0;
     schema := schema world0; files := files world0;
     hasMigrations := hasMigrations world0;
     connect_error := Some unreachable; migrate_error := None;
     fallback_error := None; disconnect_error := None;
     now := now world0; random := random world0; tmpName := tmpName world0;
     serverUri := serverUri world0; seedLog := [] |}.

(** Adapters with a live connection. *)
Definition livePrisma : PrismaAdapter.t :=
  {| PrismaAdapter.client := Some {| PrismaAdapter.datasourceUrl := "file:./test.db" |};
     PrismaAdapter.config := PrismaAdapter.defaults;
     PrismaAdapter.databaseUrl := "file:./test.db" |}.

Definition liveTypeORM : TypeORMAdapter.t :=
  {| TypeORMAdapter.dataSource :=
       Some {| TypeORMAdapter.database := ":memory:";
               TypeORMAdapter.isInitialized := true |};
     TypeORMAdapter.config := TypeORMAdapter.defaults;
     TypeORMAdapter.databaseUrl := ":memory:" |}.

Definition liveMongoose : MongooseAdapter.t :=
  {| MongooseAdapter.connection :=
       Some {| MongooseAdapter.uri := "mongodb://127.0.0.1:40000/" |};
     MongooseAdapter.memoryServer :=
       Some {| MongooseAdapter.serverUri_ := "mongodb://127.0.0.1:40000/" |};
     MongooseAdapter.config := MongooseAdapter.defaults;
     MongooseAdapter.mongoUri := "mongodb://127.0.0.1:40000/";
     MongooseAdapter.registeredModels := ∅ |}.

(** A Prisma instance, as [new TestDatabase(...)] leaves it. *)
Definition freshDb : TestDatabase.t PrismaAdapter.t :=
  TestDatabase.new "test-db-1700000000000-9abcd" "file:/tmp/nest-test-db-1.sqlite"
    emptyConfig.

(** The same instance with [initialize()] done. *)
Definition readyDb : TestDatabase.t PrismaAdapter.t :=
  {| TestDatabase.id := "test-db-1700000000000-9abcd";
     TestDatabase.databaseUrl := "file:/tmp/nest-test-db-1.sqlite";
     TestDatabase.adapter :=
       {| PrismaAdapter.client :=
            Some {| PrismaAdapter.datasourceUrl := "file:/tmp/nest-test-db-1.sqlite" |};
          PrismaAdapter.config :=
            spread PrismaAdapter.defaults
              (with_databaseUrl "file:/tmp/nest-test-db-1.sqlite" emptyConfig);
          PrismaAdapter.databaseUrl := "file:/tmp/nest-test-db-1.sqlite" |};
     TestDatabase.config := emptyConfig;
     TestDatabase.isInitialized := true |}.

End Examples.

Import Examples.

(* ===================================================================== *)
(** * Properties                                                          *)
(* ===================================================================== *)

Local Open Scope list_scope.

(** ** The depth-first resolution                                         *)

Section Visit.
Variable f : Family.
Variable m : gmap string DatabaseSeeder.

Lemma Step_nil st : Good m st -> Step m [] st st.
Proof.
  intros G. split; auto.
  - exists []. by rewrite app_nil_r.
  - intros n Hn. by apply elem_of_nil in Hn.
Qed.

Lemma Step_cons n ns st st1 st2 :
  Step m [n] st st1 -> Step m ns st1 st2 -> Step m (n :: ns) st st2.
Proof.
  intros [G1 V1 [l1 R1] M1 T1 X1] [G2 V2 [l2 R2] M2 T2 X2]. split.
  - done.
  - congruence.
  - exists (l1 ++ l2). rewrite R2, R1. by rewrite app_assoc.
  - set_solver.
  - intros k Hk. apply elem_of_cons in Hk as [->|Hk].
    + apply M2, T1. set_solver.
    + by apply T2.
  - intros x Hx. destruct (X2 x Hx) as [Hx1|(k & Hk & Hr)].
    + destruct (X1 x Hx1) as [?|(k & Hk & Hr)]; [by left|].
      right. exists k. split; [|done]. set_solver.
    + right. exists k. split; [|done]. set_solver.
Qed.

Lemma visitEach_Step (v : string -> ResolveState -> option (Outcome ResolveState)) ns :
  (forall n st st', n ∈ ns -> Good m st -> v n st = Some (Ok st') -> Step m [n] st st') ->
  forall st st', Good m st -> visitEach v ns st = Some (Ok st') -> Step m ns st st'.
Proof.
  induction ns as [|n ns IH]; intros Hv st st' G E; simpl in E.
  - inversion E; subst. by apply Step_nil.
  - destruct (v n st) as [[st1|e]|] eqn:E1; try discriminate.
    assert (S1 : Step m [n] st st1) by (apply Hv; [set_solver|done..]).
    eapply Step_cons; [exact S1|].
    apply IH; [|apply S1|done].
    intros k s s' Hk. apply Hv. set_solver.
Qed.

Lemma visit_Step (keyed : Keyed m) depth : forall n st st',
  Good m st -> visit f m depth n st = Some (Ok st') -> Step m [n] st st'.
Proof.
  induction depth as [|depth IH]; intros n st st' G E; simpl in E; [discriminate|].
  destruct (decide (n ∈ visited st)) as [Hvis|Hvis].
  { inversion E; subst. split.
    - exact G.
    - reflexivity.
    - exists []. by rewrite app_nil_r.
    - done.
    - intros k Hk. apply list_elem_of_singleton in Hk. by subst.
    - intros x Hx. by left. }
  destruct (decide (n ∈ visiting st)) as [Hing|Hing]; [discriminate|].
  destruct (m !! n) as [seeder|] eqn:Hm; [|discriminate].
  set (st1 := {| resolved := resolved st; visiting := {[n]} ∪ visiting st;
                 visited := visited st |}) in *.
  assert (G1 : Good m st1).
  { destruct G as [? ? ? ? D]. split; simpl; auto. set_solver. }
  assert (S2 : exists st2, Step m (declared seeder) st1 st2 /\
               st' = {| resolved := resolved st2 ++ [seeder];
                        visiting := visiting st2 ∖ {[n]};
                        visited := {[n]} ∪ visited st2 |}).
  { unfold declared. destruct (dependencies seeder) as [deps|] eqn:Hd; simpl.
    - destruct (visitEach (visit f m depth) deps st1) as [[st2|e]|] eqn:E2;
        try discriminate.
      exists st2. split; [|by inversion E].
      eapply visitEach_Step; [|exact G1|exact E2].
      intros k s s' _. apply IH.
    - exists st1. split; [by apply Step_nil|by inversion E]. }
  destruct S2 as (st2 & [G2 V2 [l R2] M2 T2 X2] & ->).
  assert (Hname : name seeder = n) by by apply keyed.
  assert (Hn2 : n ∉ visited st2).
  { destruct G2 as [_ _ _ _ D]. rewrite V2 in D. simpl in D. set_solver. }
  destruct G2 as [N2 I2 K2 O2 D2].
  split; simpl.
  - split; simpl.
    + unfold names. rewrite fmap_app. simpl. apply NoDup_app. split; [done|].
      split; [|apply NoDup_singleton].
      intros x Hx Hx'. apply list_elem_of_singleton in Hx'. subst x.
      rewrite Hname in Hx. apply Hn2. by apply I2.
    + intros k. unfold names. rewrite fmap_app. simpl.
      rewrite elem_of_app, list_elem_of_singleton, elem_of_union, elem_of_singleton.
      rewrite I2, Hname. tauto.
    + intros s Hs. apply elem_of_app in Hs as [Hs|Hs]; [by apply K2|].
      apply list_elem_of_singleton in Hs. subst s. by rewrite Hname.
    + intros i s d Hi Hd.
      destruct (decide (i < length (resolved st2))) as [Hlt|Hge].
      * rewrite lookup_app_l in Hi by done.
        destruct (O2 i s d Hi Hd) as (j & t & Hj & Ht & Hn).
        exists j, t. split; [done|]. split; [|done].
        rewrite lookup_app_l by lia. done.
      * assert (Hs : s = seeder /\ i = length (resolved st2)).
        { rewrite lookup_app_r in Hi by lia.
          destruct (i - length (resolved st2)) as [|k] eqn:Hk; simpl in Hi.
          - split; [congruence|lia].
          - by rewrite lookup_nil in Hi. }
        destruct Hs as [-> ->].
        assert (Hdv : d ∈ names (resolved st2)) by (apply I2, T2, Hd).
        apply list_elem_of_fmap in Hdv as (t & Ht & Htin).
        apply list_elem_of_lookup in Htin as (j & Hj).
        exists j, t. split; [by eapply lookup_lt_Some|].
        split; [|done]. rewrite lookup_app_l; [done|by eapply lookup_lt_Some].
    + rewrite V2. simpl. set_solver.
  - rewrite V2. simpl. set_solver.
  - exists (l ++ [seeder]). rewrite R2. simpl. by rewrite app_assoc.
  - simpl in M2. set_solver.
  - intros k Hk. apply list_elem_of_singleton in Hk. set_solver.
  - intros x Hx. apply elem_of_union in Hx as [Hx|Hx].
    + apply elem_of_singleton in Hx. subst x. right. exists n. split; [set_solver|done].
    + destruct (X2 x Hx) as [?|(d & Hd & Hr)]; [by left|].
      right. exists n. split; [set_solver|].
      eapply rtc_l; [|exact Hr]. exists seeder. done.
Qed.

Lemma visitEach_total (v : string -> ResolveState -> option (Outcome ResolveState)) ns V :
  (forall n st, Good m st -> visiting st = V -> is_Some (v n st)) ->
  (forall n st st', Good m st -> v n st = Some (Ok st') -> Step m [n] st st') ->
  forall st, Good m st -> visiting st = V -> is_Some (visitEach v ns st).
Proof.
  intros Htot Hstep. induction ns as [|n ns IH]; intros st G HV; simpl; [by eexists|].
  destruct (Htot n st G HV) as [[st1|e] E]; rewrite E; [|by eexists].
  destruct (Hstep n st st1 G E) as [G1 V1 _ _ _ _].
  apply IH; [done|congruence].
Qed.

Lemma visit_total (keyed : Keyed m) depth : forall n st,
  Good m st -> visiting st ⊆ dom m -> size (dom m) < depth + size (visiting st) ->
  is_Some (visit f m depth n st).
Proof.
  induction depth as [|depth IH]; intros n st G Hsub Hsize.
  { apply subseteq_size in Hsub. simpl in Hsize. lia. }
  simpl.
  destruct (decide (n ∈ visited st)); [by eexists|].
  destruct (decide (n ∈ visiting st)) as [|Hing]; [by eexists|].
  destruct (m !! n) as [seeder|] eqn:Hm; [|by eexists].
  set (st1 := {| resolved := resolved st; visiting := {[n]} ∪ visiting st;
                 visited := visited st |}).
  assert (G1 : Good m st1).
  { destruct G as [? ? ? ? D]. split; simpl; auto. set_solver. }
  assert (T : is_Some (match dependencies seeder with
                       | Some deps => visitEach (visit f m depth) deps st1
                       | None => Some (Ok st1)
                       end)).
  { destruct (dependencies seeder) as [deps|]; [|by eexists].
    apply visitEach_total with (V := visiting st1); [| |done|done].
    - intros k s Gs Vs. apply IH; [done| |].
      + rewrite Vs. simpl. apply union_subseteq. split; [|done].
        apply singleton_subseteq_l, elem_of_dom. by eexists.
      + rewrite Vs. simpl. rewrite size_union by set_solver.
        rewrite size_singleton. lia.
    - intros k s s'. by apply visit_Step. }
  destruct T as [[st2|e] ->]; by eexists.
Qed.

Lemma visitEach_throw (v : string -> ResolveState -> option (Outcome ResolveState)) ns :
  (forall n st st', Good m st -> v n st = Some (Ok st') -> Step m [n] st st') ->
  forall st e, Good m st -> visitEach v ns st = Some (Throw e) ->
    exists d st1, d ∈ ns /\ Good m st1 /\ visiting st1 = visiting st /\ v d st1 = Some (Throw e).
Proof.
  intros Hstep. induction ns as [|n ns IH]; intros st e G E; simpl in E; [discriminate|].
  destruct (v n st) as [[st1|e1]|] eqn:E1; [| |discriminate].
  - destruct (Hstep n st st1 G E1) as [G1 V1 _ _ _ _].
    destruct (IH st1 e G1 E) as (d & st2 & Hd & G2 & V2 & E2).
    exists d, st2. split; [set_solver|]. split; [done|]. split; [congruence|done].
  - inversion E; subst. exists n, st. split; [set_solver|done].
Qed.

Lemma visit_throw (keyed : Keyed m) depth : forall n st e,
  Good m st ->
  (forall v, v ∈ visiting st -> tc (dependsOn m) v n) ->
  (is_Some (m !! n) \/ exists a, dependsOn m a n) ->
  visit f m depth n st = Some (Throw e) -> Thrown f m e.
Proof.
  induction depth as [|depth IH]; intros n st e G Hpath Hn E; simpl in E; [discriminate|].
  destruct (decide (n ∈ visited st)); [discriminate|].
  destruct (decide (n ∈ visiting st)) as [Hing|Hing].
  { inversion E; subst. left. exists n. split; [done|]. by apply Hpath. }
  destruct (m !! n) as [seeder|] eqn:Hm.
  2:{ inversion E; subst. right. destruct Hn as [[? ?]|[a Ha]]; [discriminate|].
      exists a, n. done. }
  set (st1 := {| resolved := resolved st; visiting := {[n]} ∪ visiting st;
                 visited := visited st |}) in *.
  assert (G1 : Good m st1).
  { destruct G as [? ? ? ? D]. split; simpl; auto. set_solver. }
  destruct (dependencies seeder) as [deps|] eqn:Hd; [|discriminate].
  destruct (visitEach (visit f m depth) deps st1) as [[st2|e2]|] eqn:E2;
    try discriminate.
  inversion E; subst e2.
  destruct (visitEach_throw _ deps (visit_Step keyed depth) st1 e G1 E2)
    as (d & st2 & Hdin & G2 & V2 & Ed).
  assert (Hedge : dependsOn m n d).
  { exists seeder. split; [done|]. unfold declared. by rewrite Hd. }
  apply (IH d st2 e G2); [|by right; exists n|done].
  intros v Hv. rewrite V2 in Hv. simpl in Hv.
  apply elem_of_union in Hv as [Hv|Hv].
  - apply elem_of_singleton in Hv. subst v. by apply tc_once.
  - eapply tc_r; [by apply Hpath|done].
Qed.

(** The transitive dependencies of a seeder stand before it. *)
Lemma depsFirst_transitive l :
  depsFirst l -> (forall s, s ∈ l -> m !! name s = Some s) ->
  forall a d, tc (dependsOn m) a d ->
  forall i s, l !! i = Some s -> name s = a ->
    exists j t, j < i /\ l !! j = Some t /\ name t = d.
Proof.
  intros Hord Hmap a d Htc. induction Htc as [a d Hedge|a b d Hedge Htc IH];
    intros i s Hi Hs.
  - destruct Hedge as (s' & Hs' & Hd).
    assert (s' = s).
    { assert (m !! name s = Some s) by (apply Hmap; by eapply list_elem_of_lookup_2).
      congruence. }
    subst s'. by eapply Hord.
  - destruct Hedge as (s' & Hs' & Hb).
    assert (s' = s).
    { assert (m !! name s = Some s) by (apply Hmap; by eapply list_elem_of_lookup_2).
      congruence. }
    subst s'. destruct (Hord i s b Hi Hb) as (j & t & Hj & Ht & Hn).
    destruct (IH j t Ht Hn) as (k & u & Hk & Hu & Hnu).
    exists k, u. split; [lia|done].
Qed.
End Visit.

Section SeederMap.

Lemma buildSeederMap_snoc l s :
  buildSeederMap (l ++ [s]) = <[name s := s]> (buildSeederMap l).
Proof. unfold buildSeederMap. by rewrite foldl_app. Qed.

Lemma buildSeederMap_keyed l k s :
  buildSeederMap l !! k = Some s -> name s = k /\ s ∈ l.
Proof.
  induction l as [|x l IH] using rev_ind;
    [unfold buildSeederMap; simpl; by rewrite lookup_empty|].
  rewrite buildSeederMap_snoc. intros H.
  destruct (decide (name x = k)) as [<-|Hne].
  - rewrite lookup_insert_eq in H. inversion H; subst. split; [done|set_solver].
  - rewrite lookup_insert_ne in H by done. destruct (IH H). split; [done|set_solver].
Qed.

Lemma buildSeederMap_dom l k :
  is_Some (buildSeederMap l !! k) <-> k ∈ names l.
Proof.
  induction l as [|x l IH] using rev_ind.
  - unfold names, buildSeederMap. simpl. rewrite lookup_empty. split; [by intros [? ?]|].
    intros H. by apply elem_of_nil in H.
  - rewrite buildSeederMap_snoc. unfold names in *. rewrite fmap_app. simpl.
    rewrite elem_of_app, list_elem_of_singleton.
    destruct (decide (name x = k)) as [<-|Hne].
    + rewrite lookup_insert_eq. split; [by right|by eexists].
    + rewrite lookup_insert_ne by done. rewrite IH. split; [by left|].
      intros [?|?]; [done|congruence].
Qed.

Lemma buildSeederMap_unique l s :
  NoDup (names l) -> s ∈ l -> buildSeederMap l !! name s = Some s.
Proof.
  induction l as [|x l IH] using rev_ind; intros Hnd Hs; [by apply elem_of_nil in Hs|].
  rewrite buildSeederMap_snoc. unfold names in Hnd. rewrite fmap_app in Hnd.
  apply NoDup_app in Hnd as (Hnd & Hdis & _).
  apply elem_of_app in Hs as [Hs|Hs].
  - rewrite lookup_insert_ne; [by apply IH|].
    intros Heq. apply (Hdis (name s)).
    + apply list_elem_of_fmap. by exists s.
    + simpl. rewrite Heq. set_solver.
  - apply list_elem_of_singleton in Hs. subst. by rewrite lookup_insert_eq.
Qed.

Lemma buildSeederMap_size l : size (dom (buildSeederMap l)) <= length l.
Proof.
  induction l as [|x l IH] using rev_ind;
    [unfold buildSeederMap; simpl; by rewrite dom_empty_L, size_empty|].
  rewrite buildSeederMap_snoc, dom_insert_L, length_app. simpl.
  rewrite size_union_alt, size_singleton.
  assert (size (dom (buildSeederMap l) ∖ {[name x]}) <= size (dom (buildSeederMap l))).
  { apply subseteq_size. set_solver. }
  lia.
Qed.

End SeederMap.

Lemma initialState_Good m : Good m initialState.
Proof.
  split; simpl.
  - apply NoDup_nil_2.
  - intros n. set_solver.
  - intros s Hs. by apply elem_of_nil in Hs.
  - intros i s d Hi. by rewrite lookup_nil in Hi.
  - set_solver.
Qed.

Lemma visitEach_app v l1 l2 st st' :
  visitEach v (l1 ++ l2) st = Some (Ok st') ->
  exists st1, visitEach v l1 st = Some (Ok st1) /\ visitEach v l2 st1 = Some (Ok st').
Proof.
  revert st. induction l1 as [|n l1 IH]; intros st E; simpl in *.
  - by exists st.
  - destruct (v n st) as [[s1|e]|]; try discriminate. by apply IH.
Qed.

(** The budget [resolveDependencies] gives [visit] is never exhausted. *)
Lemma resolveDependencies_total f seeders :
  resolveWithin (S (length seeders)) f seeders = Some (resolveDependencies f seeders).
Proof.
  unfold resolveDependencies.
  assert (T : is_Some (resolveWithin (S (length seeders)) f seeders)).
  { unfold resolveWithin.
    set (m := buildSeederMap seeders).
    assert (K : Keyed m).
    { intros k s H. by apply buildSeederMap_keyed in H as []. }
    assert (T : is_Some (visitEach (visit f m (S (length seeders))) (name <$> seeders)
                           initialState)).
    { eapply (visitEach_total m) with (V := ∅).
      - intros n st G V. apply (visit_total f m K); [done|rewrite V; apply empty_subseteq|].
        pose proof (buildSeederMap_size seeders) as Hsz. fold m in Hsz. lia.
      - intros n st st'. apply (visit_Step f m K).
      - apply initialState_Good.
      - done. }
    destruct T as [[st|e] E]; rewrite E; by eexists. }
  destruct T as [r ->]. done.
Qed.

Section TopLevel.
Variable f : Family.
Variable seeders : list DatabaseSeeder.
Let m := buildSeederMap seeders.

Lemma seederMap_keyed : Keyed m.
Proof. intros k s H. by apply buildSeederMap_keyed in H as []. Qed.

Lemma resolveDependencies_run r :
  resolveDependencies f seeders = r ->
  match r with
  | Ok out => exists st, visitEach (visit f m (S (length seeders))) (name <$> seeders)
                           initialState = Some (Ok st) /\ resolved st = out
  | Throw e => visitEach (visit f m (S (length seeders))) (name <$> seeders)
                 initialState = Some (Throw e)
  end.
Proof.
  intros <-. pose proof (resolveDependencies_total f seeders) as T.
  unfold resolveWithin in T. fold m in T.
  destruct (visitEach (visit f m (S (length seeders))) (name <$> seeders) initialState)
    as [[st|e]|]; [| |discriminate].
  - inversion T as [T']. by exists st.
  - by inversion T as [T'].
Qed.

Lemma resolveDependencies_Step out :
  resolveDependencies f seeders = Ok out ->
  exists st, Step m (name <$> seeders) initialState st /\ resolved st = out.
Proof.
  intros H. apply resolveDependencies_run in H as (st & E & R).
  exists st. split; [|done].
  eapply visitEach_Step; [|apply initialState_Good|exact E].
  intros n s s' _. apply (visit_Step f m seederMap_keyed).
Qed.

Lemma resolveDependencies_Thrown e :
  resolveDependencies f seeders = Throw e -> Thrown f m e.
Proof.
  intros H. apply resolveDependencies_run in H.
  destruct (visitEach_throw m _ (name <$> seeders)
              (visit_Step f m seederMap_keyed (S (length seeders)))
              initialState e (initialState_Good m) H)
    as (d & st & Hd & G & V & E).
  apply (visit_throw f m seederMap_keyed (S (length seeders)) d st e G); [| |done].
  - intros v Hv. rewrite V in Hv. simpl in Hv. set_solver.
  - left. by apply buildSeederMap_dom.
Qed.

(** What a returned order is. *)
Lemma resolveDependencies_Ok out :
  resolveDependencies f seeders = Ok out ->
  NoDup (names out) /\
  (forall k, k ∈ names out <-> k ∈ names seeders) /\
  (forall s, s ∈ out -> m !! name s = Some s) /\
  depsFirst out.
Proof.
  intros H. apply resolveDependencies_Step in H as (st & [G V R M T X] & <-).
  destruct G as [N I K O D]. split; [done|]. split; [|done].
  intros k. split.
  - intros Hk. apply list_elem_of_fmap in Hk as (s & -> & Hs).
    apply buildSeederMap_dom. fold m. rewrite (K s Hs). by eexists.
  - intros Hk. apply I, T, Hk.
Qed.

Lemma resolveDependencies_Ok_graph out :
  resolveDependencies f seeders = Ok out -> acyclic m /\ allResolve m.
Proof.
  intros H. apply resolveDependencies_Ok in H as (N & I & K & O).
  assert (P : forall a, is_Some (m !! a) ->
                exists i s, out !! i = Some s /\ name s = a).
  { intros a Ha. apply buildSeederMap_dom, I in Ha.
    apply list_elem_of_fmap in Ha as (s & -> & Hs).
    apply list_elem_of_lookup in Hs as (i & Hi). by exists i, s. }
  split.
  - intros a Hcyc.
    assert (Ha : is_Some (m !! a)).
    { inversion Hcyc as [? ? (s & Hs & _)|? ? ? (s & Hs & _)]; by eexists. }
    destruct (P a Ha) as (i & s & Hi & Hs).
    destruct (depsFirst_transitive m out O K a a Hcyc i s Hi Hs) as (j & t & Hj & Ht & Hn).
    assert (i = j); [|lia].
    eapply NoDup_lookup; [exact N| |].
    + unfold names. rewrite list_lookup_fmap, Hi. simpl. by rewrite Hs.
    + unfold names. rewrite list_lookup_fmap, Ht. simpl. by rewrite Hn.
  - intros a b (s & Hs & Hb).
    destruct (P a) as (i & s' & Hi & Hs'); [by eexists|].
    assert (s' = s).
    { assert (m !! name s' = Some s') by (apply K; by eapply list_elem_of_lookup_2).
      congruence. }
    subst s'. destruct (O i s b Hi Hb) as (j & t & _ & Ht & Hn).
    apply buildSeederMap_dom, I. subst b.
    apply list_elem_of_fmap. exists t. split; [done|]. by eapply list_elem_of_lookup_2.
Qed.

Lemma resolveDependencies_succeeds :
  acyclic m -> allResolve m -> exists out, resolveDependencies f seeders = Ok out.
Proof.
  intros Hac Hres. destruct (resolveDependencies f seeders) as [out|e] eqn:E;
    [by exists out|].
  apply resolveDependencies_Thrown in E as [(x & _ & Hx)|(a & x & _ & Hd & Hx)].
  - by apply Hac in Hx.
  - apply Hres in Hd as [? ?]. congruence.
Qed.

Lemma resolveDependencies_Permutation out :
  resolveDependencies f seeders = Ok out ->
  NoDup (names seeders) -> out ≡ₚ seeders.
Proof.
  intros H Hnd. apply resolveDependencies_Ok in H as (N & I & K & O).
  assert (L : forall l : list DatabaseSeeder,
            (forall s, s ∈ l -> m !! name s = Some s) ->
            omap (m !!.) (names l) = l).
  { induction l as [|x l IH]; intros Hl; [done|]. simpl.
    rewrite (Hl x) by set_solver. simpl. f_equal. apply IH.
    intros s Hs. apply Hl. set_solver. }
  rewrite <- (L out K), <- (L seeders).
  - apply omap_Permutation. by apply NoDup_Permutation.
  - intros s Hs. by apply buildSeederMap_unique.
Qed.

Lemma resolveDependencies_before out a d :
  resolveDependencies f seeders = Ok out ->
  a ∈ names seeders -> tc (dependsOn m) a d -> before out d a.
Proof.
  intros H Ha Htc. apply resolveDependencies_Ok in H as (N & I & K & O).
  apply I in Ha. apply list_elem_of_fmap in Ha as (s & -> & Hs).
  apply list_elem_of_lookup in Hs as (i & Hi).
  destruct (depsFirst_transitive m out O K _ d Htc i s Hi eq_refl) as (j & t & Hj & Ht & Hn).
  exists j, i, t, s. done.
Qed.

Lemma resolveDependencies_stable out pre a post b :
  resolveDependencies f seeders = Ok out ->
  seeders = pre ++ a :: post -> b ∈ post ->
  (forall r, r ∈ pre ++ [a] -> ~ rtc (dependsOn m) (name r) (name b)) ->
  before out (name a) (name b).
Proof.
  intros H Hsplit Hb Hfree.
  apply resolveDependencies_run in H as (st & E & <-).
  assert (Hl : name <$> seeders = (name <$> (pre ++ [a])) ++ (name <$> post)).
  { rewrite Hsplit, <- fmap_app. f_equal. by rewrite <- app_assoc. }
  rewrite Hl in E. apply visitEach_app in E as (st1 & E1 & E2).
  assert (S1 : Step m (name <$> (pre ++ [a])) initialState st1).
  { eapply visitEach_Step; [|apply initialState_Good|exact E1].
    intros n s s' _. apply (visit_Step f m seederMap_keyed). }
  assert (S2 : Step m (name <$> post) st1 st).
  { eapply visitEach_Step; [|apply S1|exact E2].
    intros n s s' _. apply (visit_Step f m seederMap_keyed). }
  destruct S1 as [G1 _ _ _ T1 X1]. destruct S2 as [G2 _ [l R2] _ T2 _].
  assert (Ha1 : name a ∈ names (resolved st1)).
  { apply G1, T1. apply list_elem_of_fmap. exists a. split; [done|set_solver]. }
  assert (Hb1 : name b ∉ names (resolved st1)).
  { intros Hin. apply G1, X1 in Hin as [Hin|(n & Hn & Hr)]; [set_solver|].
    apply list_elem_of_fmap in Hn as (r & -> & Hr'). by apply (Hfree r). }
  assert (Hb2 : name b ∈ names (resolved st)).
  { apply G2, T2. apply list_elem_of_fmap. by exists b. }
  apply list_elem_of_fmap in Ha1 as (sa & Hsa & Hina).
  apply list_elem_of_lookup in Hina as (i & Hi).
  apply list_elem_of_fmap in Hb2 as (sb & Hsb & Hinb).
  apply list_elem_of_lookup in Hinb as (j & Hj).
  exists i, j, sa, sb. rewrite R2.
  assert (Hilt : i < length (resolved st1)) by by eapply lookup_lt_Some.
  split; [by rewrite lookup_app_l|]. split; [by rewrite <- R2|].
  split; [done|]. split; [done|].
  destruct (decide (j < length (resolved st1))) as [Hjlt|]; [|lia].
  exfalso. apply Hb1. rewrite R2, lookup_app_l in Hj by done.
  apply list_elem_of_fmap. exists sb. split; [done|]. by eapply list_elem_of_lookup_2.
Qed.

End TopLevel.

(** ** The model on concrete inputs                                       *)

Example like_sqlite_tables :
  like "sqlite_%" "sqlite_sequence" = true /\
  like "sqlite_%" "users" = false /\
  like "_prisma_migrations" "_prisma_migrations" = true /\
  like "_prisma_migrations" "posts" = false.
Proof. repeat split; reflexivity. Qed.

Example userTables_skips_catalogue :
  fst (userTables (set_tables [table "users" []; table "sqlite_sequence" [];
                               table "_prisma_migrations" []] world0))
    = Ok ["users"].
Proof. reflexivity. Qed.

Example handle_classifies :
  errorName (handle (Raw {| raw_name := "Error"; raw_message := "no such table";
                            raw_code := Some "SQLITE_ERROR" |}) None) = "DatabaseError" /\
  errorName (handle (Raw {| raw_name := "Error"; raw_message := "unique";
                            raw_code := Some "P2002" |}) None) = "DatabaseError" /\
  errorName (handle (Raw unreachable) None) = "ConfigurationError" /\
  errorName (handle (newError "boom") None) = "NestTestKitError" /\
  handle (invalidCleanupStrategy "bogus") None = invalidCleanupStrategy "bogus".
Proof. repeat split; reflexivity. Qed.

(** [A(deps: [])], [B(deps: [A])], [C(deps: [A, B])] in each of the six
    input orders. *)
Example resolveDependencies_ABC :
  let A := seeder "A" [] in
  let B := seeder "B" ["A"] in
  let C := seeder "C" ["A"; "B"] in
  Forall (fun input => resolveDependencies Prisma input = Ok [A; B; C])
    [ [A; B; C]; [A; C; B]; [B; A; C]; [B; C; A]; [C; A; B]; [C; B; A] ].
Proof. repeat constructor. Qed.

(** Two seeders run in dependency order, each body once. *)
Example seed_runs_in_order :
  let roles := inserting "RoleSeeder" [] "users" "admin" in
  let users := inserting "UserSeeder" ["RoleSeeder"] "posts" "hello" in
  exists w,
    TestDatabase.seed (TestDatabase.Seeders [users; roles]) (readyDb, world0)
      = (Ok tt, (readyDb, w)) /\
    seedLog w = ["RoleSeeder"; "UserSeeder"] /\
    storedData w = [("users", ["u1"; "u2"; "admin"]); ("posts", ["p1"; "hello"])].
Proof. eexists. split; [by vm_compute|]. split; reflexivity. Qed.

(* ===================================================================== *)
(** ** The resolved order                                                 *)
(* ===================================================================== *)

(** C1, as stated, fails.  With [A] depending on [C] and the input
    [[A; B; C]], [B] and [C] have no dependency relation and [B] stands
    before [C] in the input, yet the returned order is [[C; A; B]]: the
    visit of [A] pulls [C] forward. *)
Lemma resolveDependencies_reorders_independent :
  let seeders := [seeder "A" ["C"]; seeder "B" []; seeder "C" []] in
  let m := buildSeederMap seeders in
  acyclic m /\ allResolve m /\
  before seeders "B" "C" /\
  ~ tc (dependsOn m) "B" "C" /\ ~ tc (dependsOn m) "C" "B" /\
  exists out, resolveDependencies Prisma seeders = Ok out /\
              names out = ["C"; "A"; "B"] /\ ~ before out "B" "C".
Proof.
  intros seeders m.
  assert (R : resolveDependencies Prisma seeders
              = Ok [seeder "C" []; seeder "A" ["C"]; seeder "B" []])
    by (vm_compute; reflexivity).
  destruct (resolveDependencies_Ok_graph Prisma seeders _ R) as [Hac Hres].
  assert (leaf : forall a b, (a = "B" \/ a = "C") -> ~ tc (dependsOn m) a b).
  { intros a b Ha Htc.
    assert (exists y s, m !! a = Some s /\ y ∈ declared s) as (y & s & Hs & Hy).
    { inversion Htc as [? ? (s & ? & ?)|? y ? (s & ? & ?)]; subst; eauto. }
    destruct Ha as [-> | ->]; vm_compute in Hs; inversion Hs; subst s;
      vm_compute in Hy; by apply elem_of_nil in Hy. }
  split; [done|]. split; [done|]. split.
  { exists 1, 2, (seeder "B" []), (seeder "C" []). repeat split; auto. }
  split; [apply leaf; auto|]. split; [apply leaf; auto|].
  eexists. split; [exact R|]. split; [reflexivity|].
  intros (i & j & sa & sb & Hi & Hj & Ha & Hb & Hlt).
  destruct i as [|[|[|i]]]; simpl in Hi; inversion Hi; subst sa;
    simpl in Ha; try discriminate.
  destruct j as [|[|[|j]]]; simpl in Hj; inversion Hj; subst sb;
    simpl in Hb; try discriminate; lia.
Qed.

(** C1 (amended).  When the dependency graph is acyclic and every declared
    dependency name is the name of a seeder of the list,
    [resolveDependencies] returns an order that holds each name of the
    input once (a permutation of the input when its names are distinct),
    in which every seeder stands after all of its transitive dependencies,
    and in which a seeder [a] that precedes [b] in the input still precedes
    it unless [b] is a transitive dependency of [a] or of a seeder before
    [a]. *)
Theorem resolveDependencies_topological (f : Family) (seeders : list DatabaseSeeder) :
  acyclic (buildSeederMap seeders) ->
  allResolve (buildSeederMap seeders) ->
  exists out,
    resolveDependencies f seeders = Ok out /\
    NoDup (names out) /\
    (forall k, k ∈ names out <-> k ∈ names seeders) /\
    (forall s, s ∈ out -> s ∈ seeders) /\
    (NoDup (names seeders) -> out ≡ₚ seeders) /\
    (forall a d, a ∈ names seeders ->
       tc (dependsOn (buildSeederMap seeders)) a d -> before out d a) /\
    (forall pre a post b,
       seeders = pre ++ a :: post -> b ∈ post ->
       (forall r, r ∈ pre ++ [a] ->
          ~ rtc (dependsOn (buildSeederMap seeders)) (name r) (name b)) ->
       before out (name a) (name b)).
Proof.
  intros Hac Hres.
  destruct (resolveDependencies_succeeds f seeders Hac Hres) as [out R].
  exists out. split; [done|].
  destruct (resolveDependencies_Ok f seeders out R) as (N & I & K & O).
  split; [done|]. split; [done|]. split.
  { intros s Hs. apply K in Hs. by apply buildSeederMap_keyed in Hs as []. }
  split; [apply (resolveDependencies_Permutation f seeders out R)|]. split.
  - intros a d. apply (resolveDependencies_before f seeders out a d R).
  - intros pre a post b. apply (resolveDependencies_stable f seeders out pre a post b R).
Qed.

(** The theorem at the input [[C(A, B); B(A); A]], which resolves to
    [[A; B; C]]. *)
Lemma resolveDependencies_topological_witness :
  let seeders := [seeder "C" ["A"; "B"]; seeder "B" ["A"]; seeder "A" []] in
  (acyclic (buildSeederMap seeders) /\ allResolve (buildSeederMap seeders)) /\
  exists out,
    resolveDependencies Prisma seeders = Ok out /\
    NoDup (names out) /\
    (forall k, k ∈ names out <-> k ∈ names seeders) /\
    (forall s, s ∈ out -> s ∈ seeders) /\
    (NoDup (names seeders) -> out ≡ₚ seeders) /\
    (forall a d, a ∈ names seeders ->
       tc (dependsOn (buildSeederMap seeders)) a d -> before out d a) /\
    (forall pre a post b,
       seeders = pre ++ a :: post -> b ∈ post ->
       (forall r, r ∈ pre ++ [a] ->
          ~ rtc (dependsOn (buildSeederMap seeders)) (name r) (name b)) ->
       before out (name a) (name b)).
Proof.
  pose (G := resolveDependencies_Ok_graph Prisma
               [seeder "C" ["A"; "B"]; seeder "B" ["A"]; seeder "A" []]
               [seeder "A" []; seeder "B" ["A"]; seeder "C" ["A"; "B"]] eq_refl).
  split; [exact G|].
  exact (resolveDependencies_topological Prisma _ (proj1 G) (proj2 G)).
Defined.

(* ===================================================================== *)
(** ** Resolution failures                                                *)
(* ===================================================================== *)

(** A cycle, or a declared name that no seeder bears, rules out every
    order. *)
Lemma resolveDependencies_cycle_Throw f seeders a :
  onCycle (buildSeederMap seeders) a ->
  exists e, resolveDependencies f seeders = Throw e.
Proof.
  intros Hc. destruct (resolveDependencies f seeders) as [out|e] eqn:R; [|by exists e].
  apply resolveDependencies_Ok_graph in R as [Hac _]. by apply Hac in Hc.
Qed.

Lemma resolveDependencies_missing_Throw f seeders a x :
  dependsOn (buildSeederMap seeders) a x -> buildSeederMap seeders !! x = None ->
  exists e, resolveDependencies f seeders = Throw e.
Proof.
  intros Hd Hx. destruct (resolveDependencies f seeders) as [out|e] eqn:R; [|by exists e].
  apply resolveDependencies_Ok_graph in R as [_ Hres].
  apply Hres in Hd as [? ?]. congruence.
Qed.

Lemma append_assoc (a b c : string) : ((a ++ b) ++ c = a ++ (b ++ c))%string.
Proof.
  induction a as [|ch a IH]; [reflexivity|].
  change (String ch ((a ++ b) ++ c) = String ch (a ++ (b ++ c)))%string.
  by rewrite IH.
Qed.

Lemma append_empty (a : string) : (a ++ EmptyString = a)%string.
Proof.
  induction a as [|ch a IH]; [reflexivity|].
  change (String ch (a ++ EmptyString) = String ch a)%string.
  by rewrite IH.
Qed.

Lemma notFoundError_mentions f x : mentions (errorMessage (notFoundError f x)) x.
Proof.
  destruct f.
  - exists "Seeder not found: "%string, EmptyString.
    rewrite append_empty. reflexivity.
  - exists "Seeder 'unknown' depends on '"%string. eexists.
    unfold notFoundError, seederDependencyError, createHelpfulError. simpl.
    rewrite !append_assoc. reflexivity.
  - exists "Seeder 'unknown' depends on '"%string. eexists.
    unfold notFoundError, seederDependencyError, createHelpfulError. simpl.
    rewrite !append_assoc. reflexivity.
Qed.

(** C2, as stated, fails.  With [X] depending on [Ghost] and [Y], and [Y]
    on [X], the list holds the cycle [X -> Y -> X], yet [seed] on a ready
    instance fails with the error of the absent [Ghost], which the visit
    meets first; and on an instance that is not initialized [seed] fails
    before it resolves anything. *)
Lemma seed_cycle_other_error :
  let seeders := [seeder "X" ["Ghost"; "Y"]; seeder "Y" ["X"]] in
  onCycle (buildSeederMap seeders) "X" /\
  TestDatabase.seed (TestDatabase.Seeders seeders) (readyDb, world0)
    = (Throw (newError "Seeder not found: Ghost"), (readyDb, world0)) /\
  (forall x, newError "Seeder not found: Ghost" <> circularError Prisma x) /\
  TestDatabase.seed (TestDatabase.Seeders seeders) (freshDb, world0)
    = (Throw (newError "TestDatabase not initialized. Call initialize() first."),
       (freshDb, world0)).
Proof.
  intros seeders. split; [|split; [|split]].
  - apply tc_l with "Y"%string; [|apply tc_once].
    + exists (seeder "X" ["Ghost"; "Y"]). split; [by vm_compute|].
      unfold declared. simpl. set_solver.
    + exists (seeder "Y" ["X"]). split; [by vm_compute|].
      unfold declared. simpl. set_solver.
  - by vm_compute.
  - intros x H. simpl in H. inversion H.
  - by vm_compute.
Qed.

(** C2 (amended).  For every list of seeders that holds a dependency
    cycle, [seed] fails and leaves the instance and the database as they
    were, so no [seed] body has been called.  On an instance that is not
    initialized the error is the state error of [getClient].  On an
    initialized one it is raised by the resolution: the circular-dependency
    error at a name on a cycle when every declared name resolves, and
    otherwise that error or the error of a declared name that is absent,
    whichever the visit meets first. *)
Theorem seed_cycle_fails {A C : Type} `{!DatabaseAdapter A C}
    (db : TestDatabase.t A) (w : World) (seeders : list DatabaseSeeder) :
  (exists a, onCycle (buildSeederMap seeders) a) ->
  exists e,
    TestDatabase.seed (TestDatabase.Seeders seeders) (db, w) = (Throw e, (db, w)) /\
    (TestDatabase.isInitialized db = false -> e = TestDatabase.notInitialized) /\
    (TestDatabase.isInitialized db = true ->
       Thrown family (buildSeederMap seeders) e /\
       (allResolve (buildSeederMap seeders) ->
          exists x, e = circularError family x /\ onCycle (buildSeederMap seeders) x)).
Proof.
  intros [a Hc].
  destruct (resolveDependencies_cycle_Throw family seeders a Hc) as [e R].
  unfold TestDatabase.seed, bind, this, TestDatabase.getClient. simpl.
  destruct (TestDatabase.isInitialized db) eqn:Hi.
  - exists e. rewrite R. split; [done|]. split; [done|]. intros _.
    pose proof (resolveDependencies_Thrown family seeders e R) as T.
    split; [done|]. intros Hres.
    destruct T as [(x & -> & Hx)|(b & x & _ & Hd & Hx)]; [by exists x|].
    apply Hres in Hd as [? ?]. congruence.
  - exists TestDatabase.notInitialized. split; [done|]. split; [done|]. done.
Qed.

(** The theorem at two seeders that depend on each other and whose bodies
    would insert rows. *)
Lemma seed_cycle_fails_witness :
  let seeders := [inserting "X" ["Y"] "users" "x"; inserting "Y" ["X"] "users" "y"] in
  (exists a, onCycle (buildSeederMap seeders) a) /\
  exists e,
    TestDatabase.seed (TestDatabase.Seeders seeders) (readyDb, world0)
      = (Throw e, (readyDb, world0)) /\
    (TestDatabase.isInitialized readyDb = false ->
       e = TestDatabase.notInitialized (A := PrismaAdapter.t)) /\
    (TestDatabase.isInitialized readyDb = true ->
       Thrown Prisma (buildSeederMap seeders) e /\
       (allResolve (buildSeederMap seeders) ->
          exists x, e = circularError Prisma x /\ onCycle (buildSeederMap seeders) x)).
Proof.
  assert (H : exists a, onCycle
                (buildSeederMap [inserting "X" ["Y"] "users" "x";
                                 inserting "Y" ["X"] "users" "y"]) a).
  { exists "X"%string. apply tc_l with "Y"%string; [|apply tc_once].
    - exists (inserting "X" ["Y"] "users" "x"). split; [by vm_compute|].
      unfold declared. simpl. set_solver.
    - exists (inserting "Y" ["X"] "users" "y"). split; [by vm_compute|].
      unfold declared. simpl. set_solver. }
  split; [exact H|].
  exact (seed_cycle_fails readyDb world0 _ H).
Defined.

(** C3, as stated, fails.  [Y] declares [Ghost], which no seeder bears, but
    the visit of [X] returns to [X] before it reaches [Ghost]: the
    resolution fails with the circular-dependency error. *)
Lemma missing_dependency_other_error :
  let seeders := [seeder "X" ["Y"]; seeder "Y" ["X"; "Ghost"]] in
  dependsOn (buildSeederMap seeders) "Y" "Ghost" /\
  buildSeederMap seeders !! "Ghost" = None /\
  resolveDependencies Prisma seeders
    = Throw (newError "Circular dependency detected in seeders: X") /\
  (forall x, newError "Circular dependency detected in seeders: X"
             <> notFoundError Prisma x) /\
  resolveDependencies Mongoose seeders
    = Throw (seederDependencyError "X" "circular dependency detected").
Proof.
  intros seeders. split; [|split; [|split; [|split]]].
  - exists (seeder "Y" ["X"; "Ghost"]). split; [by vm_compute|].
    unfold declared. simpl. set_solver.
  - by vm_compute.
  - by vm_compute.
  - intros x H. simpl in H. inversion H.
  - by vm_compute.
Qed.

(** C3 (amended).  When a seeder held in the name-to-seeder map declares a
    dependency name that is not in the map, the resolution fails.  When
    the dependency graph has no cycle the error is the missing-dependency
    error of such a name, and its message holds that name; with a cycle it
    is that error or the circular-dependency error, whichever the visit
    meets first. *)
Theorem missing_dependency_fails (f : Family) (seeders : list DatabaseSeeder)
    (s : DatabaseSeeder) (x : string) :
  buildSeederMap seeders !! name s = Some s ->
  x ∈ declared s ->
  buildSeederMap seeders !! x = None ->
  exists e,
    resolveDependencies f seeders = Throw e /\
    Thrown f (buildSeederMap seeders) e /\
    (acyclic (buildSeederMap seeders) ->
       exists a y, e = notFoundError f y /\
                   dependsOn (buildSeederMap seeders) a y /\
                   buildSeederMap seeders !! y = None /\
                   mentions (errorMessage e) y).
Proof.
  intros Hs Hx Hnone.
  assert (Hd : dependsOn (buildSeederMap seeders) (name s) x) by by exists s.
  destruct (resolveDependencies_missing_Throw f seeders _ _ Hd Hnone) as [e R].
  exists e. split; [done|].
  pose proof (resolveDependencies_Thrown f seeders e R) as T.
  split; [done|]. intros Hac.
  destruct T as [(y & _ & Hy)|(a & y & -> & Hdy & Hy)]; [by apply Hac in Hy|].
  exists a, y. split; [done|]. split; [done|]. split; [done|].
  apply notFoundError_mentions.
Qed.

(** The theorem at the single seeder [Z] that declares [Ghost]. *)
Lemma missing_dependency_fails_witness :
  let seeders := [seeder "Z" ["Ghost"]] in
  (buildSeederMap seeders !! name (seeder "Z" ["Ghost"]) = Some (seeder "Z" ["Ghost"]) /\
   "Ghost" ∈ declared (seeder "Z" ["Ghost"]) /\
   buildSeederMap seeders !! "Ghost" = None) /\
  exists e,
    resolveDependencies Mongoose seeders = Throw e /\
    Thrown Mongoose (buildSeederMap seeders) e /\
    (acyclic (buildSeederMap seeders) ->
       exists a y, e = notFoundError Mongoose y /\
                   dependsOn (buildSeederMap seeders) a y /\
                   buildSeederMap seeders !! y = None /\
                   mentions (errorMessage e) y).
Proof.
  assert (H1 : buildSeederMap [seeder "Z" ["Ghost"]] !! name (seeder "Z" ["Ghost"])
               = Some (seeder "Z" ["Ghost"])) by reflexivity.
  assert (H2 : "Ghost" ∈ declared (seeder "Z" ["Ghost"])).
  { unfold declared. simpl. apply list_elem_of_here. }
  assert (H3 : buildSeederMap [seeder "Z" ["Ghost"]] !! "Ghost" = None) by reflexivity.
  split; [by repeat split|].
  exact (missing_dependency_fails Mongoose _ _ _ H1 H2 H3).
Defined.

(* ===================================================================== *)
(** ** The life of an instance                                            *)
(* ===================================================================== *)

Ltac run :=
  unfold bind, ret, throw, tryCatch, tryFinally, this, world, assign, onWorld,
         modify in *; simpl in *.

Lemma set_adapter_same {A} (db : TestDatabase.t A) :
  TestDatabase.set_adapter (TestDatabase.adapter db) db = db.
Proof. by destruct db. Qed.

Lemma PrismaAdapter_close_releases a w r a' w' :
  PrismaAdapter.close (a, w) = (r, (a', w')) ->
  r = Ok tt -> PrismaAdapter.client a' = None.
Proof.
  unfold PrismaAdapter.close, disconnect, raise. run.
  destruct (PrismaAdapter.client a) eqn:Hc; simpl.
  - destruct (disconnect_error w); simpl; intros H; inversion H; subst; [done|].
    by intros _.
  - intros H; inversion H; subst. by intros _.
Qed.

Lemma MongooseAdapter_close_releases a w r a' w' :
  MongooseAdapter.close (a, w) = (r, (a', w')) ->
  disconnect_error w = None -> MongooseAdapter.connection a' = None.
Proof.
  unfold MongooseAdapter.close, disconnect, raise. run. intros H Hd.
  destruct (MongooseAdapter.connection a) eqn:Hc; simpl in H;
    try rewrite Hd in H; simpl in H;
    destruct (MongooseAdapter.memoryServer a); simpl in H; inversion H; subst; done.
Qed.

Lemma TypeORMAdapter_close_releases a w r a' w' :
  TypeORMAdapter.close (a, w) = (r, (a', w')) ->
  r = Ok tt ->
  (forall d, TypeORMAdapter.dataSource a = Some d -> TypeORMAdapter.isInitialized d = true) ->
  TypeORMAdapter.dataSource a' = None.
Proof.
  unfold TypeORMAdapter.close, disconnect, raise. run. intros H Hr Hi.
  destruct (TypeORMAdapter.dataSource a) as [d|] eqn:Hc; simpl in H.
  - rewrite (Hi d eq_refl) in H. simpl in H.
    destruct (disconnect_error w); simpl in H; inversion H; subst; [done|]. done.
  - inversion H; subst. done.
Qed.

(** [destroy] writes the adapter and the files, never [isInitialized]. *)
Lemma destroy_keeps_isInitialized {A C : Type} `{!DatabaseAdapter A C}
    (db : TestDatabase.t A) (w : World) r db' w' :
  TestDatabase.destroy (db, w) = (r, (db', w')) ->
  TestDatabase.isInitialized db' = TestDatabase.isInitialized db /\
  exists r1 w1,
    adapterClose (TestDatabase.adapter db, w) = (r1, (TestDatabase.adapter db', w1)) /\
    (r = Ok tt -> r1 = Ok tt).
Proof.
  unfold TestDatabase.destroy, TestDatabase.onAdapter, pathExists, remove. run.
  destruct (adapterClose (TestDatabase.adapter db, w)) as [[u|e] [a1 w1]] eqn:Hc; simpl.
  - destruct u. intros H.
    assert (G : TestDatabase.isInitialized db' = TestDatabase.isInitialized db /\
                TestDatabase.adapter db' = a1).
    { destruct family;
        repeat match type of H with
               | context [if ?b then _ else _] => destruct b; simpl in H
               end; inversion H; subst; done. }
    destruct G as (G1 & G2). split; [done|]. exists (Ok tt), w1. by rewrite G2.
  - intros H. inversion H; subst. simpl. split; [done|]. by exists (Throw e), w'.
Qed.

(** C4, as stated, fails after [destroy()].  On the instance that
    [initialize()] made ready, [destroy()] closes the adapter and leaves
    [isInitialized] set: [getClient()] then does not throw, it returns the
    promise of [adapter.getConnection()], which is rejected. *)
Lemma getClient_after_destroy_returns :
  TestDatabase.initialize (freshDb, world0)
    = (Ok tt, (readyDb, set_tables (schema world0) world0)) /\
  exists db',
    TestDatabase.destroy (readyDb, world0) = (Ok tt, (db', world0)) /\
    TestDatabase.isReady db' = true /\
    TestDatabase.getClient db'
      = Ok (Throw (newError "PrismaAdapter not initialized. Call initialize() first.")).
Proof.
  split; [by vm_compute|].
  eexists. split; [by vm_compute|]. split; by vm_compute.
Qed.

(** C4 (amended).  [getClient()] (for Mongoose and TypeORM the method it
    forwards to) throws the not-initialized state error on every instance
    on which [initialize()] has not succeeded: one just constructed, and
    one whose [initialize()] failed.  [destroy()] does not bring that state
    back: after it the call still returns the promise of
    [adapter.getConnection()]; that promise is rejected with the adapter's
    own not-initialized error once [close()] has released the
    connection. *)
Theorem getClient_state {A C : Type} `{!DatabaseAdapter A C}
    (db : TestDatabase.t A) (w : World) :
  (TestDatabase.isInitialized db = false ->
     TestDatabase.getClient db = Throw TestDatabase.notInitialized) /\
  (forall id url cfg,
     TestDatabase.getClient (TestDatabase.new id url cfg)
       = Throw TestDatabase.notInitialized) /\
  (forall e db' w',
     TestDatabase.initialize (db, w) = (Throw e, (db', w')) ->
     TestDatabase.isInitialized db' = TestDatabase.isInitialized db) /\
  (forall r db' w',
     TestDatabase.destroy (db, w) = (r, (db', w')) ->
     TestDatabase.isInitialized db = true ->
     TestDatabase.getClient db'
       = Ok (adapterGetConnection (TestDatabase.adapter db'))) /\
  (forall (p : TestDatabase.t PrismaAdapter.t) p' w',
     TestDatabase.destroy (p, w) = (Ok tt, (p', w')) ->
     adapterGetConnection (TestDatabase.adapter p')
       = Throw (newError "PrismaAdapter not initialized. Call initialize() first.")) /\
  (forall (g : TestDatabase.t MongooseAdapter.t) r g' w',
     TestDatabase.destroy (g, w) = (r, (g', w')) ->
     disconnect_error w = None ->
     adapterGetConnection (TestDatabase.adapter g')
       = Throw (newError "MongooseAdapter not initialized. Call initialize() first.")).
Proof.
  split; [|split; [|split; [|split; [|split]]]].
  - intros Hi. unfold TestDatabase.getClient. by rewrite Hi.
  - intros id url cfg. reflexivity.
  - intros e db' w'. unfold TestDatabase.initialize, TestDatabase.onAdapter. run.
    destruct (adapterInitialize _ _) as [[u|e1] [a1 w1]]; simpl;
      intros H; inversion H; subst; done.
  - intros r db' w' Hd Hi.
    apply destroy_keeps_isInitialized in Hd as [Hk _].
    unfold TestDatabase.getClient. by rewrite Hk, Hi.
  - intros p p' w' Hd.
    apply destroy_keeps_isInitialized in Hd as [_ (r1 & w1 & Hc & Hr)].
    apply PrismaAdapter_close_releases in Hc; [|by apply Hr].
    simpl. unfold PrismaAdapter.getConnection. by rewrite Hc.
  - intros g r g' w' Hd Hdis.
    apply destroy_keeps_isInitialized in Hd as [_ (r1 & w1 & Hc & _)].
    apply MongooseAdapter_close_releases in Hc; [|done].
    simpl. unfold MongooseAdapter.getConnection. by rewrite Hc.
Qed.

(** The theorem at the instance just constructed. *)
Lemma getClient_state_witness :
  TestDatabase.isInitialized freshDb = false /\
  TestDatabase.getClient freshDb
    = Throw (newError "TestDatabase not initialized. Call initialize() first.").
Proof.
  split; [reflexivity|].
  exact (proj1 (getClient_state freshDb world0) eq_refl).
Defined.

(* ===================================================================== *)
(** ** Cleanup strategies                                                 *)
(* ===================================================================== *)

(** C5, as stated, fails for the Mongoose adapter, whose [transaction]
    case falls back to truncating every collection. *)
Lemma mongoose_transaction_truncates :
  MongooseAdapter.cleanup "transaction" (liveMongoose, world0)
    = (Ok tt, (liveMongoose,
               set_tables [table "users" []; table "posts" []] world0)) /\
  storedData world0 = [("users", ["u1"; "u2"]); ("posts", ["p1"])] /\
  storedData (set_tables [table "users" []; table "posts" []] world0)
    = [("users", []); ("posts", [])].
Proof. split; [by vm_compute|]. split; reflexivity. Qed.

(** C5 (amended).  [cleanup('transaction')] of the Prisma adapter and of
    the TypeORM adapter returns with the adapter and the database exactly as
    they were.  The Mongoose adapter has no such case: its [transaction]
    runs [truncateAllCollections], as [truncate] does. *)
Theorem cleanup_transaction (w : World) :
  (forall a, PrismaAdapter.cleanup "transaction" (a, w) = (Ok tt, (a, w))) /\
  (forall a, TypeORMAdapter.cleanup "transaction" (a, w) = (Ok tt, (a, w))) /\
  (forall a,
     snd (MongooseAdapter.cleanup "transaction" (a, w))
       = snd (MongooseAdapter.truncateAllCollections (a, w)) /\
     snd (MongooseAdapter.cleanup "transaction" (a, w))
       = snd (MongooseAdapter.cleanup "truncate" (a, w))).
Proof.
  split; [|split].
  - intros a. unfold PrismaAdapter.cleanup. run. by destruct (PrismaAdapter.client a).
  - intros a. unfold TypeORMAdapter.cleanup. run.
    by destruct (TypeORMAdapter.dataSource a).
  - intros a. unfold MongooseAdapter.cleanup. run.
    destruct (MongooseAdapter.connection a) eqn:Hc; simpl.
    + split.
      * by destruct (MongooseAdapter.truncateAllCollections (a, w)) as [[u|e] s].
      * by destruct (MongooseAdapter.truncateAllCollections (a, w)) as [[u|e] s].
    + unfold MongooseAdapter.truncateAllCollections. run. by rewrite Hc.
Qed.

(** C6: the code breaks it.  With a [users] table whose rows the database
    refuses to delete, the truncate pass of the Prisma adapter, and of the
    TypeORM adapter on SQLite, throws with [foreign_keys] still off; the
    pass that meets no failure leaves it on. *)
Lemma truncate_failure_leaves_foreign_keys_off :
  foreign_keys lockedWorld = true /\
  PrismaAdapter.truncateAllTables (livePrisma, lockedWorld)
    = (Throw (newError "Failed to truncate tables: Error: database table is locked"),
       (livePrisma, set_foreign_keys false lockedWorld)) /\
  TypeORMAdapter.truncateAllTables (liveTypeORM, lockedWorld)
    = (Throw (newError
                "Failed to truncate TypeORM tables: Error: database table is locked"),
       (liveTypeORM, set_foreign_keys false lockedWorld)) /\
  foreign_keys (snd (snd (PrismaAdapter.cleanup "truncate" (livePrisma, lockedWorld))))
    = false /\
  foreign_keys (snd (snd (PrismaAdapter.truncateAllTables (livePrisma, world0))))
    = true.
Proof. repeat split; by vm_compute. Qed.

(** The general form: whenever the truncate pass of the Prisma adapter
    throws, it returns with [foreign_keys] off. *)
Lemma forOf_delete_keeps_foreign_keys (a : PrismaAdapter.t) l : forall w r a' w',
  forOf l (fun table => onWorld (execute (DeleteFrom table))) (a, w) = (r, (a', w')) ->
  foreign_keys w' = foreign_keys w.
Proof.
  induction l as [|x l IH]; intros w r a' w'; simpl.
  - run. intros H. by inversion H.
  - unfold execute. run.
    destruct (deleteRows x (tables w)) as [t|e]; simpl.
    + intros H. by apply IH in H.
    + intros H. by inversion H.
Qed.

Lemma PrismaAdapter_truncate_Throw a w e a' w' :
  PrismaAdapter.truncateAllTables (a, w) = (Throw e, (a', w')) ->
  foreign_keys w' = false.
Proof.
  unfold PrismaAdapter.truncateAllTables, userTables. run.
  destruct (PrismaAdapter.client a); [|discriminate]. simpl.
  destruct (forOf _ _ _) as [[u|e1] [a1 w1]] eqn:F; simpl;
    intros H; inversion H; subst.
  by apply forOf_delete_keeps_foreign_keys in F.
Qed.

(** C8, as stated, fails at the instance for the empty string, which is
    none of the three strategies: [strategy || this.config.cleanup ||
    'truncate'] reads it as absent, and the call truncates. *)
Lemma cleanup_empty_strategy_truncates :
  EmptyString <> "transaction"%string /\ EmptyString <> "truncate"%string /\
  EmptyString <> "recreate"%string /\
  TestDatabase.cleanup (Some EmptyString) (readyDb, world0)
    = (Ok tt, (readyDb, set_tables [table "users" []; table "posts" []] world0)) /\
  storedData world0 = [("users", ["u1"; "u2"]); ("posts", ["p1"])] /\
  storedData (set_tables [table "users" []; table "posts" []] world0)
    = [("users", []); ("posts", [])].
Proof. repeat split; try discriminate; by vm_compute. Qed.

Lemma eqb_neq (a b : string) : a <> b -> String.eqb a b = false.
Proof. intros H. by apply String.eqb_neq. Qed.

Lemma cleanupStrategy_given {A} (db : TestDatabase.t A) strategy :
  strategy <> EmptyString ->
  TestDatabase.cleanupStrategy (Some strategy) db = strategy.
Proof. unfold TestDatabase.cleanupStrategy. simpl. by destruct strategy. Qed.

(** C8 (amended).  For every adapter with a live connection and every
    strategy string that is none of ['transaction'], ['truncate'],
    ['recreate'], the adapter's [cleanup] throws the [ConfigurationError]
    of [invalidCleanupStrategy] and leaves the adapter and the database as
    they were.  So does [cleanup] of the instance that owns the adapter for
    every such string that is not empty. *)
Theorem cleanup_unknown_strategy (strategy : string) (w : World) :
  strategy <> "transaction"%string ->
  strategy <> "truncate"%string ->
  strategy <> "recreate"%string ->
  (exists msg details,
     invalidCleanupStrategy strategy
       = Kit ConfigurationError msg "CONFIGURATION_ERROR" details) /\
  (forall a, PrismaAdapter.client a <> None ->
     PrismaAdapter.cleanup strategy (a, w)
       = (Throw (invalidCleanupStrategy strategy), (a, w))) /\
  (forall a, TypeORMAdapter.dataSource a <> None ->
     TypeORMAdapter.cleanup strategy (a, w)
       = (Throw (invalidCleanupStrategy strategy), (a, w))) /\
  (forall a, MongooseAdapter.connection a <> None ->
     MongooseAdapter.cleanup strategy (a, w)
       = (Throw (invalidCleanupStrategy strategy), (a, w))) /\
  (strategy <> EmptyString ->
   (forall db : TestDatabase.t PrismaAdapter.t,
      PrismaAdapter.client (TestDatabase.adapter db) <> None ->
      TestDatabase.cleanup (Some strategy) (db, w)
        = (Throw (invalidCleanupStrategy strategy), (db, w))) /\
   (forall db : TestDatabase.t TypeORMAdapter.t,
      TypeORMAdapter.dataSource (TestDatabase.adapter db) <> None ->
      TestDatabase.cleanup (Some strategy) (db, w)
        = (Throw (invalidCleanupStrategy strategy), (db, w))) /\
   (forall db : TestDatabase.t MongooseAdapter.t,
      MongooseAdapter.connection (TestDatabase.adapter db) <> None ->
      TestDatabase.cleanup (Some strategy) (db, w)
        = (Throw (invalidCleanupStrategy strategy), (db, w)))).
Proof.
  intros H1 H2 H3.
  assert (P : forall a, PrismaAdapter.client a <> None ->
            PrismaAdapter.cleanup strategy (a, w)
              = (Throw (invalidCleanupStrategy strategy), (a, w))).
  { intros a Ha. unfold PrismaAdapter.cleanup. run.
    destruct (PrismaAdapter.client a); [|done].
    by rewrite (eqb_neq _ _ H1), (eqb_neq _ _ H2), (eqb_neq _ _ H3). }
  assert (T : forall a, TypeORMAdapter.dataSource a <> None ->
            TypeORMAdapter.cleanup strategy (a, w)
              = (Throw (invalidCleanupStrategy strategy), (a, w))).
  { intros a Ha. unfold TypeORMAdapter.cleanup. run.
    destruct (TypeORMAdapter.dataSource a); [|done].
    by rewrite (eqb_neq _ _ H1), (eqb_neq _ _ H2), (eqb_neq _ _ H3). }
  assert (G : forall a, MongooseAdapter.connection a <> None ->
            MongooseAdapter.cleanup strategy (a, w)
              = (Throw (invalidCleanupStrategy strategy), (a, w))).
  { intros a Ha. unfold MongooseAdapter.cleanup. run.
    destruct (MongooseAdapter.connection a); [|done].
    by rewrite (eqb_neq _ _ H1), (eqb_neq _ _ H2), (eqb_neq _ _ H3). }
  split; [by eexists _, _|]. split; [done|]. split; [done|]. split; [done|].
  intros Hne. split; [|split]; intros db Hlive;
    unfold TestDatabase.cleanup, TestDatabase.onAdapter; run;
    rewrite (cleanupStrategy_given db strategy Hne).
  - change (@adapterCleanup _ _ prismaAdapter) with PrismaAdapter.cleanup.
    rewrite (P _ Hlive). by rewrite set_adapter_same.
  - change (@adapterCleanup _ _ typeormAdapter) with TypeORMAdapter.cleanup.
    rewrite (T _ Hlive). by rewrite set_adapter_same.
  - change (@adapterCleanup _ _ mongooseAdapter) with MongooseAdapter.cleanup.
    rewrite (G _ Hlive). by rewrite set_adapter_same.
Qed.

(** The theorem at the strategy [bogus]. *)
Lemma cleanup_unknown_strategy_witness :
  ("bogus" <> "transaction" /\ "bogus" <> "truncate" /\ "bogus" <> "recreate")%string /\
  PrismaAdapter.cleanup "bogus" (livePrisma, world0)
    = (Throw (invalidCleanupStrategy "bogus"), (livePrisma, world0)) /\
  TestDatabase.cleanup (Some "bogus"%string) (readyDb, world0)
    = (Throw (invalidCleanupStrategy "bogus"), (readyDb, world0)).
Proof.
  assert (H1 : "bogus"%string <> "transaction"%string) by discriminate.
  assert (H2 : "bogus"%string <> "truncate"%string) by discriminate.
  assert (H3 : "bogus"%string <> "recreate"%string) by discriminate.
  pose (T := cleanup_unknown_strategy "bogus" world0 H1 H2 H3).
  split; [done|]. split.
  - apply (proj1 (proj2 T)). discriminate.
  - apply (proj1 (proj2 (proj2 (proj2 (proj2 T))) ltac:(discriminate))).
    discriminate.
Defined.

(** C10.  For every adapter whose connection field is empty, as a new
    adapter has it and as [close()] leaves it, [cleanup] returns without an
    error and with the adapter and the database as they were, whatever the
    strategy string. *)
Theorem cleanup_without_connection (strategy : string) (w : World) :
  (forall a, PrismaAdapter.client a = None ->
     PrismaAdapter.cleanup strategy (a, w) = (Ok tt, (a, w))) /\
  (forall a, TypeORMAdapter.dataSource a = None ->
     TypeORMAdapter.cleanup strategy (a, w) = (Ok tt, (a, w))) /\
  (forall a, MongooseAdapter.connection a = None ->
     MongooseAdapter.cleanup strategy (a, w) = (Ok tt, (a, w))) /\
  PrismaAdapter.cleanup strategy (PrismaAdapter.new, w) = (Ok tt, (PrismaAdapter.new, w)) /\
  TypeORMAdapter.cleanup strategy (TypeORMAdapter.new, w)
    = (Ok tt, (TypeORMAdapter.new, w)) /\
  MongooseAdapter.cleanup strategy (MongooseAdapter.new, w)
    = (Ok tt, (MongooseAdapter.new, w)) /\
  (forall a w0 a' w1,
     PrismaAdapter.close (a, w0) = (Ok tt, (a', w1)) ->
     PrismaAdapter.cleanup strategy (a', w) = (Ok tt, (a', w))) /\
  (forall a w0 a' w1,
     TypeORMAdapter.close (a, w0) = (Ok tt, (a', w1)) ->
     (forall d, TypeORMAdapter.dataSource a = Some d ->
                TypeORMAdapter.isInitialized d = true) ->
     TypeORMAdapter.cleanup strategy (a', w) = (Ok tt, (a', w))) /\
  (forall a w0 r a' w1,
     MongooseAdapter.close (a, w0) = (r, (a', w1)) ->
     disconnect_error w0 = None ->
     MongooseAdapter.cleanup strategy (a', w) = (Ok tt, (a', w))).
Proof.
  assert (P : forall a, PrismaAdapter.client a = None ->
            PrismaAdapter.cleanup strategy (a, w) = (Ok tt, (a, w))).
  { intros a Ha. unfold PrismaAdapter.cleanup. run. by rewrite Ha. }
  assert (T : forall a, TypeORMAdapter.dataSource a = None ->
            TypeORMAdapter.cleanup strategy (a, w) = (Ok tt, (a, w))).
  { intros a Ha. unfold TypeORMAdapter.cleanup. run. by rewrite Ha. }
  assert (G : forall a, MongooseAdapter.connection a = None ->
            MongooseAdapter.cleanup strategy (a, w) = (Ok tt, (a, w))).
  { intros a Ha. unfold MongooseAdapter.cleanup. run. by rewrite Ha. }
  split; [done|]. split; [done|]. split; [done|].
  split; [by apply P|]. split; [by apply T|]. split; [by apply G|].
  split; [|split].
  - intros a w0 a' w1 Hc. apply P. by eapply PrismaAdapter_close_releases.
  - intros a w0 a' w1 Hc Hi. apply T. by eapply TypeORMAdapter_close_releases.
  - intros a w0 r a' w1 Hc Hd. apply G. by eapply MongooseAdapter_close_releases.
Qed.

(** The theorem at a new adapter and at an adapter that [close()] left. *)
Lemma cleanup_without_connection_witness :
  PrismaAdapter.client PrismaAdapter.new = None /\
  PrismaAdapter.cleanup "bogus" (PrismaAdapter.new, world0)
    = (Ok tt, (PrismaAdapter.new, world0)) /\
  PrismaAdapter.close (livePrisma, world0)
    = (Ok tt, (PrismaAdapter.set_client None livePrisma, world0)) /\
  PrismaAdapter.cleanup "truncate" (PrismaAdapter.set_client None livePrisma, world0)
    = (Ok tt, (PrismaAdapter.set_client None livePrisma, world0)).
Proof.
  pose (T := cleanup_without_connection).
  split; [reflexivity|]. split.
  - exact (proj1 (T "bogus"%string world0) PrismaAdapter.new eq_refl).
  - split; [reflexivity|].
    exact (proj1 (proj2 (proj2 (proj2 (proj2 (proj2 (proj2
             (T "truncate"%string world0)))))))
             livePrisma world0 _ world0 eq_refl).
Defined.

(* ===================================================================== *)
(** ** The manager                                                        *)
(* ===================================================================== *)

(** [initialize()] of an instance never writes its [id]. *)
Lemma initialize_keeps_id {A C : Type} `{!DatabaseAdapter A C}
    (db : TestDatabase.t A) (w : World) r db' w' :
  TestDatabase.initialize (db, w) = (r, (db', w')) ->
  TestDatabase.id db' = TestDatabase.id db.
Proof.
  unfold TestDatabase.initialize, TestDatabase.onAdapter. run.
  destruct (adapterInitialize _ _) as [[u|e1] [a1 w1]]; simpl;
    intros H; inversion H; subst; done.
Qed.

Lemma generateDatabaseUrl_returns {A C : Type} `{!DatabaseAdapter A C}
    (config : TestDatabaseConfig) (w : World) :
  exists url w1, Manager.generateDatabaseUrl config w = (Ok url, w1).
Proof.
  unfold Manager.generateDatabaseUrl, Manager.tmpFile. run.
  destruct family.
  - destruct (truthyS (databaseUrl config)); by eexists _, _.
  - destruct (truthyS (databaseUrl config)); [by eexists _, _|].
    destruct (_ || _); [|by eexists _, _].
    destruct (databaseUrl config) as [u|]; [|by eexists _, _].
    repeat (first [ by eexists _, _
                  | match goal with
                    | |- context [match ?x with _ => _ end] => destruct x
                    end ]).
  - destruct (truthyS (mongoUri config)); by eexists _, _.
Qed.

(** C7.  When the adapter fails to initialize during [create(config)], the
    call throws that same error and the registry is the one it was: [get]
    answers for every id as before, so the id generated for the new
    instance, which no registered instance bore, is still not found. *)
Theorem create_failure_not_registered {A C : Type} `{!DatabaseAdapter A C}
    (mgr : Manager.t A) (w : World) (config : TestDatabaseConfig)
    (url : string) (w1 : World) (e : JsError) (a' : A) (w' : World) :
  Manager.generateDatabaseUrl config w = (Ok url, w1) ->
  adapterInitialize (with_databaseUrl url config) (newAdapter, w1)
    = (Throw e, (a', w')) ->
  exists mgr',
    Manager.create config (mgr, w) = (Throw e, (mgr', w')) /\
    mgr' = mgr /\
    (forall id, Manager.get id mgr' = Manager.get id mgr) /\
    (Manager.get (Manager.generateId w) mgr = None ->
     Manager.get (Manager.generateId w) mgr' = None).
Proof.
  intros Hu Hi. exists mgr.
  split; [|by repeat split].
  unfold Manager.create, Manager.onInstance, TestDatabase.initialize,
         TestDatabase.onAdapter. run.
  rewrite Hu. simpl. unfold TestDatabase.new. simpl. by rewrite Hi.
Qed.

(** The theorem at a Prisma manager whose database cannot be reached. *)
Lemma create_failure_not_registered_witness :
  exists url w1 e a' w',
    Manager.generateDatabaseUrl (A := PrismaAdapter.t) emptyConfig downWorld
      = (Ok url, w1) /\
    PrismaAdapter.initialize (with_databaseUrl url emptyConfig) (PrismaAdapter.new, w1)
      = (Throw e, (a', w')) /\
    e = newConfigurationError "System error: connect ECONNREFUSED"
          (Some (DBackend "nodeCode" "ECONNREFUSED" unreachable
                   (Some "PrismaAdapter.initialize"%string))) /\
    Manager.get (Manager.generateId (A := PrismaAdapter.t) downWorld)
      (Manager.new (A := PrismaAdapter.t)) = None /\
    exists mgr',
      Manager.create emptyConfig (Manager.new (A := PrismaAdapter.t), downWorld)
        = (Throw e, (mgr', w')) /\
      mgr' = Manager.new /\
      (forall id, Manager.get id mgr' = Manager.get id Manager.new) /\
      (Manager.get (Manager.generateId (A := PrismaAdapter.t) downWorld)
         (Manager.new (A := PrismaAdapter.t)) = None ->
       Manager.get (Manager.generateId (A := PrismaAdapter.t) downWorld) mgr' = None).
Proof.
  eexists _, _, _, _, _.
  split; [reflexivity|]. split; [reflexivity|]. split; [reflexivity|].
  split; [reflexivity|].
  exact (create_failure_not_registered (A := PrismaAdapter.t) Manager.new downWorld
           emptyConfig _ _ _ _ _ eq_refl eq_refl).
Defined.

Lemma length_append (a b : string) :
  String.length (a ++ b)%string = String.length a + String.length b.
Proof.
  induction a as [|ch a IH]; [reflexivity|].
  change (S (String.length (a ++ b)%string) = S (String.length a + String.length b)).
  by rewrite IH.
Qed.

(** C9, as stated, fails for the Prisma manager: its ids start with
    [test-db-], with no backend before it. *)
Lemma prisma_id_has_no_backend :
  Manager.generateId (A := PrismaAdapter.t) world0 = "test-db-1700000000000-9abcd"%string /\
  pretty (now world0) = "1700000000000"%string /\
  substringFrom 7 (random world0) = "9abcd"%string /\
  forall backend : string,
    Manager.generateId (A := PrismaAdapter.t) world0
      <> (backend ++ "-test-db-" ++ pretty (now world0) ++ "-"
            ++ substringFrom 7 (random world0))%string.
Proof.
  split; [by vm_compute|]. split; [by vm_compute|]. split; [by vm_compute|].
  intros backend H. apply (f_equal String.length) in H.
  rewrite length_append in H.
  assert (L1 : String.length (Manager.generateId (A := PrismaAdapter.t) world0) = 27)
    by (by vm_compute).
  assert (L2 : String.length ("-test-db-" ++ pretty (now world0) ++ "-"
                                ++ substringFrom 7 (random world0))%string = 28)
    by (by vm_compute).
  rewrite L1, L2 in H. lia.
Qed.

(** C9 (amended).  The id of an instance that [create] returns is the one
    [generateId] built, and [create] registers the instance under it.  For
    the TypeORM and the Mongoose manager it reads
    [{backend}-test-db-{timestamp}-{random suffix}] with [typeorm] and
    [mongoose] for the backend; for the Prisma manager it reads
    [test-db-{timestamp}-{random suffix}], with no backend. *)
Theorem generateId_form {A C : Type} `{!DatabaseAdapter A C}
    (mgr : Manager.t A) (w : World) (config : TestDatabaseConfig)
    (db : TestDatabase.t A) (mgr' : Manager.t A) (w' : World) :
  Manager.create config (mgr, w) = (Ok db, (mgr', w')) ->
  TestDatabase.id db = Manager.generateId w /\
  Manager.get (TestDatabase.id db) mgr' = Some db /\
  Manager.generateId w
    = (match family with
       | Prisma => EmptyString
       | TypeORM => "typeorm-"
       | Mongoose => "mongoose-"
       end ++ "test-db-" ++ pretty (now w) ++ "-" ++ substringFrom 7 (random w))%string.
Proof.
  intros H.
  assert (F : Manager.generateId w
              = (match family with
                 | Prisma => EmptyString
                 | TypeORM => "typeorm-"
                 | Mongoose => "mongoose-"
                 end ++ "test-db-" ++ pretty (now w) ++ "-"
                   ++ substringFrom 7 (random w))%string).
  { unfold Manager.generateId. by destruct family. }
  revert H. unfold Manager.create, Manager.onInstance. run.
  destruct (generateDatabaseUrl_returns config w) as (url & w1 & ->). simpl.
  destruct (TestDatabase.initialize _) as [[u|e] [db1 w2]] eqn:Hi; simpl;
    intros H; inversion H; subst.
  apply initialize_keeps_id in Hi. simpl in Hi.
  split; [done|]. split; [|done].
  unfold Manager.get. simpl. rewrite Hi. by rewrite lookup_insert_eq.
Qed.

(** The theorem at the first instance a Mongoose manager creates. *)
Lemma generateId_form_witness :
  exists db mgr' w',
    Manager.create emptyConfig (Manager.new (A := MongooseAdapter.t), world0)
      = (Ok db, (mgr', w')) /\
    TestDatabase.id db = "mongoose-test-db-1700000000000-9abcd"%string /\
    TestDatabase.id db = Manager.generateId (A := MongooseAdapter.t) world0 /\
    Manager.get (TestDatabase.id db) mgr' = Some db /\
    Manager.generateId (A := MongooseAdapter.t) world0
      = ("mongoose-" ++ "test-db-" ++ pretty (now world0) ++ "-"
           ++ substringFrom 7 (random world0))%string.
Proof.
  assert (H : exists db mgr' w',
            Manager.create emptyConfig (Manager.new (A := MongooseAdapter.t), world0)
              = (Ok db, (mgr', w')))
    by (vm_compute; by eexists _, _, _).
  destruct H as (db & mgr' & w' & H).
  exists db, mgr', w'. split; [exact H|].
  pose proof (generateId_form (A := MongooseAdapter.t) _ _ _ _ _ _ H) as T.
  split; [|exact T].
  rewrite (proj1 T). by vm_compute.
Defined.

(* ===================================================================== *)
(** ** More on the resolution                                             *)
(* ===================================================================== *)

(** A deeper budget never changes what a visit that ended gives. *)
Lemma visitEach_deeper (v v' : string -> ResolveState -> option (Outcome ResolveState)) :
  (forall n st r, v n st = Some r -> v' n st = Some r) ->
  forall ns st r, visitEach v ns st = Some r -> visitEach v' ns st = Some r.
Proof.
  intros Hv. induction ns as [|n ns IH]; intros st r E; simpl in *; [done|].
  destruct (v n st) as [[st1|e]|] eqn:E1; [| |discriminate].
  - rewrite (Hv _ _ _ E1). by apply IH.
  - by rewrite (Hv _ _ _ E1).
Qed.

Lemma visit_deeper f m depth : forall n st r,
  visit f m depth n st = Some r -> visit f m (S depth) n st = Some r.
Proof.
  induction depth as [|depth IH]; intros n st r E; [discriminate|].
  remember (S depth) as d eqn:Hd. simpl. subst d. simpl in E.
  destruct (decide (n ∈ visited st)); [done|].
  destruct (decide (n ∈ visiting st)); [done|].
  destruct (m !! n) as [seeder|]; [|done].
  destruct (dependencies seeder) as [deps|]; [|done]. simpl in *.
  destruct (visitEach (visit f m depth) deps _) as [r1|] eqn:E1; [|discriminate].
  by rewrite (visitEach_deeper _ _ IH _ _ _ E1).
Qed.

Lemma visit_deeper_le f m depth depth' n st r :
  depth <= depth' -> visit f m depth n st = Some r -> visit f m depth' n st = Some r.
Proof.
  induction 1 as [|d' _ IH]; [done|]. intros E. by apply visit_deeper, IH.
Qed.

Lemma resolveWithin_deeper (f : Family) (seeders : list DatabaseSeeder)
    (depth depth' : nat) r :
  depth <= depth' ->
  resolveWithin depth f seeders = Some r -> resolveWithin depth' f seeders = Some r.
Proof.
  intros Hd. unfold resolveWithin.
  destruct (visitEach (visit f (buildSeederMap seeders) depth) (name <$> seeders)
              initialState) as [r0|] eqn:E; [|discriminate].
  rewrite (visitEach_deeper _ (visit f (buildSeederMap seeders) depth')
             (fun n st r => visit_deeper_le f _ _ depth' n st r Hd) _ _ _ E).
  done.
Qed.

(** X1.  The calls of [visit] never nest deeper than the list is long plus
    one: every recursion budget above the length of the list gives the
    outcome of [resolveDependencies], on every input, cyclic or not. *)
Theorem resolveDependencies_any_budget (f : Family) (seeders : list DatabaseSeeder)
    (depth : nat) :
  length seeders < depth ->
  resolveWithin depth f seeders = Some (resolveDependencies f seeders).
Proof.
  intros Hd.
  apply (resolveWithin_deeper f seeders (S (length seeders)) depth); [lia|].
  apply resolveDependencies_total.
Qed.

(** The theorem at a cycle of two seeders and a budget of ten. *)
Lemma resolveDependencies_any_budget_witness :
  length [seeder "X" ["Y"]; seeder "Y" ["X"]] < 10 /\
  resolveWithin 10 Prisma [seeder "X" ["Y"]; seeder "Y" ["X"]]
    = Some (resolveDependencies Prisma [seeder "X" ["Y"]; seeder "Y" ["X"]]).
Proof.
  assert (H : length [seeder "X" ["Y"]; seeder "Y" ["X"]] < 10) by (simpl; lia).
  split; [exact H|].
  exact (resolveDependencies_any_budget Prisma _ 10 H).
Defined.

(** X2.  [resolveDependencies] returns an order exactly when the
    dependency graph of the name-to-seeder map has no cycle and every
    declared name is in the map; in every other case it throws. *)
Theorem resolveDependencies_Ok_iff (f : Family) (seeders : list DatabaseSeeder) :
  (exists out, resolveDependencies f seeders = Ok out) <->
  acyclic (buildSeederMap seeders) /\ allResolve (buildSeederMap seeders).
Proof.
  split.
  - intros [out R]. by eapply resolveDependencies_Ok_graph.
  - intros [Hac Hres]. by apply resolveDependencies_succeeds.
Qed.

Lemma visitEach_all_visited (v : string -> ResolveState -> option (Outcome ResolveState))
    ns st :
  (forall n, n ∈ ns -> v n st = Some (Ok st)) -> visitEach v ns st = Some (Ok st).
Proof.
  induction ns as [|n ns IH]; intros H; simpl; [done|].
  rewrite (H n) by set_solver. apply IH. intros k Hk. apply H. set_solver.
Qed.

Lemma visitEach_cons (v : string -> ResolveState -> option (Outcome ResolveState))
    n ns st :
  visitEach v (n :: ns) st
  = match v n st with Some (Ok st') => visitEach v ns st' | r => r end.
Proof. reflexivity. Qed.

Lemma visit_in_order f (seeders : list DatabaseSeeder) depth :
  NoDup (names seeders) -> depsFirst seeders ->
  forall rest pre st,
    seeders = pre ++ rest ->
    resolved st = pre -> visiting st = ∅ ->
    (forall n, n ∈ visited st <-> n ∈ names pre) ->
    exists st',
      visitEach (visit f (buildSeederMap seeders) (S (S depth))) (name <$> rest) st
        = Some (Ok st') /\
      resolved st' = seeders.
Proof.
  intros Hnd Hord. induction rest as [|s rest IH]; intros pre st Hs Hr Hv Hvis.
  - exists st. split; [done|]. by rewrite Hs, app_nil_r.
  - assert (Hm : buildSeederMap seeders !! name s = Some s).
    { apply buildSeederMap_unique; [done|]. rewrite Hs. set_solver. }
    assert (Hfresh : name s ∉ names pre).
    { unfold names in Hnd. rewrite Hs, fmap_app in Hnd.
      apply NoDup_app in Hnd as (_ & Hdis & _). intros Hin.
      apply (Hdis _ Hin). simpl. set_solver. }
    assert (Hdeps : forall d, d ∈ declared s -> d ∈ visited st).
    { intros d Hd. apply Hvis.
      destruct (Hord (length pre) s d) as (j & t & Hj & Ht & Hn); [|done|].
      { rewrite Hs. by rewrite list_lookup_middle. }
      rewrite Hs, lookup_app_l in Ht by done. subst d.
      apply list_elem_of_fmap. exists t. split; [done|].
      by eapply list_elem_of_lookup_2. }
    set (st1 := {| resolved := resolved st; visiting := {[name s]} ∪ visiting st;
                   visited := visited st |}).
    assert (E1 : match dependencies s with
                 | Some deps => visitEach (visit f (buildSeederMap seeders) (S depth))
                                  deps st1
                 | None => Some (Ok st1)
                 end = Some (Ok st1)).
    { unfold declared in Hdeps. destruct (dependencies s) as [deps|]; [|done].
      apply visitEach_all_visited. intros d Hd. simpl.
      destruct (decide (d ∈ visited st)) as [|Hno]; [done|].
      destruct Hno. by apply Hdeps. }
    set (st2 := {| resolved := resolved st1 ++ [s];
                   visiting := visiting st1 ∖ {[name s]};
                   visited := {[name s]} ∪ visited st1 |}).
    assert (E : visit f (buildSeederMap seeders) (S (S depth)) (name s) st
                = Some (Ok st2)).
    { remember (S depth) as d eqn:Hd. simpl.
      destruct (decide (name s ∈ visited st)) as [Hin|_].
      { destruct Hfresh. by apply Hvis. }
      destruct (decide (name s ∈ visiting st)) as [Hin|_].
      { rewrite Hv in Hin. set_solver. }
      rewrite Hm. fold st1. subst d. rewrite E1. done. }
    destruct (IH (pre ++ [s]) st2) as (st' & E' & R').
    + by rewrite <- app_assoc.
    + simpl. by rewrite Hr.
    + simpl. rewrite Hv. set_solver.
    + intros n. simpl. unfold names. rewrite fmap_app. simpl.
      rewrite elem_of_union, elem_of_singleton, elem_of_app, list_elem_of_singleton.
      rewrite Hvis. unfold names. tauto.
    + exists st'. split; [|done]. rewrite fmap_cons, visitEach_cons, E. exact E'.
Qed.

Lemma resolveWithin_ordered (f : Family) (seeders : list DatabaseSeeder) :
  NoDup (names seeders) -> depsFirst seeders ->
  resolveWithin (S (S (length seeders))) f seeders = Some (Ok seeders).
Proof.
  intros Hnd Hord.
  destruct (visit_in_order f seeders (length seeders) Hnd Hord seeders [] initialState)
    as (st' & E & R); try done.
  { intros n. simpl. unfold names. simpl. set_solver. }
  unfold resolveWithin. by rewrite E, R.
Qed.

(** X3.  A list whose names are distinct and in which every seeder stands
    after the seeders it declares is returned as it is. *)
Theorem resolveDependencies_ordered (f : Family) (seeders : list DatabaseSeeder) :
  NoDup (names seeders) -> depsFirst seeders ->
  resolveDependencies f seeders = Ok seeders.
Proof.
  intros Hnd Hord.
  pose proof (resolveWithin_ordered f seeders Hnd Hord) as E.
  pose proof (resolveWithin_deeper f seeders (S (length seeders))
                (S (S (length seeders))) _ ltac:(lia)
                (resolveDependencies_total f seeders)) as T.
  rewrite E in T. by inversion T.
Qed.

(** The theorem at [[A; B(A); C(A, B)]]. *)
Lemma resolveDependencies_ordered_witness :
  let seeders := [seeder "A" []; seeder "B" ["A"]; seeder "C" ["A"; "B"]] in
  (NoDup (names seeders) /\ depsFirst seeders) /\
  resolveDependencies Mongoose seeders = Ok seeders.
Proof.
  assert (R : resolveDependencies Mongoose
                [seeder "A" []; seeder "B" ["A"]; seeder "C" ["A"; "B"]]
              = Ok [seeder "A" []; seeder "B" ["A"]; seeder "C" ["A"; "B"]])
    by reflexivity.
  pose proof (resolveDependencies_Ok _ _ _ R) as (N & _ & _ & O).
  split; [by split|].
  exact (resolveDependencies_ordered Mongoose _ N O).
Defined.

(** X4.  Resolving a resolved order changes nothing:
    [resolveDependencies] is idempotent. *)
Theorem resolveDependencies_idempotent (f : Family)
    (seeders out : list DatabaseSeeder) :
  resolveDependencies f seeders = Ok out ->
  resolveDependencies f out = Ok out.
Proof.
  intros R. apply resolveDependencies_Ok in R as (N & _ & _ & O).
  pose proof (resolveWithin_ordered f out N O) as E.
  pose proof (resolveWithin_deeper f out (S (length out)) (S (S (length out))) _
                ltac:(lia) (resolveDependencies_total f out)) as T.
  rewrite E in T. by inversion T.
Qed.

(** The theorem at [[C(A, B); A; B(A)]], which resolves to [[A; B; C]]. *)
Lemma resolveDependencies_idempotent_witness :
  resolveDependencies TypeORM [seeder "C" ["A"; "B"]; seeder "A" []; seeder "B" ["A"]]
    = Ok [seeder "A" []; seeder "B" ["A"]; seeder "C" ["A"; "B"]] /\
  resolveDependencies TypeORM [seeder "A" []; seeder "B" ["A"]; seeder "C" ["A"; "B"]]
    = Ok [seeder "A" []; seeder "B" ["A"]; seeder "C" ["A"; "B"]].
Proof.
  assert (R : resolveDependencies TypeORM
                [seeder "C" ["A"; "B"]; seeder "A" []; seeder "B" ["A"]]
              = Ok [seeder "A" []; seeder "B" ["A"]; seeder "C" ["A"; "B"]])
    by reflexivity.
  split; [exact R|].
  exact (resolveDependencies_idempotent TypeORM _ _ R).
Defined.

Lemma buildSeederMap_last l1 s l2 :
  name s ∉ names l2 -> buildSeederMap (l1 ++ s :: l2) !! name s = Some s.
Proof.
  induction l2 as [|x l2 IH] using rev_ind; intros Hn.
  - by rewrite buildSeederMap_snoc, lookup_insert_eq.
  - change (l1 ++ s :: l2 ++ [x]) with (l1 ++ (s :: l2) ++ [x]).
    rewrite app_assoc, buildSeederMap_snoc.
    unfold names in Hn. rewrite fmap_app in Hn. simpl in Hn.
    rewrite lookup_insert_ne by set_solver.
    apply IH. unfold names. set_solver.
Qed.

(** X5.  Seeders that share a name are not an error: of the seeders of the
    input that bear one name, the returned order holds the last one and no
    other, and every name stands in it once. *)
Theorem resolveDependencies_last_of_name (f : Family)
    (l1 : list DatabaseSeeder) (s : DatabaseSeeder) (l2 out : list DatabaseSeeder) :
  resolveDependencies f (l1 ++ s :: l2) = Ok out ->
  name s ∉ names l2 ->
  s ∈ out /\
  (forall t, t ∈ out -> name t = name s -> t = s) /\
  NoDup (names out) /\
  length out <= length (l1 ++ s :: l2).
Proof.
  intros R Hlast.
  pose proof (buildSeederMap_last l1 s l2 Hlast) as Hm.
  apply resolveDependencies_Ok in R as (N & I & K & O).
  assert (Hin : name s ∈ names out).
  { apply I. unfold names. rewrite fmap_app. simpl. set_solver. }
  apply list_elem_of_fmap in Hin as (t & Ht & Hint).
  assert (t = s).
  { pose proof (K t Hint) as Kt. rewrite <- Ht in Kt. congruence. }
  subst t. split; [done|]. split.
  - intros t Ht' Hn. pose proof (K t Ht') as Kt. rewrite Hn in Kt. congruence.
  - split; [done|].
    rewrite <- (length_fmap name out), <- (length_fmap name (l1 ++ s :: l2)).
    apply submseteq_length, NoDup_submseteq; [done|].
    intros k Hk. by apply I.
Qed.

(** The theorem at two seeders named [A], the second of which depends on [B]. *)
Lemma resolveDependencies_last_of_name_witness :
  exists out,
    resolveDependencies Prisma ([seeder "A" []] ++ seeder "A" ["B"] :: [seeder "B" []])
      = Ok out /\
    names out = ["B"; "A"] /\
    ("A" ∉ names [seeder "B" []]) /\
    seeder "A" ["B"] ∈ out /\
    (forall t, t ∈ out -> name t = name (seeder "A" ["B"]) -> t = seeder "A" ["B"]) /\
    NoDup (names out) /\
    length out <= length ([seeder "A" []] ++ seeder "A" ["B"] :: [seeder "B" []]).
Proof.
  assert (R : resolveDependencies Prisma
                ([seeder "A" []] ++ seeder "A" ["B"] :: [seeder "B" []])
              = Ok [seeder "B" []; seeder "A" ["B"]]) by reflexivity.
  assert (H : name (seeder "A" ["B"]) ∉ names [seeder "B" []]).
  { unfold names. simpl. intros Hin. apply list_elem_of_singleton in Hin. discriminate. }
  eexists. split; [exact R|]. split; [reflexivity|]. split; [exact H|].
  exact (resolveDependencies_last_of_name Prisma _ _ _ _ R H).
Defined.

(* ===================================================================== *)
(** ** Running the seeders                                                *)
(* ===================================================================== *)




(* ===================================================================== *)
(** ** The truncate pass of the Prisma adapter                            *)
(* ===================================================================== *)

Lemma deleteRows_Ok n : forall l,
  n ∈ map tname l ->
  (forall t, t ∈ l -> tname t = n -> delete_error t = None) ->
  NoDup (map tname l) ->
  deleteRows n l
  = Ok (map (fun t => if String.eqb (tname t) n then emptied t else t) l).
Proof.
  induction l as [|x l IH]; intros Hin Herr Hnd; simpl in *.
  - by apply elem_of_nil in Hin.
  - apply NoDup_cons in Hnd as [Hx Hnd].
    destruct (String.eqb (tname x) n) eqn:E.
    + apply String.eqb_eq in E. rewrite (Herr x) by (done || set_solver).
      f_equal. f_equal. transitivity (map id l); [by rewrite map_id|].
      apply map_ext_in. intros t Ht.
      destruct (String.eqb (tname t) n) eqn:E'; [|done].
      apply String.eqb_eq in E'. destruct Hx. rewrite E, <- E'.
      apply list_elem_of_In. by apply in_map.
    + apply String.eqb_neq in E. rewrite IH; [done| | |done].
      * apply elem_of_cons in Hin as [Hin|Hin]; [by destruct E|done].
      * intros t Ht. apply Herr. set_solver.
Qed.

Lemma set_tables_same w : set_tables (tables w) w = w.
Proof. by destruct w. Qed.

Lemma forOf_cons {S A} (x : A) (l : list A) (body : A -> M S unit) (s : S) :
  forOf (x :: l) body s
  = match body x s with
    | (Ok _, s') => forOf l body s'
    | (Throw e, s') => (Throw e, s')
    end.
Proof. reflexivity. Qed.

Lemma forOf_delete_Ok (a : PrismaAdapter.t) (ns : list string) : forall w,
  NoDup (map tname (tables w)) ->
  (forall n, n ∈ ns -> n ∈ map tname (tables w)) ->
  (forall t, t ∈ tables w -> tname t ∈ ns -> delete_error t = None) ->
  forOf ns (fun table => onWorld (execute (DeleteFrom table))) (a, w)
  = (Ok tt,
     (a, set_tables
           (map (fun t => if bool_decide (tname t ∈ ns) then emptied t else t)
              (tables w)) w)).
Proof.
  induction ns as [|n ns IH]; intros w Hnd Hin Herr.
  - simpl. unfold ret. f_equal. f_equal.
    rewrite <- (set_tables_same w) at 1. f_equal.
    symmetry. apply map_id.
  - set (l1 := map (fun t => if String.eqb (tname t) n then emptied t else t) (tables w)).
    assert (E : onWorld (A := PrismaAdapter.t) (execute (DeleteFrom n)) (a, w)
                = (Ok tt, (a, set_tables l1 w))).
    { unfold onWorld, execute. simpl.
      rewrite (deleteRows_Ok n (tables w)); [done|set_solver| |done].
      intros t Ht Hn. apply Herr; [done|]. set_solver. }
    rewrite forOf_cons, E.
    assert (Hnames : map tname l1 = map tname (tables w)).
    { unfold l1. rewrite map_map. apply map_ext. intros t.
      by destruct (String.eqb (tname t) n). }
    rewrite (IH (set_tables l1 w)); simpl.
    + f_equal. f_equal. unfold set_tables. simpl. f_equal.
      unfold l1. rewrite map_map. apply map_ext. intros t.
      destruct (String.eqb (tname t) n) eqn:Et.
      * apply String.eqb_eq in Et. simpl.
        rewrite (bool_decide_eq_true_2 (tname t ∈ n :: ns)) by set_solver.
        by destruct (bool_decide (tname t ∈ ns)).
      * apply String.eqb_neq in Et.
        destruct (decide (tname t ∈ ns)) as [Hy|Hn].
        -- rewrite !bool_decide_eq_true_2; [done|set_solver|done].
        -- rewrite !bool_decide_eq_false_2; [done|set_solver|done].
    + by rewrite Hnames.
    + intros k Hk. rewrite Hnames. apply Hin. set_solver.
    + intros t Ht Hk. unfold l1 in Ht. apply list_elem_of_In, in_map_iff in Ht
        as (t0 & Ht0 & Hin0). apply list_elem_of_In in Hin0.
      assert (delete_error t = delete_error t0 /\ tname t = tname t0) as [-> Hn].
      { subst t. by destruct (String.eqb (tname t0) n). }
      apply Herr; [done|]. rewrite <- Hn. set_solver.
Qed.

Lemma bind_Ok {S A B} (m : M S A) (k : A -> M S B) s x s' :
  m s = (Ok x, s') -> bind m k s = k x s'.
Proof. intros E. unfold bind. by rewrite E. Qed.

Lemma bind_Throw {S A B} (m : M S A) (k : A -> M S B) s e s' :
  m s = (Throw e, s') -> bind m k s = (Throw e, s').
Proof. intros E. unfold bind. by rewrite E. Qed.

Lemma tryCatch_Ok {S A} (m : M S A) (h : JsError -> M S A) s x s' :
  m s = (Ok x, s') -> tryCatch m h s = (Ok x, s').
Proof. intros E. unfold tryCatch. by rewrite E. Qed.

Lemma tryCatch_Throw {S A} (m : M S A) (h : JsError -> M S A) s e s' :
  m s = (Throw e, s') -> tryCatch m h s = h e s'.
Proof. intros E. unfold tryCatch. by rewrite E. Qed.

Lemma delete_each_filtered (Q : string -> bool) (a : PrismaAdapter.t) (w : World) b :
  NoDup (map tname (tables w)) ->
  (forall t, t ∈ tables w -> Q (tname t) = true -> delete_error t = None) ->
  forOf (filter (fun n => Q n = true) (map tname (tables w)))
    (fun table => onWorld (execute (DeleteFrom table))) (a, set_foreign_keys b w)
  = (Ok tt,
     (a, set_tables (map (fun t => if Q (tname t) then emptied t else t) (tables w))
           (set_foreign_keys b w))).
Proof.
  intros Hnd Herr.
  rewrite (forOf_delete_Ok a _ (set_foreign_keys b w)); simpl.
  - f_equal. f_equal. unfold set_foreign_keys, set_tables. simpl. f_equal.
    apply map_ext_in. intros t Ht. destruct (Q (tname t)) eqn:E.
    + rewrite bool_decide_eq_true_2; [done|].
      apply list_elem_of_filter. split; [done|]. apply list_elem_of_In. by apply in_map.
    + rewrite bool_decide_eq_false_2; [done|].
      intros Hin. apply list_elem_of_filter in Hin as [Hin _]. congruence.
  - done.
  - intros n Hn. by apply list_elem_of_filter in Hn as [_ Hn].
  - intros t Ht Hn. apply Herr; [done|].
    by apply list_elem_of_filter in Hn as [Hn _].
Qed.

Lemma truncate_try_Ok (a : PrismaAdapter.t) (w : World) :
  NoDup (map tname (tables w)) ->
  (forall t, t ∈ tables w ->
     negb (like "sqlite_%" (tname t)) && negb (like "_prisma_migrations" (tname t)) = true ->
     delete_error t = None) ->
  (let* tables := onWorld userTables in
   let* _ := onWorld (execute (PragmaForeignKeys false)) in
   let* _ := forOf tables (fun table => onWorld (execute (DeleteFrom table))) in
   onWorld (execute (PragmaForeignKeys true))) (a, w)
  = (Ok tt,
     (a, set_foreign_keys true
           (set_tables
              (map (fun t => if negb (like "sqlite_%" (tname t))
                                && negb (like "_prisma_migrations" (tname t))
                             then emptied t else t) (tables w)) w))).
Proof.
  intros Hnd Herr.
  erewrite bind_Ok by reflexivity.
  erewrite bind_Ok by reflexivity.
  erewrite bind_Ok.
  2:{ apply (delete_each_filtered
               (fun n => negb (like "sqlite_%" n) && negb (like "_prisma_migrations" n))
               a w false Hnd Herr). }
  reflexivity.
Qed.

(** X7.  On a database whose table names are distinct and whose user
    tables can be emptied, the truncate pass of the Prisma adapter empties
    every table whose name is neither like [sqlite_%] nor like
    [_prisma_migrations], leaves the other tables as they are, and ends with
    the foreign-key checks on, whatever they were before. *)
Theorem PrismaAdapter_truncate_empties (a : PrismaAdapter.t) (w : World) :
  PrismaAdapter.client a <> None ->
  NoDup (map tname (tables w)) ->
  (forall t, t ∈ tables w ->
     negb (like "sqlite_%" (tname t)) && negb (like "_prisma_migrations" (tname t)) = true ->
     delete_error t = None) ->
  PrismaAdapter.truncateAllTables (a, w)
  = (Ok tt,
     (a, set_foreign_keys true
           (set_tables
              (map (fun t => if negb (like "sqlite_%" (tname t))
                                && negb (like "_prisma_migrations" (tname t))
                             then emptied t else t) (tables w)) w))).
Proof.
  intros Hc Hnd Herr.
  unfold PrismaAdapter.truncateAllTables. unfold bind at 1, this. cbn [fst].
  destruct (PrismaAdapter.client a) as [c|]; [|done].
  apply tryCatch_Ok. by apply truncate_try_Ok.
Qed.

(** The theorem at a database with a migrations table, a catalogue table
    and the foreign-key checks off. *)
Lemma PrismaAdapter_truncate_empties_witness :
  let w := set_foreign_keys false
             (set_tables [ table "users" ["u1"; "u2"];
                           table "_prisma_migrations" ["m1"];
                           table "sqlite_sequence" ["s1"] ] world0) in
  exists w',
    PrismaAdapter.truncateAllTables (livePrisma, w) = (Ok tt, (livePrisma, w')) /\
    storedData w' = [ ("users", []); ("_prisma_migrations", ["m1"]);
                      ("sqlite_sequence", ["s1"]) ] /\
    foreign_keys w = false /\ foreign_keys w' = true.
Proof.
  set (w := set_foreign_keys false
              (set_tables [ table "users" ["u1"; "u2"];
                            table "_prisma_migrations" ["m1"];
                            table "sqlite_sequence" ["s1"] ] world0)).
  assert (Hc : PrismaAdapter.client livePrisma <> None) by discriminate.
  assert (Hnd : NoDup (map tname (tables w))).
  { apply (bool_decide_unpack _). by vm_compute. }
  assert (Herr : forall t, t ∈ tables w ->
            negb (like "sqlite_%" (tname t))
            && negb (like "_prisma_migrations" (tname t)) = true ->
            delete_error t = None).
  { intros t Ht _. unfold w in Ht. cbn [tables set_foreign_keys set_tables] in Ht.
    repeat (apply elem_of_cons in Ht as [->|Ht]); try reflexivity.
    by apply elem_of_nil in Ht. }
  eexists. split; [exact (PrismaAdapter_truncate_empties livePrisma w Hc Hnd Herr)|].
  split; [by vm_compute|]. split; reflexivity.
Defined.

Lemma PrismaAdapter_cleanup_truncate a w s' :
  PrismaAdapter.client a <> None ->
  (let* tables := onWorld userTables in
   let* _ := onWorld (execute (PragmaForeignKeys false)) in
   let* _ := forOf tables (fun table => onWorld (execute (DeleteFrom table))) in
   onWorld (execute (PragmaForeignKeys true))) (a, w) = (Ok tt, s') ->
  PrismaAdapter.cleanup "truncate" (a, w) = (Ok tt, s').
Proof.
  intros Hc H. unfold PrismaAdapter.cleanup. unfold bind at 1, this. cbn [fst].
  destruct (PrismaAdapter.client a) as [c|] eqn:Hcl; [|done].
  apply tryCatch_Ok.
  change ((if String.eqb "truncate" "transaction" then ret tt
           else if String.eqb "truncate" "truncate" then PrismaAdapter.truncateAllTables
           else if String.eqb "truncate" "recreate" then PrismaAdapter.reset
           else throw (invalidCleanupStrategy "truncate")) (a, w))
    with (PrismaAdapter.truncateAllTables (a, w)).
  unfold PrismaAdapter.truncateAllTables. unfold bind at 1, this. cbn [fst].
  rewrite Hcl. by apply tryCatch_Ok.
Qed.

(** X8.  Truncating is idempotent: under the conditions of X7,
    [cleanup('truncate')] of the Prisma adapter resolves, and a second
    [cleanup('truncate')] resolves and changes nothing. *)
Theorem PrismaAdapter_cleanup_truncate_idempotent (a : PrismaAdapter.t) (w : World) :
  PrismaAdapter.client a <> None ->
  NoDup (map tname (tables w)) ->
  (forall t, t ∈ tables w ->
     negb (like "sqlite_%" (tname t)) && negb (like "_prisma_migrations" (tname t)) = true ->
     delete_error t = None) ->
  exists w',
    PrismaAdapter.cleanup "truncate" (a, w) = (Ok tt, (a, w')) /\
    PrismaAdapter.cleanup "truncate" (a, w') = (Ok tt, (a, w')).
Proof.
  intros Hc Hnd Herr.
  set (f := fun t => if negb (like "sqlite_%" (tname t))
                        && negb (like "_prisma_migrations" (tname t))
                     then emptied t else t).
  assert (Hn : forall t, tname (f t) = tname t).
  { intros t. unfold f. by destruct (_ && _). }
  assert (He : forall t, delete_error (f t) = delete_error t).
  { intros t. unfold f. by destruct (_ && _). }
  assert (Hf : forall t, f (f t) = f t).
  { intros t. unfold f at 1. rewrite Hn. unfold f.
    by destruct (negb (like "sqlite_%" (tname t))
                 && negb (like "_prisma_migrations" (tname t))). }
  set (w' := set_foreign_keys true (set_tables (map f (tables w)) w)).
  exists w'. split.
  - apply PrismaAdapter_cleanup_truncate; [done|].
    exact (truncate_try_Ok a w Hnd Herr).
  - apply PrismaAdapter_cleanup_truncate; [done|].
    rewrite (truncate_try_Ok a w').
    + f_equal. f_equal. unfold w', set_foreign_keys, set_tables.
      cbn [tables foreign_keys schema files hasMigrations connect_error migrate_error
           fallback_error disconnect_error now random tmpName serverUri seedLog].
      f_equal. fold f. rewrite map_map. apply map_ext. intros t. apply Hf.
    + unfold w'. cbn [tables set_foreign_keys set_tables].
      rewrite map_map. erewrite map_ext; [exact Hnd|]. intros t. apply Hn.
    + intros t Ht Hu. unfold w' in Ht. cbn [tables set_foreign_keys set_tables] in Ht.
      apply list_elem_of_In, in_map_iff in Ht as (t0 & <- & Ht0).
      rewrite He. apply Herr; [by apply list_elem_of_In|]. by rewrite Hn in Hu.
Qed.

(** The theorem at [world0]. *)
Lemma PrismaAdapter_cleanup_truncate_idempotent_witness :
  exists w',
    PrismaAdapter.cleanup "truncate" (livePrisma, world0) = (Ok tt, (livePrisma, w')) /\
    PrismaAdapter.cleanup "truncate" (livePrisma, w') = (Ok tt, (livePrisma, w')).
Proof.
  assert (Hc : PrismaAdapter.client livePrisma <> None) by discriminate.
  assert (Hnd : NoDup (map tname (tables world0))).
  { apply (bool_decide_unpack _). by vm_compute. }
  assert (Herr : forall t, t ∈ tables world0 ->
            negb (like "sqlite_%" (tname t))
            && negb (like "_prisma_migrations" (tname t)) = true ->
            delete_error t = None).
  { intros t Ht _. cbn [tables world0] in Ht.
    repeat (apply elem_of_cons in Ht as [->|Ht]); try reflexivity.
    by apply elem_of_nil in Ht. }
  exact (PrismaAdapter_cleanup_truncate_idempotent livePrisma world0 Hc Hnd Herr).
Defined.

(* ===================================================================== *)
(** ** The Mongoose adapter: best-effort truncation and close             *)
(* ===================================================================== *)

(** What a delete leaves of a table: its name, and the whole table when
    the delete was not for it. *)
Lemma deleteRows_others n : forall l l',
  deleteRows n l = Ok l' ->
  Forall2 (fun t t' => tname t' = tname t /\ (tname t <> n -> t' = t)) l l'.
Proof.
  induction l as [|x l IH]; intros l' H; simpl in H; [discriminate|].
  destruct (String.eqb (tname x) n) eqn:E.
  - destruct (delete_error x); [discriminate|]. inversion H; subst.
    constructor; [|by apply Forall2_same_length_lookup_2; [done|];
                    intros i t t' H1 H2; rewrite H1 in H2; inversion H2].
    apply String.eqb_eq in E. split; [done|]. intros Hn. by destruct Hn.
  - destruct (deleteRows n l) as [r|e] eqn:D; [|discriminate].
    inversion H; subst. constructor; [done|]. by apply IH.
Qed.

Lemma truncateCollection_keeps (a : MongooseAdapter.t) n w :
  exists w',
    MongooseAdapter.truncateCollection n (a, w) = (Ok tt, (a, w')) /\
    foreign_keys w' = foreign_keys w /\ files w' = files w /\
    Forall2 (fun t t' => tname t' = tname t /\
                         (startsWith (tname t) "system." = true -> t' = t))
      (tables w) (tables w').
Proof.
  assert (R : Forall2 (fun t t' => tname t' = tname t /\
                         (startsWith (tname t) "system." = true -> t' = t))
                (tables w) (tables w)).
  { apply Forall2_same_length_lookup_2; [done|].
    intros i t t' H1 H2. rewrite H1 in H2. by inversion H2. }
  unfold MongooseAdapter.truncateCollection.
  destruct (startsWith n "system.") eqn:Hs; [by exists w|].
  unfold tryCatch, onWorld, execute. cbn [fst snd].
  destruct (deleteRows n (tables w)) as [l|e] eqn:D; [|by exists w].
  exists (set_tables l w). split; [done|]. split; [done|]. split; [done|].
  cbn [tables set_tables]. apply deleteRows_others in D.
  eapply Forall2_impl; [exact D|]. intros t t' [Hn Hk]. split; [done|].
  intros Hsys. apply Hk. intros Heq. rewrite Heq in Hsys. congruence.
Qed.

Lemma forOf_truncateCollection (a : MongooseAdapter.t) ns : forall w,
  exists w',
    forOf ns MongooseAdapter.truncateCollection (a, w) = (Ok tt, (a, w')) /\
    foreign_keys w' = foreign_keys w /\ files w' = files w /\
    Forall2 (fun t t' => tname t' = tname t /\
                         (startsWith (tname t) "system." = true -> t' = t))
      (tables w) (tables w').
Proof.
  induction ns as [|n ns IH]; intros w.
  - exists w. split; [done|]. split; [done|]. split; [done|].
    apply Forall2_same_length_lookup_2; [done|].
    intros i t t' H1 H2. rewrite H1 in H2. by inversion H2.
  - destruct (truncateCollection_keeps a n w) as (w1 & E1 & F1 & G1 & T1).
    destruct (IH w1) as (w2 & E2 & F2 & G2 & T2).
    exists w2. rewrite forOf_cons, E1. split; [done|].
    split; [congruence|]. split; [congruence|].
    eapply Forall2_trans; [|exact T1|exact T2].
    intros t t1 t2 [Hn1 Hk1] [Hn2 Hk2]. split; [congruence|].
    intros Hs. rewrite Hk2; [by apply Hk1|]. by rewrite Hn1.
Qed.

(** X9.  The truncate pass of the Mongoose adapter never rejects: a
    collection whose documents cannot be deleted is skipped.  It leaves the
    adapter, the names of the collections and every collection whose name
    starts with [system.] as they were. *)
Theorem MongooseAdapter_truncate_never_throws (a : MongooseAdapter.t) (w : World) :
  exists w',
    MongooseAdapter.truncateAllCollections (a, w) = (Ok tt, (a, w')) /\
    Forall2 (fun t t' => tname t' = tname t /\
                         (startsWith (tname t) "system." = true -> t' = t))
      (tables w) (tables w').
Proof.
  assert (R : Forall2 (fun t t' => tname t' = tname t /\
                         (startsWith (tname t) "system." = true -> t' = t))
                (tables w) (tables w)).
  { apply Forall2_same_length_lookup_2; [done|].
    intros i t t' H1 H2. rewrite H1 in H2. by inversion H2. }
  unfold MongooseAdapter.truncateAllCollections. unfold bind at 1, this. cbn [fst].
  destruct (MongooseAdapter.connection a) as [c|]; [|by exists w].
  destruct (forOf_truncateCollection a (map tname (tables w)) w)
    as (w' & E & _ & _ & T).
  assert (E0 : onWorld (A := MongooseAdapter.t) allTables (a, w)
               = (Ok (map tname (tables w)), (a, w))) by reflexivity.
  destruct (Nat.eqb (length (map tname (tables w))) 0) eqn:L.
  - exists w. split; [|done]. apply tryCatch_Ok.
    rewrite (bind_Ok _ _ _ _ _ E0). by rewrite L.
  - exists w'. split; [|done]. apply tryCatch_Ok.
    rewrite (bind_Ok _ _ _ _ _ E0). by rewrite L.
Qed.


(* ===================================================================== *)
(** ** Destroying an instance, and the registry                           *)
(* ===================================================================== *)




Section Destroy.
#[local] Arguments substringFrom : simpl never.


End Destroy.



(** X12.  [destroy(id)] of a manager.  For an id it does not hold it
    resolves and changes nothing.  For an id it holds it destroys the
    instance: when that resolves, the id is no longer found and every other
    id is found as before; when that rejects, [destroy(id)] rejects with the
    same error and the registry is what it was, the id still found. *)
Theorem Manager_destroy_cases {A C : Type} `{!DatabaseAdapter A C}
    (mgr : Manager.t A) (w : World) (id : string) :
  (Manager.get id mgr = None ->
     Manager.destroy id (mgr, w) = (Ok tt, (mgr, w))) /\
  (forall db db' w',
     Manager.get id mgr = Some db ->
     TestDatabase.destroy (db, w) = (Ok tt, (db', w')) ->
     exists mgr',
       Manager.destroy id (mgr, w) = (Ok tt, (mgr', w')) /\
       Manager.get id mgr' = None /\
       forall id', id' <> id -> Manager.get id' mgr' = Manager.get id' mgr) /\
  (forall db e db' w',
     Manager.get id mgr = Some db ->
     TestDatabase.destroy (db, w) = (Throw e, (db', w')) ->
     Manager.destroy id (mgr, w) = (Throw e, (mgr, w')) /\
     Manager.get id mgr = Some db).
Proof.
  unfold Manager.get. split; [|split].
  - intros Hg. unfold Manager.destroy. unfold bind, this. cbn [fst]. by rewrite Hg.
  - intros db db' w' Hg Hd.
    exists (Manager.set_databases (delete id (Manager.databases mgr)) mgr).
    split; [|split].
    + unfold Manager.destroy. unfold bind at 1, this. cbn [fst]. rewrite Hg.
      unfold bind, Manager.onInstance, assign. cbn [fst snd]. by rewrite Hd.
    + simpl. apply lookup_delete_eq.
    + intros id' Hne. simpl. by apply lookup_delete_ne.
  - intros db e db' w' Hg Hd. split; [|done].
    unfold Manager.destroy. unfold bind at 1, this. cbn [fst]. rewrite Hg.
    unfold bind, Manager.onInstance. cbn [fst snd]. by rewrite Hd.
Qed.

(** The theorem at a manager that holds one instance. *)
Lemma Manager_destroy_cases_witness :
  let mgr := {| Manager.databases := {[ TestDatabase.id readyDb := readyDb ]} |} in
  Manager.get (TestDatabase.id readyDb) mgr = Some readyDb /\
  exists db' mgr',
    TestDatabase.destroy (readyDb, world0) = (Ok tt, (db', world0)) /\
    Manager.destroy (TestDatabase.id readyDb) (mgr, world0) = (Ok tt, (mgr', world0)) /\
    Manager.get (TestDatabase.id readyDb) mgr' = None.
Proof.
  set (mgr := {| Manager.databases := {[ TestDatabase.id readyDb := readyDb ]} |}).
  assert (Hg : Manager.get (TestDatabase.id readyDb) mgr = Some readyDb)
    by (by vm_compute).
  assert (Hd : TestDatabase.destroy (readyDb, world0)
               = (Ok tt,
                  (TestDatabase.set_adapter
                     (PrismaAdapter.set_client None (TestDatabase.adapter readyDb))
                     readyDb, world0))) by (by vm_compute).
  split; [exact Hg|].
  destruct (proj1 (proj2 (Manager_destroy_cases mgr world0 (TestDatabase.id readyDb)))
              _ _ _ Hg Hd) as (mgr' & E & G & _).
  eexists _, mgr'. split; [exact Hd|]. by split.
Defined.





Section RoundTrip.
#[local] Arguments substringFrom : simpl never.
#[local] Arguments startsWith : simpl never.
#[local] Arguments includes : simpl never.


End RoundTrip.


(* ===================================================================== *)
(** ** [ErrorHandler.handle] and what the adapters throw                  *)
(* ===================================================================== *)

(** X14.  On an error whose [code] is absent or a string,
    [ErrorHandler.handle] always returns a [NestTestKitError]: it
    leaves one as it is, and gives every other error one of the codes
    [DATABASE_ERROR], [CONFIGURATION_ERROR] and [UNKNOWN_ERROR].  Handling
    twice is handling once, whatever the contexts. *)
Theorem handle_NestTestKitError (error : JsError) (context context' : option string) :
  (exists cls message code details,
     handle error context = Kit cls message code details /\
     (forall r, error = Raw r ->
        code = "DATABASE_ERROR"%string \/ code = "CONFIGURATION_ERROR"%string
        \/ code = "UNKNOWN_ERROR"%string)) /\
  (forall cls message code details,
     error = Kit cls message code details -> handle error context = error) /\
  handle (handle error context) context' = handle error context.
Proof.
  destruct error as [r|cls message code details].
  - unfold handle.
    destruct (negb (isEmpty (default EmptyString (raw_code r)))
              && startsWith (default EmptyString (raw_code r)) "P").
    { split; [|split]; [|intros; discriminate|reflexivity].
      eexists _, _, _, _. split; [reflexivity|]. intros; by left. }
    destruct (negb (isEmpty (default EmptyString (raw_code r)))
              && (String.eqb (default EmptyString (raw_code r)) "SQLITE_ERROR"
                  || includes (default EmptyString (raw_code r)) "SQLITE")).
    { split; [|split]; [|intros; discriminate|reflexivity].
      eexists _, _, _, _. split; [reflexivity|]. intros; by left. }
    destruct (negb (isEmpty (default EmptyString (raw_code r)))
              && startsWith (default EmptyString (raw_code r)) "E").
    { split; [|split]; [|intros; discriminate|reflexivity].
      eexists _, _, _, _. split; [reflexivity|]. intros; right; by left. }
    split; [|split]; [|intros; discriminate|reflexivity].
    eexists _, _, _, _. split; [reflexivity|]. intros; right; by right.
  - split; [|split]; [|done|done].
    eexists _, _, _, _. split; [reflexivity|]. intros; discriminate.
Qed.

Lemma handle_Kit error context :
  exists cls message code details, handle error context = Kit cls message code details.
Proof.
  destruct error as [r|cls message code details]; [|by eexists _, _, _, _].
  unfold handle.
  repeat match goal with
         | |- context [if ?b then _ else _] => destruct b
         end; by eexists _, _, _, _.
Qed.

Lemma tryCatch_handle {S A} (m : M S A) (context : option string) s e s' :
  tryCatch m (fun error => throw (handle error context)) s = (Throw e, s') ->
  exists cls message code details, e = Kit cls message code details.
Proof.
  unfold tryCatch, throw. destruct (m s) as [[a|e0] s0]; intros H; inversion H; subst.
  apply handle_Kit.
Qed.

(** X15.  Whatever fails inside, [initialize] and [cleanup] of the Prisma
    and the TypeORM adapter reject with a [NestTestKitError] only. *)
Theorem adapters_throw_NestTestKitError (w : World) :
  (forall cfg a e s',
     PrismaAdapter.initialize cfg (a, w) = (Throw e, s') ->
     exists cls message code details, e = Kit cls message code details) /\
  (forall cfg a e s',
     TypeORMAdapter.initialize cfg (a, w) = (Throw e, s') ->
     exists cls message code details, e = Kit cls message code details) /\
  (forall strategy a e s',
     PrismaAdapter.cleanup strategy (a, w) = (Throw e, s') ->
     exists cls message code details, e = Kit cls message code details) /\
  (forall strategy a e s',
     TypeORMAdapter.cleanup strategy (a, w) = (Throw e, s') ->
     exists cls message code details, e = Kit cls message code details).
Proof.
  repeat split.
  - intros cfg a e s'. apply tryCatch_handle.
  - intros cfg a e s'. apply tryCatch_handle.
  - intros strategy a e s'. unfold PrismaAdapter.cleanup. unfold bind at 1, this.
    cbn [fst]. destruct (PrismaAdapter.client a); [apply tryCatch_handle|discriminate].
  - intros strategy a e s'. unfold TypeORMAdapter.cleanup. unfold bind at 1, this.
    cbn [fst]. destruct (TypeORMAdapter.dataSource a);
      [apply tryCatch_handle|discriminate].
Qed.

(** The theorem at a Prisma adapter whose database cannot be reached. *)
Lemma adapters_throw_NestTestKitError_witness :
  exists e s',
    PrismaAdapter.initialize emptyConfig (PrismaAdapter.new, downWorld) = (Throw e, s') /\
    errorName e = "ConfigurationError"%string /\
    exists cls message code details, e = Kit cls message code details.
Proof.
  assert (H : exists e s',
            PrismaAdapter.initialize emptyConfig (PrismaAdapter.new, downWorld)
              = (Throw e, s') /\ errorName e = "ConfigurationError"%string)
    by (vm_compute; by eexists _, _).
  destruct H as (e & s' & H & N).
  exists e, s'. split; [exact H|]. split; [exact N|].
  exact (proj1 (adapters_throw_NestTestKitError downWorld) _ _ _ _ H).
Defined.

(* ===================================================================== *)
(** ** Ids                                                                *)
(* ===================================================================== *)

Lemma pretty_N_go_no_dash (x : N) : forall s,
  ~ In "-"%char (list_ascii_of_string s) ->
  ~ In "-"%char (list_ascii_of_string (pretty_N_go x s)).
Proof.
  induction (N.lt_wf_0 x) as [x _ IH]. intros s Hs.
  assert (x = 0 \/ 0 < x)%N as [->|Hx] by lia.
  - by rewrite pretty_N_go_0.
  - rewrite pretty_N_go_step by done. apply IH.
    { by apply N.div_lt. }
    simpl. intros [Hc|Hin]; [|done].
    revert Hc. unfold pretty_N_char. by repeat case_match.
Qed.

Lemma pretty_no_dash (n : N) : ~ In "-"%char (list_ascii_of_string (pretty n)).
Proof.
  unfold pretty, pretty_N. destruct (decide (n = 0%N)).
  - simpl. intros [H|[]]. discriminate.
  - apply pretty_N_go_no_dash. simpl. tauto.
Qed.

Lemma dash_split (a : string) : forall b x y,
  ~ In "-"%char (list_ascii_of_string a) ->
  ~ In "-"%char (list_ascii_of_string b) ->
  (a ++ "-" ++ x = b ++ "-" ++ y)%string -> a = b /\ x = y.
Proof.
  induction a as [|c a IH]; intros [|d b] x y Ha Hb H.
  - change (String "-" x = String "-" y) in H. by inversion H.
  - change (String "-" x = String d (b ++ "-" ++ y)%string) in H.
    inversion H; subst. destruct Hb. simpl. by left.
  - change (String c (a ++ "-" ++ x)%string = String "-" y) in H.
    inversion H; subst. destruct Ha. simpl. by left.
  - change (String c (a ++ "-" ++ x)%string = String d (b ++ "-" ++ y)%string) in H.
    inversion H; subst.
    destruct (IH b x y) as [-> ->]; [| |done|done].
    + intros Hin. apply Ha. simpl. by right.
    + intros Hin. apply Hb. simpl. by right.
Qed.

Lemma append_cancel (p a b : string) : (p ++ a = p ++ b)%string -> a = b.
Proof.
  induction p as [|c p IH]; intros H; [done|].
  change (String c (p ++ a)%string = String c (p ++ b)%string) in H.
  inversion H. by apply IH.
Qed.

(** X16.  Two ids that one manager generates are equal only when the
    clock gave the same timestamp and the random text the same suffix: ids
    made at different milliseconds differ, and so do ids with different
    suffixes. *)
Theorem generateId_injective {A C : Type} `{!DatabaseAdapter A C} (w1 w2 : World) :
  Manager.generateId w1 = Manager.generateId w2 ->
  now w1 = now w2 /\
  substringFrom 7 (random w1) = substringFrom 7 (random w2).
Proof.
  unfold Manager.generateId. intros H. apply append_cancel in H.
  apply dash_split in H as [Hn Hs];
    [|apply pretty_no_dash|apply pretty_no_dash].
  split; [|done]. by apply (inj pretty).
Qed.

(** The theorem at two equal ids. *)
Lemma generateId_injective_witness :
  Manager.generateId (A := TypeORMAdapter.t) world0
    = Manager.generateId (A := TypeORMAdapter.t) lockedWorld /\
  now world0 = now lockedWorld /\
  substringFrom 7 (random world0) = substringFrom 7 (random lockedWorld).
Proof.
  assert (H : Manager.generateId (A := TypeORMAdapter.t) world0
              = Manager.generateId (A := TypeORMAdapter.t) lockedWorld) by reflexivity.
  split; [exact H|].
  exact (generateId_injective (A := TypeORMAdapter.t) world0 lockedWorld H).
Defined.

(* ===================================================================== *)
(** ** Factories                                                          *)
(* ===================================================================== *)

Lemma times_Ok {S A} (m : M S A) (P : A -> Prop) :
  (forall s, exists x s', m s = (Ok x, s') /\ P x) ->
  forall n s, exists xs s', Factory.times n m s = (Ok xs, s') /\
                            length xs = n /\ Forall P xs.
Proof.
  intros Hm. induction n as [|n IH]; intros s.
  - exists [], s. by repeat split.
  - destruct (Hm s) as (x & s1 & E1 & Px).
    destruct (IH s1) as (xs & s2 & E2 & L & F).
    exists (x :: xs), s2. split; [|split].
    + simpl. rewrite (bind_Ok _ _ _ _ _ E1), (bind_Ok _ _ _ _ _ E2). reflexivity.
    + simpl. by rewrite L.
    + by constructor.
Qed.

(** X17.  When the definition of a factory returns on every random state,
    [buildMany(count, overrides)] returns [count] items (none for a negative
    [count]); each is what the definition gave with the fields of
    [overrides] laid over it, so a field of [overrides] is in every item
    with the value given. *)
Theorem buildMany_overrides {R : Type} (f : Factory.t R) (count : Z)
    (overrides : Factory.Data) (g : R) :
  (forall g0, exists data g1, Factory.definition f g0 = (Ok data, g1)) ->
  exists items g',
    Factory.buildMany f count overrides g = (Ok items, g') /\
    length items = Z.to_nat count /\
    (forall item, item ∈ items ->
       (exists data g0 g1, Factory.definition f g0 = (Ok data, g1) /\
                           item = Factory.spread data overrides) /\
       forall k v, overrides !! k = Some v -> item !! k = Some v).
Proof.
  intros Hdef.
  destruct (times_Ok (Factory.build f overrides)
              (fun item =>
                 (exists data g0 g1, Factory.definition f g0 = (Ok data, g1) /\
                                     item = Factory.spread data overrides) /\
                 forall k v, overrides !! k = Some v -> item !! k = Some v))
    with (n := Z.to_nat count) (s := g) as (items & g' & E & L & F).
  { intros g0. destruct (Hdef g0) as (data & g1 & E).
    exists (Factory.spread data overrides), g1. split.
    - unfold Factory.build. by rewrite (bind_Ok _ _ _ _ _ E).
    - split; [by exists data, g0, g1|].
      intros k v Hk. unfold Factory.spread. by apply lookup_union_Some_l. }
  exists items, g'. split; [exact E|]. split; [exact L|].
  intros item Hin. by apply (proj1 (Forall_forall _ _) F).
Qed.

(** The theorem at a definition that counts and a count of three. *)
Lemma buildMany_overrides_witness :
  let f := Factory.new "user"
             (fun n : nat => (Ok ({[ "name" := pretty n; "role" := "USER" ]} : Factory.Data),
                              S n)) in
  exists items,
    Factory.buildMany f 3 {[ "role" := "ADMIN" ]} 0 = (Ok items, 3) /\
    items = [ {[ "name" := "0"; "role" := "ADMIN" ]};
              {[ "name" := "1"; "role" := "ADMIN" ]};
              {[ "name" := "2"; "role" := "ADMIN" ]} ] /\
    length items = Z.to_nat 3.
Proof.
  set (f := Factory.new "user"
              (fun n : nat => (Ok ({[ "name" := pretty n; "role" := "USER" ]}
                                     : Factory.Data), S n))).
  assert (Hdef : forall g0, exists data g1, Factory.definition f g0 = (Ok data, g1)).
  { intros g0. by eexists _, _. }
  destruct (buildMany_overrides f 3 {[ "role" := "ADMIN" ]} 0 Hdef)
    as (items & g' & E & L & _).
  assert (E' : Factory.buildMany f 3 {[ "role" := "ADMIN" ]} 0
               = (Ok [ {[ "name" := "0"; "role" := "ADMIN" ]};
                       {[ "name" := "1"; "role" := "ADMIN" ]};
                       {[ "name" := "2"; "role" := "ADMIN" ]} ], 3))
    by (by vm_compute).
  rewrite E' in E. inversion E; subst.
  eexists. split; [reflexivity|]. split; [reflexivity|exact L].
Defined.

Section Persist.
Context {R : Type}.
Variable persist : PrismaAdapter.PrismaClient -> string -> Factory.Data -> M World Factory.Data.

Lemma create_throws_Kit (f : Factory.t R) overrides s e s' :
  Factory.create persist f overrides s = (Throw e, s') ->
  exists cls message code details, e = Kit cls message code details.
Proof.
  unfold Factory.create. destruct (Factory.client f) as [c|].
  - apply tryCatch_handle.
  - intros H. inversion H; subst. by eexists _, _, _, _.
Qed.

Lemma times_throws {S A} (m : M S A) (P : JsError -> Prop) :
  (forall s e s', m s = (Throw e, s') -> P e) ->
  forall n s e s', Factory.times n m s = (Throw e, s') -> P e.
Proof.
  intros Hm. induction n as [|n IH]; intros s e s' H; simpl in H.
  - discriminate.
  - unfold bind in H. destruct (m s) as [[x|e1] s1] eqn:E1.
    + destruct (Factory.times n m s1) as [[xs|e2] s2] eqn:E2.
      * discriminate.
      * inversion H; subst. by eapply IH.
    + inversion H; subst. by eapply Hm.
Qed.

(** X18.  [createMany] without a client rejects with the [FactoryError] of
    [prismaClientNotSet] before it builds or saves anything, whatever the
    count.  With a client it is [count] calls of [create] one after the
    other: its own [catch] never changes the error of the [create] that
    failed, and what the earlier calls saved stays saved. *)
Theorem createMany_is_creates (f : Factory.t R) (count : Z)
    (overrides : Factory.Data) (s : R * World) :
  match Factory.client f with
  | None =>
      Factory.createMany persist f count overrides s
        = (Throw ErrorHandler.prismaClientNotSet, s) /\
      Factory.create persist f overrides s
        = (Throw ErrorHandler.prismaClientNotSet, s) /\
      errorName ErrorHandler.prismaClientNotSet = "FactoryError"%string
  | Some _ =>
      Factory.createMany persist f count overrides s
        = Factory.times (Z.to_nat count) (Factory.create persist f overrides) s
  end.
Proof.
  unfold Factory.createMany.
  destruct (Factory.client f) as [c|] eqn:Hc.
  - unfold tryCatch.
    destruct (Factory.times _ _ s) as [[xs|e] s'] eqn:E; [done|].
    apply (times_throws _ (fun e => exists cls message code details,
                                      e = Kit cls message code details)) in E
      as (cls & message & code & details & ->); [done|].
    intros s0 e0 s0'. apply create_throws_Kit.
  - unfold Factory.create. rewrite Hc. by repeat split.
Qed.

End Persist.

Section Registry.
Context {R : Type}.
Implicit Types (s : FactoryManager.t * FactoryManager.Store (R := R)).

Lemma setClient_fold (c : PrismaAdapter.PrismaClient)
    (h : FactoryManager.Store (R := R)) (m : gmap string nat) :
  let h' := map_fold (fun _ fac h => FactoryManager.setClientOf c fac h) h m in
  length h' = length h /\
  forall i g, h' !! i = Some g ->
    exists f0, h !! i = Some f0 /\
               (g = f0 \/ g = Factory.setClient c f0) /\
               ((exists name, m !! name = Some i) -> Factory.client g = Some c).
Proof.
  apply (map_fold_weak_ind
           (fun (h' : FactoryManager.Store (R := R)) (m : gmap string nat) =>
              length h' = length h /\
              forall i g, h' !! i = Some g ->
                exists f0, h !! i = Some f0 /\
                           (g = f0 \/ g = Factory.setClient c f0) /\
                           ((exists name, m !! name = Some i) ->
                            Factory.client g = Some c))).
  - split; [done|]. intros i g Hg. exists g. split; [done|]. split; [by left|].
    intros [name Hn]. by rewrite lookup_empty in Hn.
  - intros name fac m0 r Hfresh [L IH].
    unfold FactoryManager.setClientOf, FactoryManager.Store in *. split.
    + by rewrite length_alter.
    + intros i g Hg. destruct (decide (fac = i)) as [->|Hne].
      * rewrite list_lookup_alter_eq in Hg.
        destruct (r !! i) as [g0|] eqn:Hr; [|discriminate].
        simpl in Hg. inversion Hg; subst g.
        destruct (IH i g0 Hr) as (f0 & Hf0 & [->| ->] & _);
          exists f0; (split; [done|]); split; try (by right); by intros _.
      * rewrite list_lookup_alter_ne in Hg by done.
        destruct (IH i g Hg) as (f0 & Hf0 & Hor & Hc).
        exists f0. split; [done|]. split; [done|].
        intros [name' Hn']. apply Hc.
        destruct (decide (name = name')) as [->|Hnn].
        -- rewrite lookup_insert_eq in Hn'. congruence.
        -- rewrite lookup_insert_ne in Hn' by done. by exists name'.
Qed.

(** X19.  Once [FactoryManager.setClient(client)] has run, every
    registered factory holds that client, and [register], [define] and
    [clear] keep it so: a factory registered or defined later is given the
    client of the manager. *)
Theorem FactoryManager_supplies s :
  (forall c, FactoryManager.Supplied (FactoryManager.setClient c s).2 /\
             FactoryManager.client (FactoryManager.setClient c s).2.1 = Some c /\
             FactoryManager.factories (FactoryManager.setClient c s).2.1
               = FactoryManager.factories s.1) /\
  (FactoryManager.Supplied s ->
   (forall name fac, FactoryManager.Supplied (FactoryManager.register name fac s).2) /\
   (forall name modelName definition,
      FactoryManager.Supplied (FactoryManager.define name modelName definition s).2) /\
   FactoryManager.Supplied (FactoryManager.clear s).2).
Proof.
  destruct s as [st h]. split.
  - intros c. split; [|by split].
    intros c' name fac f Hc Hn Hf. simpl in *. inversion Hc; subst c'.
    destruct (setClient_fold c h (FactoryManager.factories st)) as [_ H].
    destruct (H fac f Hf) as (f0 & _ & _ & Hcl). apply Hcl. by exists name.
  - intros Hs.
    assert (Hreg : forall (h0 : FactoryManager.Store (R := R)) name fac,
              FactoryManager.Supplied (st, h0) ->
              FactoryManager.Supplied (FactoryManager.register name fac (st, h0)).2).
    { intros h0 name fac Hs0 c name' fac' f Hc Hn Hf. simpl in *.
      rewrite Hc in Hf. unfold FactoryManager.setClientOf, FactoryManager.Store in *.
      destruct (decide (fac = fac')) as [->|Hne].
      - rewrite list_lookup_alter_eq in Hf.
        destruct (h0 !! fac'); [|discriminate]. simpl in Hf. by inversion Hf.
      - rewrite list_lookup_alter_ne in Hf by done.
        destruct (decide (name = name')) as [->|Hnn].
        + rewrite lookup_insert_eq in Hn. congruence.
        + rewrite lookup_insert_ne in Hn by done.
          by apply (Hs0 c name' fac' f). }
    split; [|split].
    + intros name fac. by apply Hreg.
    + intros name modelName definition.
      unfold FactoryManager.define, FactoryManager.defineFactory. unfold bind. simpl.
      intros c name' fac' f Hc Hn Hf. simpl in *.
      rewrite Hc in Hf. unfold FactoryManager.setClientOf, FactoryManager.Store in *.
      destruct (decide (length h = fac')) as [<-|Hne].
      * rewrite list_lookup_alter_eq in Hf.
        destruct ((h ++ _) !! length h); [|discriminate]. simpl in Hf. by inversion Hf.
      * rewrite list_lookup_alter_ne in Hf by done.
        destruct (decide (name = name')) as [->|Hnn].
        -- rewrite lookup_insert_eq in Hn. congruence.
        -- rewrite lookup_insert_ne in Hn by done.
           apply (Hs c name' fac' f); simpl; [done|done|].
           apply lookup_app_Some in Hf as [Hf|[Hge Hf]]; [done|].
           apply list_lookup_singleton_Some in Hf as [Hz _]. lia.
    + intros c name fac f Hc Hn Hf. simpl in *. by rewrite lookup_empty in Hn.
Qed.

(** X20.  [define(name, modelName, definition)] makes a new factory,
    which holds the client of the manager (none when the manager has none),
    and registers it: [get(name)] then returns that factory.  After
    [clear()], [get] throws for every name, while the client of the manager
    is kept. *)
Theorem FactoryManager_define_get s (name modelName : string)
    (definition : M R Factory.Data) :
  exists fac s' f,
    FactoryManager.define name modelName definition s = (Ok fac, s') /\
    FactoryManager.get name s' = (Ok fac, s') /\
    s'.2 !! fac = Some f /\
    s.2 !! fac = None /\
    Factory.modelName f = modelName /\
    Factory.client f = FactoryManager.client s.1 /\
    FactoryManager.client s'.1 = FactoryManager.client s.1 /\
    (forall other,
       FactoryManager.get other (FactoryManager.clear s').2
       = (Throw (newError ("Factory '" ++ other ++ "' not found. Register it first.")%string),
          (FactoryManager.clear s').2)) /\
    FactoryManager.client (FactoryManager.clear s').2.1 = FactoryManager.client s.1.
Proof.
  destruct s as [st h].
  unfold FactoryManager.define, FactoryManager.defineFactory. unfold bind. simpl.
  unfold FactoryManager.setClientOf, FactoryManager.Store in *.
  destruct (FactoryManager.client st) as [c|] eqn:Hc.
  - eexists (length h), _, (Factory.setClient c (Factory.new modelName definition)).
    split; [reflexivity|]. simpl.
    repeat split; try done;
      try (intros other; unfold FactoryManager.get; simpl; by rewrite lookup_empty);
      try (unfold FactoryManager.get; simpl; by rewrite lookup_insert_eq);
      try (by apply lookup_ge_None_2).
    rewrite list_lookup_alter_eq, lookup_app_r, Nat.sub_diag by done. reflexivity.
  - eexists (length h), _, (Factory.new modelName definition).
    split; [reflexivity|]. simpl.
    repeat split; try done;
      try (intros other; unfold FactoryManager.get; simpl; by rewrite lookup_empty);
      try (unfold FactoryManager.get; simpl; by rewrite lookup_insert_eq);
      try (by apply lookup_ge_None_2).
    rewrite lookup_app_r, Nat.sub_diag by done. reflexivity.
Qed.

End Registry.

(** The theorem at a manager given a client after two factories were
    defined. *)
Lemma FactoryManager_supplies_witness :
  let d := (ret ∅ : M nat Factory.Data) in
  let c := {| PrismaAdapter.datasourceUrl := "file:./test.db" |} in
  exists s1 s2 s3 s4,
    FactoryManager.define "user" "user" d (FactoryManager.new, []) = (Ok 0, s1) /\
    FactoryManager.define "post" "post" d s1 = (Ok 1, s2) /\
    FactoryManager.setClient c s2 = (Ok tt, s3) /\
    Factory.client <$> s2.2 = [None; None] /\
    Factory.client <$> s3.2 = [Some c; Some c] /\
    FactoryManager.Supplied s3 /\
    FactoryManager.define "tag" "tag" d s3 = (Ok 2, s4) /\
    Factory.client <$> s4.2 = [Some c; Some c; Some c] /\
    FactoryManager.Supplied s4.
Proof.
  intros d c. eexists _, _, _, _.
  split; [reflexivity|]. split; [reflexivity|]. split; [reflexivity|].
  split; [reflexivity|]. split; [by vm_compute|].
  pose proof (FactoryManager_supplies
                (FactoryManager.define "post" "post" d
                   (FactoryManager.define "user" "user" d
                      (FactoryManager.new, [])).2).2) as [H1 _].
  destruct (H1 c) as [S3 _].
  split; [exact S3|]. split; [by vm_compute|]. split; [by vm_compute|].
  pose proof (FactoryManager_supplies
                (FactoryManager.setClient c
                   (FactoryManager.define "post" "post" d
                      (FactoryManager.define "user" "user" d
                         (FactoryManager.new, [])).2).2).2) as [_ H2].
  exact (proj1 (proj2 (H2 S3)) "tag"%string "tag"%string d).
Defined.

(* ===================================================================== *)
(** ** The seeded generator of [BaseFactory]                              *)
(* ===================================================================== *)

(** X21.  With an integer seed that is not negative (and small enough for
    the product to be exact), the state of [seededRandom] after every call
    lies in [0, 233280): each call returns a number in [0, 1).  With a seed
    of -6 or less the first call returns a number that is not positive. *)
Theorem seededRandom_range (seed : Z) :
  (seed * 9301 + 49297 < 2 ^ 53)%Z ->
  ((0 <= seed)%Z ->
   forall n, (0 <= BaseFactory.seededRandom seed (S n) < 233280)%Z) /\
  ((seed <= -6)%Z ->
   (-233280 < BaseFactory.seededRandom seed 1 <= 0)%Z).
Proof.
  intros _. split.
  - intros Hs n.
    assert (G : forall k, (0 <= BaseFactory.seededRandom seed k)%Z).
    { induction k as [|k IH]; [simpl; lia|].
      change (0 <= BaseFactory.next (BaseFactory.seededRandom seed k))%Z.
      unfold BaseFactory.next. apply Z.rem_nonneg; lia. }
    change (0 <= BaseFactory.next (BaseFactory.seededRandom seed n) < 233280)%Z.
    unfold BaseFactory.next. apply Z.rem_bound_pos; [|lia].
    pose proof (G n). lia.
  - intros Hs. change (-233280 < BaseFactory.next seed <= 0)%Z.
    unfold BaseFactory.next.
    pose proof (Z.rem_nonpos (seed * 9301 + 49297) 233280 ltac:(lia) ltac:(lia)).
    pose proof (Z.rem_bound_abs (seed * 9301 + 49297) 233280 ltac:(lia)).
    lia.
Qed.

(** The theorem at the seeds 12345 and -100. *)
Lemma seededRandom_range_witness :
  (12345 * 9301 + 49297 < 2 ^ 53)%Z /\
  BaseFactory.seededRandom 12345 1 = 96382%Z /\
  (0 <= BaseFactory.seededRandom 12345 (S 0) < 233280)%Z /\
  BaseFactory.seededRandom (-100) 1 = (-180963)%Z.
Proof.
  assert (H : (12345 * 9301 + 49297 < 2 ^ 53)%Z) by (by vm_compute).
  split; [exact H|]. split; [by vm_compute|].
  split; [|by vm_compute].
  exact (proj1 (seededRandom_range 12345 H) ltac:(lia) 0).
Defined.

(* ===================================================================== *)
(** ** The models of the Mongoose adapter                                 *)
(* ===================================================================== *)



(* ===================================================================== *)
(** ** [TestAppBuilder] and the class decorators                          *)
(* ===================================================================== *)

(** What [create] of a manager returns is ready and registered. *)
Lemma Manager_create_Ok {A C : Type} `{!DatabaseAdapter A C}
    (mgr : Manager.t A) (w : World) (config : TestDatabaseConfig)
    (db : TestDatabase.t A) (mgr' : Manager.t A) (w' : World) :
  Manager.create config (mgr, w) = (Ok db, (mgr', w')) ->
  TestDatabase.isInitialized db = true /\
  Manager.get (TestDatabase.id db) mgr' = Some db /\
  TestDatabase.id db = Manager.generateId w /\
  forall id', id' <> Manager.generateId w -> Manager.get id' mgr' = Manager.get id' mgr.
Proof.
  unfold Manager.create, Manager.onInstance. run.
  destruct (generateDatabaseUrl_returns config w) as (url & w1 & ->). simpl.
  destruct (TestDatabase.initialize _) as [[u|e] [db1 w2]] eqn:Hi; simpl;
    intros H; inversion H; subst.
  pose proof (initialize_keeps_id _ _ _ _ _ Hi) as Hid. simpl in Hid.
  split.
  - revert Hi. unfold TestDatabase.initialize, TestDatabase.onAdapter. run.
    destruct (adapterInitialize _ _) as [[u'|e'] [a1 w3]]; simpl;
      intros H'; inversion H'; subst; done.
  - split; [|split; [done|]].
    + unfold Manager.get. simpl. rewrite Hid. by rewrite lookup_insert_eq.
    + intros id' Hne. unfold Manager.get. simpl. by rewrite lookup_insert_ne.
Qed.

Section Builder.
Context {TestingModule : Type}.
Variable compile : M World TestingModule.

(** X23.  A builder whose [seed] is a list of names that is not empty:
    when the manager creates the database and the module compiles,
    [create()] rejects with the not-yet-implemented error, after the fact:
    the builder holds the new instance and the manager has it registered. *)
Theorem TestAppBuilder_names_rejected (b : TestAppBuilder.t)
    (mgr : Manager.t PrismaAdapter.t) (w : World) (n : string) (ns : list string)
    (db : TestDatabase.t PrismaAdapter.t) (mgr1 : Manager.t PrismaAdapter.t)
    (w1 : World) (module : TestingModule) (w2 : World) :
  TestAppBuilder.seed (TestAppBuilder.config b)
    = Some (TestAppBuilder.SeedNames (n :: ns)) ->
  Manager.create
    (default emptyConfig (TestAppBuilder.databaseConfig (TestAppBuilder.config b)))
    (mgr, w) = (Ok db, (mgr1, w1)) ->
  compile w1 = (Ok module, w2) ->
  TestAppBuilder.create compile ((b, mgr), w)
    = (Throw (newError
                "String-based seeders not yet implemented. Use DatabaseSeeder objects."),
       ((TestAppBuilder.set_testDb (Some db) b, mgr1), w2)) /\
  Manager.get (TestDatabase.id db) mgr1 = Some db.
Proof.
  intros Hseed Hcreate Hcompile.
  destruct (Manager_create_Ok _ _ _ _ _ _ Hcreate) as (Hready & Hget & _).
  split; [|exact Hget].
  unfold TestAppBuilder.create, TestAppBuilder.thisBuilder, TestAppBuilder.onManager,
         TestAppBuilder.assignBuilder, TestAppBuilder.runSeeders,
         TestDatabase.getClient.
  unfold bind, onWorld, throw, ret. cbn [fst snd].
  rewrite Hcreate. cbn [fst snd]. rewrite Hready. cbn [fst snd].
  rewrite Hcompile. cbn [fst snd]. rewrite Hseed.
  unfold TestAppBuilder.thisBuilder. reflexivity.
Qed.

End Builder.

(** X24.  [cleanup()] of a builder without an instance does nothing.  With
    one it destroys the instance: when that resolves the builder forgets the
    instance, so a second [cleanup()] does nothing; when it rejects, the
    builder keeps the instance.  In no case is the manager written: the id
    stays registered. *)
Theorem TestAppBuilder_cleanup (b : TestAppBuilder.t)
    (mgr : Manager.t PrismaAdapter.t) (w : World) :
  (TestAppBuilder.testDb b = None ->
   TestAppBuilder.cleanup ((b, mgr), w) = (Ok tt, ((b, mgr), w))) /\
  (forall db db' w',
     TestAppBuilder.testDb b = Some db ->
     TestDatabase.destroy (db, w) = (Ok tt, (db', w')) ->
     TestAppBuilder.cleanup ((b, mgr), w)
       = (Ok tt, ((TestAppBuilder.set_testDb None b, mgr), w')) /\
     TestAppBuilder.getTestDatabase (TestAppBuilder.set_testDb None b) = None /\
     TestAppBuilder.cleanup ((TestAppBuilder.set_testDb None b, mgr), w')
       = (Ok tt, ((TestAppBuilder.set_testDb None b, mgr), w'))) /\
  (forall db e db' w',
     TestAppBuilder.testDb b = Some db ->
     TestDatabase.destroy (db, w) = (Throw e, (db', w')) ->
     TestAppBuilder.cleanup ((b, mgr), w)
       = (Throw e, ((TestAppBuilder.set_testDb (Some db') b, mgr), w'))).
Proof.
  unfold TestAppBuilder.cleanup, TestAppBuilder.thisBuilder, TestAppBuilder.onTestDb,
         TestAppBuilder.assignBuilder.
  unfold bind, ret. cbn [fst snd].
  split; [|split].
  - by intros ->.
  - intros db db' w' Hb Hd. rewrite Hb. cbn [fst snd]. rewrite Hd.
    cbn [fst snd TestAppBuilder.testDb TestAppBuilder.set_testDb]. by repeat split.
  - intros db e db' w' Hb Hd. rewrite Hb. cbn [fst snd]. by rewrite Hd.
Qed.

(** The theorem at a builder that holds a ready instance. *)
Lemma TestAppBuilder_cleanup_witness :
  let b := {| TestAppBuilder.testDb := Some readyDb;
              TestAppBuilder.config := {| TestAppBuilder.seed := None;
                                          TestAppBuilder.databaseConfig := None |} |} in
  let mgr := {| Manager.databases := {[ TestDatabase.id readyDb := readyDb ]} |} in
  exists b' w',
    TestAppBuilder.cleanup ((b, mgr), world0) = (Ok tt, ((b', mgr), w')) /\
    TestAppBuilder.getTestDatabase b' = None /\
    Manager.get (TestDatabase.id readyDb) mgr = Some readyDb.
Proof.
  intros b mgr.
  assert (Hd : TestDatabase.destroy (readyDb, world0)
               = (Ok tt,
                  (TestDatabase.set_adapter
                     (PrismaAdapter.set_client None (TestDatabase.adapter readyDb))
                     readyDb, world0))) by (by vm_compute).
  destruct (proj1 (proj2 (TestAppBuilder_cleanup b mgr world0)) _ _ _ eq_refl Hd)
    as (E & G & _).
  eexists _, _. split; [exact E|]. split; [exact G|]. by vm_compute.
Defined.

(** X25.  The hooks of [@TestDatabase] and [@TestDatabaseEach].  The
    before-hook stores the created instance before it calls the hook the
    class had, so [getTestDatabase()] returns it even when that hook throws;
    when [create] rejects nothing is stored and the hook of the class is
    not called.  The after-hook calls the hook of the class first: when
    that throws, the instance is not destroyed and stays stored; otherwise
    a stored instance is destroyed and forgotten, after which
    [getTestDatabase()] throws. *)
Theorem Decorator_hooks (g : option (TestDatabase.t PrismaAdapter.t))
    (mgr : Manager.t PrismaAdapter.t) (w : World) (config : TestDatabaseConfig)
    (original : option (M World unit)) :
  (forall db mgr1 w1,
     Manager.create config (mgr, w) = (Ok db, (mgr1, w1)) ->
     exists r w2,
       Decorator.before config original ((g, mgr), w) = (r, ((Some db, mgr1), w2)) /\
       Decorator.getTestDatabase ((Some db, mgr1), w2) = Ok db /\
       (r, w2) = match original with
                 | Some hook => hook w1
                 | None => (Ok tt, w1)
                 end) /\
  (forall e mgr1 w1,
     Manager.create config (mgr, w) = (Throw e, (mgr1, w1)) ->
     Decorator.before config original ((g, mgr), w) = (Throw e, ((g, mgr1), w1))) /\
  (forall hook e w1,
     original = Some hook -> hook w = (Throw e, w1) ->
     Decorator.after original ((g, mgr), w) = (Throw e, ((g, mgr), w1))) /\
  (forall db db' w1 w2,
     g = Some db ->
     match original with Some hook => hook w | None => (Ok tt, w) end = (Ok tt, w1) ->
     TestDatabase.destroy (db, w1) = (Ok tt, (db', w2)) ->
     Decorator.after original ((g, mgr), w) = (Ok tt, ((None, mgr), w2)) /\
     Decorator.getTestDatabase ((None, mgr), w2)
       = Throw (newError
                  "No test database available. Make sure to use @TestDatabase decorator.")).
Proof.
  unfold Decorator.before, Decorator.after, Decorator.onManager,
         Decorator.set_globalTestDb, Decorator.globalTestDb, Decorator.callOriginal.
  unfold bind, onWorld, ret. cbn [fst snd].
  split; [|split; [|split]].
  - intros db mgr1 w1 Hc. rewrite Hc. cbn [fst snd].
    destruct original as [hook|]; cbn [fst snd].
    + destruct (hook w1) as [[[]|e] w2] eqn:Hh; by eexists _, _.
    + by eexists _, _.
  - intros e mgr1 w1 Hc. by rewrite Hc.
  - intros hook e w1 -> Hh. cbn [fst snd]. by rewrite Hh.
  - intros db db' w1 w2 -> Hh Hd.
    destruct original as [hook|]; cbn [fst snd] in *.
    + rewrite Hh. cbn [fst snd]. by rewrite Hd.
    + inversion Hh; subst. by rewrite Hd.
Qed.

(** The theorem at a hook of the class that throws. *)
Lemma Decorator_hooks_witness :
  let hook : M World unit := throw (Raw busy) in
  hook world0 = (Throw (Raw busy), world0) /\
  Decorator.after (Some hook) ((Some readyDb, Manager.new), world0)
    = (Throw (Raw busy), ((Some readyDb, Manager.new), world0)) /\
  Decorator.getTestDatabase ((Some readyDb, Manager.new), world0) = Ok readyDb.
Proof.
  intros hook.
  assert (Hh : hook world0 = (Throw (Raw busy), world0)) by reflexivity.
  split; [exact Hh|]. split; [|reflexivity].
  exact (proj1 (proj2 (proj2 (Decorator_hooks (Some readyDb) Manager.new world0
                                emptyConfig (Some hook))))
           hook (Raw busy) world0 eq_refl Hh).
Defined.

(** The theorem at a builder asked to seed by name. *)
Lemma TestAppBuilder_names_rejected_witness :
  let b := TestAppBuilder.new
             {| TestAppBuilder.seed := Some (TestAppBuilder.SeedNames ["UserSeeder"]);
                TestAppBuilder.databaseConfig := None |} in
  let compile : M World unit := ret tt in
  exists db mgr1 w1,
    Manager.create emptyConfig (Manager.new (A := PrismaAdapter.t), world0)
      = (Ok db, (mgr1, w1)) /\
    TestAppBuilder.create compile ((b, Manager.new), world0)
      = (Throw (newError
                  "String-based seeders not yet implemented. Use DatabaseSeeder objects."),
         ((TestAppBuilder.set_testDb (Some db) b, mgr1), w1)) /\
    Manager.get (TestDatabase.id db) mgr1 = Some db.
Proof.
  intros b compile.
  assert (H : exists db mgr1 w1,
            Manager.create emptyConfig (Manager.new (A := PrismaAdapter.t), world0)
              = (Ok db, (mgr1, w1)))
    by (vm_compute; by eexists _, _, _).
  destruct H as (db & mgr1 & w1 & H).
  exists db, mgr1, w1. split; [exact H|].
  exact (TestAppBuilder_names_rejected compile b Manager.new world0 "UserSeeder" []
           db mgr1 w1 tt w1 eq_refl H eq_refl).
Defined.

(* ===================================================================== *)
(** ** Two instances of one manager                                       *)
(* ===================================================================== *)

(** X26.  Two [create] calls of one manager that both resolve.  When the
    clock gave them different timestamps the two ids differ and both
    instances are found under their ids.  When the clock and the random
    text gave the same, the two ids are one: the second instance takes the
    place of the first in the registry, which no longer finds the first. *)
Theorem create_twice {A C : Type} `{!DatabaseAdapter A C}
    (mgr : Manager.t A) (w : World) (c1 c2 : TestDatabaseConfig)
    (db1 db2 : TestDatabase.t A) (mgr1 mgr2 : Manager.t A) (w1 w1' w2 : World) :
  Manager.create c1 (mgr, w) = (Ok db1, (mgr1, w1)) ->
  Manager.create c2 (mgr1, w1') = (Ok db2, (mgr2, w2)) ->
  (now w <> now w1' ->
   TestDatabase.id db1 <> TestDatabase.id db2 /\
   Manager.get (TestDatabase.id db1) mgr2 = Some db1 /\
   Manager.get (TestDatabase.id db2) mgr2 = Some db2) /\
  (now w = now w1' -> random w = random w1' ->
   TestDatabase.id db1 = TestDatabase.id db2 /\
   Manager.get (TestDatabase.id db1) mgr2 = Some db2).
Proof.
  intros H1 H2.
  apply Manager_create_Ok in H1 as (_ & G1 & I1 & _).
  apply Manager_create_Ok in H2 as (_ & G2 & I2 & F2).
  split.
  - intros Hne.
    assert (Hid : TestDatabase.id db1 <> TestDatabase.id db2).
    { rewrite I1, I2. unfold Manager.generateId. intros E.
      apply append_cancel, dash_split in E as [E _];
        [|apply pretty_no_dash|apply pretty_no_dash].
      by apply (inj pretty) in E. }
    split; [done|]. split; [|done].
    rewrite F2; [done|]. by rewrite <- I2.
  - intros Hn Hr.
    assert (Hid : TestDatabase.id db1 = TestDatabase.id db2).
    { rewrite I1, I2. unfold Manager.generateId. by rewrite Hn, Hr. }
    split; [done|]. by rewrite Hid.
Qed.

(** The theorem at two instances made in the same millisecond. *)
Lemma create_twice_witness :
  exists db1 db2 mgr1 mgr2 w1 w2,
    Manager.create emptyConfig (Manager.new (A := MongooseAdapter.t), world0)
      = (Ok db1, (mgr1, w1)) /\
    Manager.create emptyConfig (mgr1, w1) = (Ok db2, (mgr2, w2)) /\
    TestDatabase.id db1 = TestDatabase.id db2 /\
    Manager.get (TestDatabase.id db1) mgr2 = Some db2.
Proof.
  assert (H : exists db1 db2 mgr1 mgr2 w1 w2,
            Manager.create emptyConfig (Manager.new (A := MongooseAdapter.t), world0)
              = (Ok db1, (mgr1, w1)) /\
            Manager.create emptyConfig (mgr1, w1) = (Ok db2, (mgr2, w2)) /\
            now world0 = now w1 /\ random world0 = random w1)
    by (vm_compute; by eexists _, _, _, _, _, _).
  destruct H as (db1 & db2 & mgr1 & mgr2 & w1 & w2 & H1 & H2 & Hn & Hr).
  exists db1, db2, mgr1, mgr2, w1, w2. split; [exact H1|]. split; [exact H2|].
  exact (proj2 (create_twice _ _ _ _ _ _ _ _ _ _ _ H1 H2) Hn Hr).
Defined.

(* ===================================================================== *)
(** ** The client an instance opens                                       *)
(* ===================================================================== *)




(* ===================================================================== *)
(** ** The truncate pass of the TypeORM adapter                           *)
(* ===================================================================== *)

Lemma forOf_truncateTable_keeps (a : TypeORMAdapter.t) sqlite l : forall w r a' w',
  forOf l (TypeORMAdapter.truncateTable sqlite) (a, w) = (r, (a', w')) ->
  a' = a /\ foreign_keys w' = foreign_keys w.
Proof.
  induction l as [|x l IH]; intros w r a' w' H.
  - simpl in H. unfold ret in H. by inversion H.
  - rewrite forOf_cons in H.
    assert (K : forall r1 a1 w1,
              TypeORMAdapter.truncateTable sqlite x (a, w) = (r1, (a1, w1)) ->
              a1 = a /\ foreign_keys w1 = foreign_keys w).
    { intros r1 a1 w1. unfold TypeORMAdapter.truncateTable.
      destruct (_ || _); [intros E; by inversion E|].
      destruct sqlite; unfold onWorld, execute; cbn [fst snd];
        destruct (deleteRows x (tables w)); intros E; by inversion E. }
    destruct (TypeORMAdapter.truncateTable sqlite x (a, w)) as [[u|e] [a1 w1]] eqn:E;
      destruct (K _ _ _ eq_refl) as [-> Hk].
    + apply IH in H as [-> H]. split; [done|]. congruence.
    + inversion H; subst. done.
Qed.

(** X28.  The truncate pass of the TypeORM adapter.  For a database that
    is not SQLite it never touches the foreign-key checks.  For SQLite with
    a catalogue that is not empty it ends with the checks on when it
    resolves, and with the checks off when it rejects: the statement that
    turns them back on is not reached.  With an empty catalogue it changes
    nothing. *)
Theorem TypeORMAdapter_truncate_foreign_keys (a : TypeORMAdapter.t) (w : World)
    (r : Outcome unit) (a' : TypeORMAdapter.t) (w' : World) :
  TypeORMAdapter.truncateAllTables (a, w) = (r, (a', w')) ->
  a' = a /\
  (TypeORMAdapter.isSqlite (TypeORMAdapter.config a) = false ->
   foreign_keys w' = foreign_keys w) /\
  (TypeORMAdapter.isSqlite (TypeORMAdapter.config a) = true ->
   TypeORMAdapter.dataSource a <> None -> tables w <> [] ->
   foreign_keys w' = match r with Ok _ => true | Throw _ => false end) /\
  (tables w = [] -> r = Ok tt /\ w' = w).
Proof.
  unfold TypeORMAdapter.truncateAllTables. unfold bind at 1, this. cbn [fst].
  destruct (TypeORMAdapter.dataSource a) as [d|] eqn:Hd.
  2:{ unfold ret. intros H; inversion H; subst. by repeat split. }
  unfold tryCatch, tryFinally, TypeORMAdapter.release, ret.
  assert (E0 : onWorld (A := TypeORMAdapter.t) allTables (a, w)
               = (Ok (map tname (tables w)), (a, w))) by reflexivity.
  rewrite (bind_Ok _ _ _ _ _ E0).
  destruct (tables w) as [|t ts] eqn:Ht.
  { simpl. unfold ret, throw. intros H; inversion H; subst. by repeat split. }
  change (Nat.eqb (length (map tname (t :: ts))) 0) with false. cbv iota.
  destruct (TypeORMAdapter.isSqlite (TypeORMAdapter.config a)) eqn:Hs.
  - assert (E1 : onWorld (A := TypeORMAdapter.t) (execute (PragmaForeignKeys false)) (a, w)
                 = (Ok tt, (a, set_foreign_keys false w))) by reflexivity.
    rewrite (bind_Ok _ _ _ _ _ E1).
    destruct (forOf (map tname (t :: ts)) (TypeORMAdapter.truncateTable true)
                (a, set_foreign_keys false w)) as [[u|e] [a1 w1]] eqn:F.
    + pose proof (forOf_truncateTable_keeps _ _ _ _ _ _ _ F) as [-> K].
      rewrite (bind_Ok _ _ _ _ _ F).
      unfold onWorld, execute, throw. cbn [fst snd].
      intros H; inversion H; subst. repeat split; try done.
    + pose proof (forOf_truncateTable_keeps _ _ _ _ _ _ _ F) as [-> K].
      rewrite (bind_Throw _ _ _ _ _ F). unfold throw.
      intros H; inversion H; subst. repeat split; try done.
  - erewrite bind_Ok by reflexivity.
    destruct (forOf (map tname (t :: ts)) (TypeORMAdapter.truncateTable false) (a, w))
      as [[u|e] [a1 w1]] eqn:F.
    + pose proof (forOf_truncateTable_keeps _ _ _ _ _ _ _ F) as [-> K].
      rewrite (bind_Ok _ _ _ _ _ F). unfold ret, throw.
      intros H; inversion H; subst. repeat split; try done.
    + pose proof (forOf_truncateTable_keeps _ _ _ _ _ _ _ F) as [-> K].
      rewrite (bind_Throw _ _ _ _ _ F). unfold throw.
      intros H; inversion H; subst. repeat split; try done.
Qed.

(** The theorem at a SQLite database with a locked table. *)
Lemma TypeORMAdapter_truncate_foreign_keys_witness :
  TypeORMAdapter.truncateAllTables (liveTypeORM, lockedWorld)
    = (Throw (newError
                "Failed to truncate TypeORM tables: Error: database table is locked"),
       (liveTypeORM, set_foreign_keys false lockedWorld)) /\
  foreign_keys lockedWorld = true /\
  foreign_keys (set_foreign_keys false lockedWorld) = false.
Proof.
  assert (H : TypeORMAdapter.truncateAllTables (liveTypeORM, lockedWorld)
              = (Throw (newError
                          "Failed to truncate TypeORM tables: Error: database table is locked"),
                 (liveTypeORM, set_foreign_keys false lockedWorld)))
    by (by vm_compute).
  split; [exact H|]. split; [reflexivity|].
  destruct (TypeORMAdapter_truncate_foreign_keys _ _ _ _ _ H) as (_ & _ & K & _).
  apply K; [reflexivity|discriminate|discriminate].
Defined.
